(** * get_bridge_logs.py: device resolution and archiver log retrieval

    A shallow embedding of [ArchiverBridgeLogRetriever.get_device_info],
    [create_dirs] and [pull_logs] of [src/get_bridge_logs.py], together with
    the pieces of the Python run time they rest on: [bytes] and their [repr],
    [strftime], subscripting of decoded JSON, a file system with directories,
    and the HTTP exchanges as an oracle that is logged.  The login
    ([__init__], [authenticate], [authorize]) is in [Login], over a state of
    its own; the three input loops of [__main__] are in [Main]. *)

From Stdlib Require Import Strings.Ascii Strings.String Strings.Byte.
From stdpp Require Import base strings list gmap pretty.

Local Open Scope string_scope.
Set Warnings "-register-all".

(** ** Python values: [str], [bytes], [int] formatting *)

Module Py.

(** A Python [bytes] object. *)
Definition bytes := list byte.

Definition b_ (s : string) : bytes := list_byte_of_string s.

Definition chr (n : N) : ascii := ascii_of_N n.
Definition squote : ascii := chr 39.
Definition dquote : ascii := chr 34.
Definition backslash : ascii := chr 92.
Definition newline : string := String (chr 10) "".

Definition hex_char (d : N) : ascii :=
  if (d <? 10)%N then chr (48 + d) else chr (87 + d).

Definition has_byte (c : ascii) (bs : bytes) : bool :=
  existsb (fun b => Ascii.eqb (ascii_of_byte b) c) bs.

(** One byte of [repr(bytes)] (CPython's [PyBytes_Repr]). *)
Definition repr_byte (quote : ascii) (b : byte) : string :=
  let c := ascii_of_byte b in
  let n := Byte.to_N b in
  if Ascii.eqb c quote || Ascii.eqb c backslash then String backslash (String c "")
  else if (n =? 9)%N then String backslash "t"
  else if (n =? 10)%N then String backslash "n"
  else if (n =? 13)%N then String backslash "r"
  else if (n <? 32)%N || (127 <=? n)%N
       then String backslash (String "x" (String (hex_char (n / 16)) (String (hex_char (n mod 16)) "")))
  else String c "".

(** [repr(b)] for [b : bytes]: the literal [b'...'], with double quotes when
    the value holds a single quote and no double quote. *)
Definition repr_bytes (bs : bytes) : string :=
  let quote := if has_byte squote bs && negb (has_byte dquote bs) then dquote else squote in
  String "b" (String quote (fold_right (fun b acc => repr_byte quote b ++ acc) (String quote "") bs)).

(** [str(b)] for [b : bytes] is its [repr] (no encoding is given). *)
Definition str_bytes (bs : bytes) : string := repr_bytes bs.

(** The text a [bytes] value would be, byte for byte. *)
Definition text_of_bytes (bs : bytes) : string :=
  string_of_list_ascii (map ascii_of_byte bs).

(** [str(n)] for an [int]. *)
Definition str_int (n : Z) : string := pretty n.

(** Decimal [n], zero-filled on the left to at least [w] characters
    (the [%02d], [%04d], [%06d] of [strftime]). *)
Fixpoint zeros (k : nat) : string :=
  match k with O => "" | S k' => String "0" (zeros k') end.

Definition zpad (w : nat) (n : N) : string :=
  let s := pretty n in zeros (w - String.length s) ++ s.

(** The slice [s[:k]]. *)
Fixpoint str_take (k : nat) (s : string) : string :=
  match k, s with
  | S k', String c s' => String c (str_take k' s')
  | _, _ => ""
  end.

End Py.

(** ** [datetime] *)

Record datetime := mk_datetime {
  year : N; month : N; day : N;
  hour : N; minute : N; second : N; microsecond : N
}.

Definition is_leap (y : N) : bool :=
  ((y mod 4 =? 0) && (negb (y mod 100 =? 0) || (y mod 400 =? 0)))%N.

Definition days_in_month (y m : N) : N :=
  if (m =? 2)%N then (if is_leap y then 29 else 28)%N
  else if ((m =? 4) || (m =? 6) || (m =? 9) || (m =? 11))%N then 30%N
  else 31%N.

(** What the [datetime] constructor accepts. *)
Definition valid_datetime (dt : datetime) : Prop :=
  (1 <= year dt <= 9999 /\ 1 <= month dt <= 12 /\
   1 <= day dt <= days_in_month (year dt) (month dt) /\
   hour dt < 24 /\ minute dt < 60 /\ second dt < 60 /\
   microsecond dt < 1000000)%N.

(** [dt.strftime('%Y%m%d%H%M%S.%f')], with the [strftime] of glibc that
    CPython calls: the year in decimal without zero filling (three digits
    for the year 999), the five two-digit fields, a dot, microseconds as six
    digits. *)
Definition strftime_YmdHMS_f (dt : datetime) : string :=
  pretty (year dt) ++ Py.zpad 2 (month dt) ++ Py.zpad 2 (day dt) ++
  Py.zpad 2 (hour dt) ++ Py.zpad 2 (minute dt) ++ Py.zpad 2 (second dt) ++
  "." ++ Py.zpad 6 (microsecond dt).

(** [convert_dt_to_een_time], local to [pull_logs]:
    [dt.strftime('%Y%m%d%H%M%S.%f')[:18]]. *)
Definition convert_dt_to_een_time (dt : datetime) : string :=
  Py.str_take 18 (strftime_YmdHMS_f dt).

(** ** Decoded JSON and the exceptions of the run time *)

(** The Python values [response.json()] yields, and the lists and dicts the
    code builds from them.  A dict keeps its items in insertion order.  JSON
    numbers with a fraction or an exponent (Python floats) are left out. *)
Inductive pyval :=
| PNone
| PBool (b : bool)
| PInt (n : Z)
| PStr (s : string)
| PList (xs : list pyval)
| PDict (kvs : list (pyval * pyval)).

Inductive exn :=
| IndexError | KeyError | TypeError | ValueError
| JSONDecodeError            (* a ValueError *)
| FileNotFoundError | FileExistsError | IsADirectoryError   (* OSErrors *)
| NotADirectoryError
| RequestException.          (* what requests raises: connection, timeout *)

(** Only [IndexError] is an [IndexError]; all of them are [Exception]s. *)
Definition is_IndexError (e : exn) : bool :=
  match e with IndexError => true | _ => false end.

Module PyVal.

Definition hashable (v : pyval) : bool :=
  match v with PList _ | PDict _ => false | _ => true end.

(** [bool] is a subclass of [int]: [True == 1] and they hash alike. *)
Definition as_int (v : pyval) : option Z :=
  match v with
  | PBool b => Some (if b then 1 else 0)%Z
  | PInt n => Some n
  | _ => None
  end.

(** [a == b] on the hashable values (dict keys). *)
Definition py_eq (a b : pyval) : bool :=
  match a, b with
  | PNone, PNone => true
  | PStr s, PStr t => String.eqb s t
  | _, _ => match as_int a, as_int b with
            | Some x, Some y => (x =? y)%Z
            | _, _ => false
            end
  end.

Definition dict_get (kvs : list (pyval * pyval)) (k : pyval) : option pyval :=
  snd <$> find (fun kv => py_eq (fst kv) k) kvs.

(** [d[k] = v] / [d.update({k: v})]: an existing key keeps its place and its
    key object, a new key goes last. *)
Fixpoint dict_set (kvs : list (pyval * pyval)) (k v : pyval) : list (pyval * pyval) :=
  match kvs with
  | [] => [(k, v)]
  | (k', v') :: rest =>
      if py_eq k' k then (k', v) :: rest else (k', v') :: dict_set rest k v
  end.

Definition dict_keys (kvs : list (pyval * pyval)) : list pyval := map fst kvs.

(** [k in keys] with Python equality. *)
Definition key_in (k : pyval) (keys : list pyval) : bool := existsb (py_eq k) keys.

(** [l[i]] on a sequence: negative [i] counts from the end. *)
Definition seq_index {A} (l : list A) (i : Z) : option A :=
  let n := Z.of_nat (length l) in
  if (0 <=? i)%Z && (i <? n)%Z then l !! Z.to_nat i
  else if (- n <=? i)%Z && (i <? 0)%Z then l !! Z.to_nat (n + i)
  else None.

Definition str_chars (s : string) : list pyval :=
  map (fun c => PStr (String c "")) (list_ascii_of_string s).

(** [x[k]]. *)
Definition subscript (x k : pyval) : exn + pyval :=
  match x with
  | PDict kvs =>
      if hashable k then
        match dict_get kvs k with Some v => inr v | None => inl KeyError end
      else inl TypeError
  | PList xs =>
      match as_int k with
      | Some i => match seq_index xs i with Some v => inr v | None => inl IndexError end
      | None => inl TypeError
      end
  | PStr s =>
      match as_int k with
      | Some i => match seq_index (str_chars s) i with Some v => inr v | None => inl IndexError end
      | None => inl TypeError
      end
  | PNone | PBool _ | PInt _ => inl TypeError
  end.

(** One element of the sequence given to [dict(...)], as a key and a value:
    any iterable of exactly two items. *)
Definition pair_of_item (item : pyval) : exn + (pyval * pyval) :=
  match item with
  | PList [k; v] => inr (k, v)
  | PList _ => inl ValueError
  | PStr (String c1 (String c2 "")) => inr (PStr (String c1 ""), PStr (String c2 ""))
  | PStr _ => inl ValueError
  | PDict [(k1, _); (k2, _)] => inr (k1, k2)
  | PDict _ => inl ValueError
  | PNone | PBool _ | PInt _ => inl TypeError
  end.

Fixpoint dict_of_items (items : list pyval) (acc : list (pyval * pyval))
  : exn + list (pyval * pyval) :=
  match items with
  | [] => inr acc
  | item :: rest =>
      match pair_of_item item with
      | inl e => inl e
      | inr (k, v) =>
          if hashable k then dict_of_items rest (dict_set acc k v) else inl TypeError
      end
  end.

(** [dict(x)]: a copy of a dict, or the dict of a sequence of pairs. *)
Definition dict (x : pyval) : exn + list (pyval * pyval) :=
  match x with
  | PDict kvs => inr kvs
  | PList items => dict_of_items items []
  | PStr s => dict_of_items (str_chars s) []
  | PNone | PBool _ | PInt _ => inl TypeError
  end.

End PyVal.

(** ** The file system *)

Module Os.

(** Where a path points: the components from the root.  A relative path is
    taken from the working directory.  Empty components and [.] are dropped
    as the kernel does; symbolic links and [..] are not interpreted. *)
Definition fspath : Type := list string.

Fixpoint split_on (sep : ascii) (s : string) : list string :=
  match s with
  | EmptyString => [""]
  | String c s' =>
      let r := split_on sep s' in
      if Ascii.eqb c sep then "" :: r
      else match r with
           | x :: xs => String c x :: xs
           | [] => [String c ""]
           end
  end.

Definition is_abs (p : string) : bool :=
  match p with String c _ => Ascii.eqb c "/" | EmptyString => false end.

(** A component that names something: not empty, not [.]. *)
Definition proper_component (c : string) : bool :=
  negb (String.eqb c "" || String.eqb c ".").

Definition components (p : string) : list string :=
  List.filter proper_component (split_on "/" p).

Definition resolve (cwd : fspath) (p : string) : fspath :=
  if is_abs p then components p else (cwd ++ components p)%list.

Definition parent (p : fspath) : fspath := removelast p.

(** The directories above [p], the root first. *)
Definition ancestors (p : fspath) : list fspath :=
  map (fun n => take n p) (seq 0 (length p)).

(** How a path ends: with a name, with a slash, or with [.]; the last two
    ask for a directory. *)
Inductive ending := Plain | Slash | Dot.

Fixpoint drop_empty (l : list string) : list string :=
  match l with
  | x :: rest => if String.eqb x "" then drop_empty rest else l
  | [] => []
  end.

Definition ending_of (p : string) : ending :=
  let raw := split_on "/" p in
  let named := drop_empty (rev raw) in
  match named with
  | x :: _ =>
      if String.eqb x "." then Dot
      else if (length named <? length raw)%nat then Slash else Plain
  | [] => Slash
  end.

Fixpoint is_prefix (p q : fspath) : bool :=
  match p, q with
  | [], _ => true
  | x :: p', y :: q' => String.eqb x y && is_prefix p' q'
  | _ :: _, [] => false
  end.

Record FS := mk_FS {
  cwd : fspath;                   (* the working directory *)
  dirs : gset fspath;             (* the other directories that exist *)
  files : gmap fspath string      (* the regular files and their text *)
}.

(** The working directory and the directories above it, the root among
    them, always exist. *)
Definition is_dir (fs : FS) (p : fspath) : bool :=
  is_prefix p (cwd fs) || bool_decide (p ∈ dirs fs).

Definition is_file (fs : FS) (p : fspath) : bool :=
  bool_decide (is_Some (files fs !! p)).

(** A regular file stands where a directory above [p] should be. *)
Definition below_file (fs : FS) (p : fspath) : bool :=
  existsb (is_file fs) (ancestors p).

(** [os.path.join(a, b)] (posixpath, two arguments). *)
Definition ends_with_slash (a : string) : bool :=
  match rev (list_ascii_of_string a) with c :: _ => Ascii.eqb c "/" | [] => false end.

Definition path_join (a b : string) : string :=
  if is_abs b then b
  else if String.eqb a "" || ends_with_slash a then a ++ b
  else a ++ "/" ++ b.

(** [os.path.isdir(p)], [os.path.isfile(p)], [os.path.exists(p)]. *)
Definition isdir (fs : FS) (p : string) : bool :=
  negb (String.eqb p "") && is_dir fs (resolve (cwd fs) p).

Definition isfile (fs : FS) (p : string) : bool :=
  match ending_of p with
  | Plain => negb (String.eqb p "") && is_file fs (resolve (cwd fs) p)
  | Slash | Dot => false
  end.

Definition path_exists (fs : FS) (p : string) : bool := isdir fs p || isfile fs p.

(** [os.mkdir(p)]. *)
Definition mkdir (fs : FS) (p : string) : exn + FS :=
  let k := resolve (cwd fs) p in
  if String.eqb p "" then inl FileNotFoundError
  else match ending_of p with
       | Dot =>
           if is_dir fs k then inl FileExistsError
           else if below_file fs k || is_file fs k then inl NotADirectoryError
           else inl FileNotFoundError
       | Plain | Slash =>
           if is_dir fs k || is_file fs k then inl FileExistsError
           else if below_file fs k then inl NotADirectoryError
           else if negb (is_dir fs (parent k)) then inl FileNotFoundError
           else inr (mk_FS (cwd fs) ({[ k ]} ∪ dirs fs) (files fs))
       end.

(** [open(p, "w")]: the file is created or truncated. *)
Definition open_w (fs : FS) (p : string) : exn + FS :=
  let k := resolve (cwd fs) p in
  if String.eqb p "" then inl FileNotFoundError
  else match ending_of p with
       | Dot =>
           if is_dir fs k then inl IsADirectoryError
           else if below_file fs k || is_file fs k then inl NotADirectoryError
           else inl FileNotFoundError
       | Slash =>
           if below_file fs k then inl NotADirectoryError
           else if negb (is_dir fs (parent k)) then inl FileNotFoundError
           else inl IsADirectoryError
       | Plain =>
           if is_dir fs k then inl IsADirectoryError
           else if below_file fs k then inl NotADirectoryError
           else if negb (is_dir fs (parent k)) then inl FileNotFoundError
           else inr (mk_FS (cwd fs) (dirs fs) (<[ k := "" ]> (files fs)))
       end.

(** [f.write(s)] on the file opened at [p]. *)
Definition write (fs : FS) (p : string) (s : string) : FS :=
  let k := resolve (cwd fs) p in
  mk_FS (cwd fs) (dirs fs) (<[ k := default "" (files fs !! k) ++ s ]> (files fs)).

(** The text of the file at [p], if there is one. *)
Definition read (fs : FS) (p : string) : option string :=
  files fs !! resolve (cwd fs) p.

(** Nothing on disk but the working directory [cwd] and what is above it. *)
Definition empty_at (cwd : fspath) : FS := mk_FS cwd ∅ ∅.

End Os.

(** ** HTTP exchanges *)

Record Request := mk_Request {
  through_session : bool;     (* [s.get] on the Session, or module-level [requests.get] *)
  url : string;
  params : list (string * string);
  cookies : list (string * string);
  stream : bool;
  timeout : option Z
}.

(** A response, by what its accessors return. *)
Record Response := mk_Response {
  status_code : Z;
  content : Py.bytes;               (* [response.content] *)
  json : exn + pyval;               (* [response.json()] *)
  iter_lines : list Py.bytes        (* the lines [response.iter_lines()] yields *)
}.

(** [response.ok]: no 4xx or 5xx status. *)
Definition ok (r : Response) : bool :=
  negb ((400 <=? status_code r)%Z && (status_code r <? 600)%Z).

(** The remote side: each request is answered or fails in transit. *)
Definition Net := Request -> exn + Response.

(** ** The state of a run *)

(** What reaches standard output. *)
Inductive out :=
| Line (s : string)                 (* [print(s)] *)
| Text (s : string)                 (* [sys.stdout.write(s)] *)
| LineExc (s : string) (e : exn)    (* [print(f'{s}{e}')] for an exception [e] *)
| LineTook.                         (* [print('  Took {0:0.2f} seconds'.format(time() - t0))] *)

Record World := mk_World {
  fs : Os.FS;
  stdout : list out;
  sent : list Request;                 (* the requests issued so far, oldest first *)
  DeviceInfo_attrs : gmap string pyval; (* the attributes set on the class [DeviceInfo] *)
  session_closed : bool                (* [self.session] has been closed *)
}.

Definition init_World (fs0 : Os.FS) : World := mk_World fs0 [] [] ∅ false.

(** How a call ends: a value, an exception, or [sys.exit(code)]
    ([SystemExit] is not an [Exception]). *)
Inductive result (A : Type) :=
| Return (a : A)
| Raise (e : exn)
| Exit (code : Z).
Arguments Return {A} a.
Arguments Raise {A} e.
Arguments Exit {A} code.

Definition M (A : Type) : Type := World -> result A * World.

Definition ret {A} (a : A) : M A := fun w => (Return a, w).
Definition raise {A} (e : exn) : M A := fun w => (Raise e, w).
Definition sys_exit {A} (code : Z) : M A := fun w => (Exit code, w).

Definition bind {A B} (m : M A) (k : A -> M B) : M B :=
  fun w => match m w with
           | (Return a, w') => k a w'
           | (Raise e, w') => (Raise e, w')
           | (Exit c, w') => (Exit c, w')
           end.

Notation "x <- m ;; k" := (bind m (fun x => k))
  (at level 100, m at next level, right associativity).
Notation "m ;; k" := (bind m (fun _ => k))
  (at level 100, right associativity).

(** [try: m except IndexError: h1 except Exception as e: h2 e]. *)
Definition try_except {A} (m : M A) (h_index : M A) (h_exception : exn -> M A) : M A :=
  fun w => match m w with
           | (Raise e, w') => if is_IndexError e then h_index w' else h_exception e w'
           | r => r
           end.

(** [try: m except Exception as e: h e]. *)
Definition try_except_Exception {A} (m : M A) (h : exn -> M A) : M A :=
  fun w => match m w with
           | (Raise e, w') => h e w'
           | r => r
           end.

(** [with self.session as s: m]: the session is closed however [m] ends. *)
Definition with_session {A} (m : M A) : M A :=
  fun w => let '(r, w') := m w in
           (r, mk_World (fs w') (stdout w') (sent w') (DeviceInfo_attrs w') true).

Definition lift {A} (r : exn + A) : M A :=
  match r with inl e => raise e | inr a => ret a end.

Definition emit (o : out) : M unit :=
  fun w => (Return tt, mk_World (fs w) (stdout w ++ [o]) (sent w) (DeviceInfo_attrs w) (session_closed w)).

Definition print (s : string) : M unit := emit (Line s).
Definition stdout_write (s : string) : M unit := emit (Text s).

(** Issue a request: it is logged, then the remote side answers. *)
Definition http_get (net : Net) (rq : Request) : M Response :=
  fun w => let w' := mk_World (fs w) (stdout w) (sent w ++ [rq]) (DeviceInfo_attrs w) (session_closed w) in
           match net rq with
           | inl e => (Raise e, w')
           | inr r => (Return r, w')
           end.

(** The state after [DeviceInfo.name = v]. *)
Definition set_attr (name : string) (v : pyval) (w : World) : World :=
  mk_World (fs w) (stdout w) (sent w) (<[ name := v ]> (DeviceInfo_attrs w)) (session_closed w).

(** [DeviceInfo.name = v]: an attribute of the class object. *)
Definition setattr_DeviceInfo (name : string) (v : pyval) : M unit :=
  fun w => (Return tt, set_attr name v w).

Definition with_fs {A} (f : Os.FS -> exn + (A * Os.FS)) : M A :=
  fun w => match f (fs w) with
           | inl e => (Raise e, w)
           | inr (a, fs') => (Return a, mk_World fs' (stdout w) (sent w) (DeviceInfo_attrs w) (session_closed w))
           end.

Definition os_path_exists (p : string) : M bool := fun w => (Return (Os.path_exists (fs w) p), w).
Definition os_mkdir (p : string) : M unit :=
  with_fs (fun fs0 => match Os.mkdir fs0 p with inl e => inl e | inr fs' => inr (tt, fs') end).
Definition open_w (p : string) : M unit :=
  with_fs (fun fs0 => match Os.open_w fs0 p with inl e => inl e | inr fs' => inr (tt, fs') end).
Definition f_write (p s : string) : M unit :=
  with_fs (fun fs0 => inr (tt, Os.write fs0 p s)).

Fixpoint for_each {A} (l : list A) (body : A -> M unit) : M unit :=
  match l with
  | [] => ret tt
  | x :: rest => body x ;; for_each rest body
  end.

(** ** [ArchiverBridgeLogRetriever] *)

(** The fields of [self] the three methods read. *)
Record Self := mk_Self { auth_key : string }.

(** What the run is given from outside: the remote side, and
    [os.path.dirname(__file__)]. *)
Record Env := mk_Env { net : Net; script_dir : string }.

(** The dataclass as it is annotated; [pull_logs] reads [esn] and
    [archivers]. *)
Record DeviceInfo := mk_DeviceInfo {
  esn : string;
  type_ : string;
  name : string;
  cluster : string;
  disk_ips : list (string * string);
  archivers : list string;
  archiver_states : list (string * string)
}.

(** What [get_device_info] returns: [di = DeviceInfo] is the class object
    itself, no instance is made. *)
Inductive pyobj := DeviceInfo_class.

(** [di.attr] for [di = DeviceInfo_class], read in the state [w]. *)
Definition getattr (w : World) (di : pyobj) (attr : string) : option pyval :=
  match di with DeviceInfo_class => DeviceInfo_attrs w !! attr end.

Definition auth_cookies (self : Self) : list (string * string) :=
  [("auth_key", auth_key self); ("vbsadmin_sessionid", auth_key self)].

(** [a_list.append(k)]. *)
Definition acc_app (a_list : list pyval) (k : pyval) : list pyval := (a_list ++ [k])%list.

(** [for k in dict(json_result['disks_ips']).keys(): a_list.append(k)]. *)
Definition collect_keys (d : list (pyval * pyval)) : list pyval :=
  fold_left acc_app (PyVal.dict_keys d) [].

(** [for a in di.archivers:
       a_states.update({a: json_result['states'][a]['state']})]. *)
Fixpoint collect_states (json_result : pyval) (a_list : list pyval)
    (a_states : list (pyval * pyval)) : exn + list (pyval * pyval) :=
  match a_list with
  | [] => inr a_states
  | a :: rest =>
      match PyVal.subscript json_result (PStr "states") with
      | inl e => inl e
      | inr states =>
          match PyVal.subscript states a with
          | inl e => inl e
          | inr entry =>
              match PyVal.subscript entry (PStr "state") with
              | inl e => inl e
              | inr st =>
                  if PyVal.hashable a
                  then collect_states json_result rest (PyVal.dict_set a_states a st)
                  else inl TypeError
              end
          end
      end
  end.

Definition vpn_hint : string :=
  "Unauthorized. Please ensure you are connected to the EagleEye VPN.".

(** The [else:] branch of [get_device_info]: the response is decoded and the
    attributes are set one by one on the class. *)
Definition read_device_info (response : Response) : M pyobj :=
  json_response <- lift (json response) ;;
  data <- lift (PyVal.subscript json_response (PStr "data")) ;;
  json_result <- lift (PyVal.subscript data (PInt 0)) ;;
  (* di = DeviceInfo *)
  v_esn <- lift (PyVal.subscript json_result (PStr "esn")) ;;
  setattr_DeviceInfo "esn" v_esn ;;
  v_type <- lift (PyVal.subscript json_result (PStr "type")) ;;
  setattr_DeviceInfo "type" v_type ;;
  v_name <- lift (PyVal.subscript json_result (PStr "name")) ;;
  setattr_DeviceInfo "name" v_name ;;
  v_cluster <- lift (PyVal.subscript json_result (PStr "cluster")) ;;
  setattr_DeviceInfo "cluster" v_cluster ;;
  v_ips <- lift (PyVal.subscript json_result (PStr "disks_ips")) ;;
  setattr_DeviceInfo "disk_ips" v_ips ;;
  v_ips' <- lift (PyVal.subscript json_result (PStr "disks_ips")) ;;
  d <- lift (PyVal.dict v_ips') ;;
  let a_list := collect_keys d in
  setattr_DeviceInfo "archivers" (PList a_list) ;;
  a_states <- lift (collect_states json_result a_list []) ;;
  setattr_DeviceInfo "archiver_states" (PDict a_states) ;;
  ret DeviceInfo_class.

Definition device_info_url (esn : string) : string :=
  "https://nexus.aus1hub1.eencloud.com/api/v2/EsnDetails/" ++ esn.

Definition device_info_request (self : Self) (esn : string) : Request :=
  mk_Request true (device_info_url esn) [] (auth_cookies self) false None.

Definition invalid_result : string := "Invalid result. Check ESN.".

Definition get_device_info (env : Env) (self : Self) (esn : string) : M pyobj :=
  let url := device_info_url esn in
  print (Py.newline ++ "Requesting data from: " ++ url) ;;
  with_session
    (try_except
       (response <- http_get (net env) (device_info_request self esn) ;;
        print (Py.str_bytes (content response)) ;;
        if negb (ok response) then
          print ("Unable to retrieve device info. Response: "
                 ++ Py.str_int (status_code response)) ;;
          (if (status_code response =? 403)%Z then print vpn_hint else ret tt) ;;
          sys_exit 1
        else
          read_device_info response)
       (print invalid_result ;; sys_exit 1)
       (fun e =>
          emit (LineExc ("Exception raised when attempting to connect to " ++ url
                         ++ Py.newline ++ "Exception: ") e) ;;
          sys_exit 1)).

(** The truth value of a function object, as in [if not os.path.exists:]. *)
Definition truth_of_function : bool := true.

Definition create_dirs (script_dir : string) (bridge_esn : string) : M unit :=
  try_except_Exception
    (let bridge_logs_root_dir := Os.path_join script_dir "bridge_logs" in
     let bridge_esn_dir := Os.path_join bridge_logs_root_dir bridge_esn in
     there <- os_path_exists bridge_logs_root_dir ;;
     (if negb there then os_mkdir bridge_logs_root_dir else ret tt) ;;
     (if negb truth_of_function then os_mkdir bridge_esn_dir else ret tt))
    (fun e =>
       emit (LineExc ("Error. Unable create requisite directories. Exception:"
                      ++ Py.newline) e)).

Definition categories : list string := ["bridge"; "stream"; "analog"; "preview"].

Definition backspace : string := String (Py.chr 8) "".

Definition output_busy_queue : list string :=
  ["|"; "/"; "-"; String Py.backslash ""].

(** [l[i]] raising [IndexError]. *)
Definition list_item {A} (l : list A) (i : Z) : M A :=
  match PyVal.seq_index l i with Some x => ret x | None => raise IndexError end.

(** The body of [for line in log_response.iter_lines():], with the running
    [count] and the spinner queue. *)
Fixpoint write_lines (log_path : string) (lines : list Py.bytes)
    (count : Z) (queue : list string) : M Z :=
  match lines with
  | [] => ret count
  | line :: rest =>
      f_write log_path (Py.str_bytes line ++ Py.newline) ;;
      queue' <- (if (count mod 10 =? 0)%Z then
                   match queue with
                   | [] => raise IndexError
                   | p_char :: q =>
                       stdout_write backspace ;;
                       stdout_write p_char ;;
                       ret (q ++ [p_char])%list
                   end
                 else ret queue) ;;
      write_lines log_path rest (count + 1) queue'
  end.

Definition log_path_of (di : DeviceInfo) (archiver_name t : string) : string :=
  Os.path_join "." ("bridge_logs/" ++ esn di ++ "." ++ archiver_name ++ "_" ++ t ++ ".log").

Definition log_request (self : Self) (di : DeviceInfo) (archiver st et t : string) : Request :=
  mk_Request false
    ("http://" ++ archiver ++ ".eagleeyenetworks.com:28080/query/camera_logs")
    [("c", esn di); ("t", st); ("e", et); ("q", "none"); ("l", t)]
    (auth_cookies self) true (Some 240%Z).

(** One turn of [for t in ['bridge', 'stream', 'analog', 'preview']:]. *)
Definition pull_category (env : Env) (self : Self) (di : DeviceInfo) (a : Z)
    (archiver_name st et t : string) : M unit :=
  archiver <- list_item (archivers di) a ;;
  print ("Fetching " ++ t ++ " logs for " ++ esn di) ;;
  log_response <- http_get (net env) (log_request self di archiver st et t) ;;
  (if (status_code log_response =? 200)%Z then
     let log_path := log_path_of di archiver_name t in
     open_w log_path ;;
     stdout_write "." ;;
     count <- write_lines log_path (iter_lines log_response) 0 output_busy_queue ;;
     stdout_write backspace ;;
     print ("  " ++ log_path ++ " " ++ Py.str_int count ++ " lines")
   else
     print ("  " ++ Py.str_int (status_code log_response) ++ " "
            ++ Py.str_bytes (content log_response))) ;;
  emit LineTook.

Definition pull_logs (env : Env) (self : Self) (di : DeviceInfo) (a : Z)
    (st et : datetime) : M unit :=
  create_dirs (script_dir env) (esn di) ;;
  let st := convert_dt_to_een_time st in
  let et := convert_dt_to_een_time et in
  archiver_name <- list_item (archivers di) a ;;
  for_each categories (pull_category env self di a archiver_name st et).

(** ** Logging in: [__init__], [authenticate], [authorize] *)

Module Login.

(** What an f-string is made of: literal text and interpolated values. *)
Inductive piece := Lit (s : string) | Val (v : pyval).

(** What the three methods can raise. *)
Inductive raised :=
| HTTPError (status : Z)        (* [raise_for_status] on a 4xx or 5xx status *)
| AttributeError                (* [self.session] read before it is set *)
| Thrown (e : exn)              (* from a subscript, [json()] or the transport *)
| Other (class_name : string).  (* any other exception of the outside *)

(** A [session.post(url, params=..., data=..., timeout=...)]. *)
Record Post := mk_Post {
  via : nat;                              (* the Session it goes through *)
  post_url : string;
  post_params : list (string * string);   (* [params=]: the query string *)
  post_data : list (string * pyval);      (* [data=]: the form body *)
  post_timeout : Z
}.

(** The answer to a POST: the response, and what [r.cookies[name]] gives. *)
Record Reply := mk_Reply {
  response : Response;
  cookies_getitem : string -> raised + string
}.

(** What the login is given from outside: the remote side and what
    [getpass(prompt)] returns. *)
Record Outside := mk_Outside {
  remote : Post -> raised + Reply;
  getpass : string -> raised + string
}.

(** What is printed; the two timings depend on the clock. *)
Inductive line :=
| Printed (s : string)          (* [print(s)] *)
| PrintedSecs (s : string).     (* [print(f"{s}{(deltastop - deltastart)} secs")] *)

(** The attributes of the retriever.  [session] is [None] as long as the
    attribute is not set; a Session is named by its number. *)
Record Retriever := mk_Retriever {
  auth_base_url : list piece;
  auth_key : string;
  token : string;
  user_data : pyval;
  username : string;
  authent_url : string;
  author_url : string;
  base_url : string;
  session : option nat
}.

Record State := mk_State {
  self : Retriever;
  stdout : list line;
  posted : list Post;           (* the POSTs issued so far, oldest first *)
  prompted : list string;       (* the prompts of [getpass] so far *)
  sessions_made : nat           (* how many [requests.Session()] so far *)
}.

Definition L (A : Type) : Type := State -> (raised + A) * State.

Definition ret {A} (a : A) : L A := fun s => (inr a, s).
Definition raise {A} (e : raised) : L A := fun s => (inl e, s).

Definition bind {A B} (m : L A) (k : A -> L B) : L B :=
  fun s => match m s with
           | (inr a, s') => k a s'
           | (inl e, s') => (inl e, s')
           end.

Declare Scope login_scope.
Delimit Scope login_scope with login.
Notation "x <- m ;; k" := (bind m (fun x => k))
  (at level 100, m at next level, right associativity) : login_scope.
Notation "m ;; k" := (bind m (fun _ => k))
  (at level 100, right associativity) : login_scope.
Local Open Scope login_scope.

Definition lift {A} (r : exn + A) : L A :=
  match r with inl e => raise (Thrown e) | inr a => ret a end.

Definition lift_raised {A} (r : raised + A) : L A :=
  match r with inl e => raise e | inr a => ret a end.

(** [self.attr] and [self.attr = v]. *)
Definition get {A} (attr : Retriever -> A) : L A := fun s => (inr (attr (self s)), s).

Definition set (f : Retriever -> Retriever) : L unit :=
  fun s => (inr tt, mk_State (f (self s)) (stdout s) (posted s) (prompted s) (sessions_made s)).

Definition with_auth_base_url (v : list piece) (r : Retriever) : Retriever :=
  mk_Retriever v (auth_key r) (token r) (user_data r) (username r)
    (authent_url r) (author_url r) (base_url r) (session r).
Definition with_auth_key (v : string) (r : Retriever) : Retriever :=
  mk_Retriever (auth_base_url r) v (token r) (user_data r) (username r)
    (authent_url r) (author_url r) (base_url r) (session r).
Definition with_token (v : string) (r : Retriever) : Retriever :=
  mk_Retriever (auth_base_url r) (auth_key r) v (user_data r) (username r)
    (authent_url r) (author_url r) (base_url r) (session r).
Definition with_user_data (v : pyval) (r : Retriever) : Retriever :=
  mk_Retriever (auth_base_url r) (auth_key r) (token r) v (username r)
    (authent_url r) (author_url r) (base_url r) (session r).
Definition with_username (v : string) (r : Retriever) : Retriever :=
  mk_Retriever (auth_base_url r) (auth_key r) (token r) (user_data r) v
    (authent_url r) (author_url r) (base_url r) (session r).
Definition with_authent_url (v : string) (r : Retriever) : Retriever :=
  mk_Retriever (auth_base_url r) (auth_key r) (token r) (user_data r) (username r)
    v (author_url r) (base_url r) (session r).
Definition with_author_url (v : string) (r : Retriever) : Retriever :=
  mk_Retriever (auth_base_url r) (auth_key r) (token r) (user_data r) (username r)
    (authent_url r) v (base_url r) (session r).
Definition with_base_url (v : string) (r : Retriever) : Retriever :=
  mk_Retriever (auth_base_url r) (auth_key r) (token r) (user_data r) (username r)
    (authent_url r) (author_url r) v (session r).
Definition with_session (v : option nat) (r : Retriever) : Retriever :=
  mk_Retriever (auth_base_url r) (auth_key r) (token r) (user_data r) (username r)
    (authent_url r) (author_url r) (base_url r) v.

Definition print (t : string) : L unit :=
  fun s => (inr tt, mk_State (self s) (stdout s ++ [Printed t]) (posted s) (prompted s)
                      (sessions_made s)).

Definition print_secs (t : string) : L unit :=
  fun s => (inr tt, mk_State (self s) (stdout s ++ [PrintedSecs t]) (posted s) (prompted s)
                      (sessions_made s)).

(** [requests.Session()]: a Session that was not there before. *)
Definition Session : L nat :=
  fun s => (inr (sessions_made s),
            mk_State (self s) (stdout s) (posted s) (prompted s) (S (sessions_made s))).

(** [getpass(prompt)]. *)
Definition call_getpass (o : Outside) (prompt : string) : L string :=
  fun s => let s' := mk_State (self s) (stdout s) (posted s) (prompted s ++ [prompt])
                       (sessions_made s) in
           match getpass o prompt with
           | inl e => (inl e, s')
           | inr p => (inr p, s')
           end.

(** [self.session.post(url, params=params, data=data, timeout=timeout)]. *)
Definition session_post (o : Outside) (url : string) (params : list (string * string))
    (data : list (string * pyval)) (timeout : Z) : L Reply :=
  sess <- get session ;;
  match sess with
  | None => raise AttributeError
  | Some id =>
      fun s => let p := mk_Post id url params data timeout in
               let s' := mk_State (self s) (stdout s) (posted s ++ [p]) (prompted s)
                           (sessions_made s) in
               match remote o p with
               | inl e => (inl e, s')
               | inr r => (inr r, s')
               end
  end.

(** [r.raise_for_status()]: [HTTPError] on a 4xx or 5xx status, else [None]. *)
Definition raise_for_status (r : Reply) : L unit :=
  if ok (response r) then ret tt else raise (HTTPError (status_code (response r))).

Definition authorize (o : Outside) (payload : list (string * pyval)) : L unit :=
  base <- get base_url ;;
  path <- get author_url ;;
  r <- session_post o (base ++ path) [] payload 30 ;;
  raise_for_status r ;;
  print ("Simple Auth w/ Token : " ++ Py.str_int (status_code (response r))) ;;
  key <- lift_raised (cookies_getitem r "auth_key") ;;
  set (with_auth_key key) ;;
  data <- lift (json (response r)) ;;
  set (with_user_data data) ;;
  user_data <- get user_data ;;
  subdomain <- lift (PyVal.subscript user_data (PStr "active_brand_subdomain")) ;;
  set (with_auth_base_url [Lit "https://"; Val subdomain; Lit ".eagleeyenetworks.com"]) ;;
  print_secs "Complete authorization process: ".

(** [authenticate] returns [self.session].  The test
    [r.raise_for_status() == None] holds whenever the call returns. *)
Definition authenticate (o : Outside) (username_ : string) (password : option string)
    : L (option nat) :=
  id <- Session ;;
  set (with_session (Some id)) ;;
  set (with_username username_) ;;
  password <- match password with
              | None =>
                  u <- get username ;;
                  call_getpass o ("Enter password for " ++ u ++ ": ")
              | Some p => ret p
              end ;;
  u <- get username ;;
  print ("Attempting (simple) login: " ++ u ++ "...") ;;
  let payload := [("username", u); ("password", password)] in
  base <- get base_url ;;
  path <- get authent_url ;;
  r <- session_post o (base ++ path) payload [] 15 ;;
  raise_for_status r ;;
  print ("Successful authentication - " ++ Py.str_int (status_code (response r))) ;;
  j <- lift (json (response r)) ;;
  tok <- lift (PyVal.subscript j (PStr "token")) ;;
  let payload := [("token", tok)] in
  print_secs "Completed authentication process: " ;;
  authorize o payload ;;
  get session.

Definition __init__ (o : Outside) (username_ : string) (password : option string)
    : L unit :=
  set (with_auth_base_url []) ;;
  set (with_auth_key "") ;;
  set (with_token "") ;;
  set (with_user_data (PDict [])) ;;
  set (with_username username_) ;;
  set (with_authent_url "/g/aaa/authenticate") ;;
  set (with_author_url "/g/aaa/authorize") ;;
  set (with_base_url "https://login.eagleeyenetworks.com") ;;
  u <- get username ;;
  sess <- authenticate o u password ;;
  set (with_session sess).

(** A retriever whose attributes are not set yet, nothing printed, posted or
    asked. *)
Definition blank : State :=
  mk_State (mk_Retriever [] "" "" PNone "" "" "" "" None) [] [] [] 0.

End Login.

(** What [get_device_info] and [pull_logs] read of a retriever. *)
Definition Self_of (r : Login.Retriever) : Self := mk_Self (Login.auth_key r).

(** ** The dialogue of [__main__] *)

Module Main.

(** How a loop of the dialogue ends. *)
Inductive ending (A : Type) :=
| Done (a : A) (stdin : list string)   (* left with [a]; the lines not read yet *)
| SysExit (code : Z)                   (* [sys.exit(code)] *)
| EOFError                             (* [input] at the end of the input, not caught *)
| Unfinished.                          (* still looping when the fuel is used up *)
Arguments Done {A} a stdin.
Arguments SysExit {A} code.
Arguments EOFError {A}.
Arguments Unfinished {A}.

(** [str(dt)] for a datetime without time zone: [dt.isoformat(sep=' ')]. *)
Definition str_datetime (dt : datetime) : string :=
  Py.zpad 4 (year dt) ++ "-" ++ Py.zpad 2 (month dt) ++ "-" ++ Py.zpad 2 (day dt) ++ " " ++
  Py.zpad 2 (hour dt) ++ ":" ++ Py.zpad 2 (minute dt) ++ ":" ++ Py.zpad 2 (second dt) ++
  (if (microsecond dt =? 0)%N then "" else "." ++ Py.zpad 6 (microsecond dt)).

(** [s.lower()], for characters that are code points below 256: the
    letters A-Z and the capital letters of Latin-1 (all of 192-222 except the
    multiplication sign, 215). *)
Definition lower_char (c : ascii) : ascii :=
  let n := N_of_ascii c in
  if ((65 <=? n) && (n <=? 90) || (192 <=? n) && (n <=? 222) && negb (n =? 215))%N
  then ascii_of_N (n + 32) else c.

Fixpoint lower (s : string) : string :=
  match s with
  | EmptyString => EmptyString
  | String c s' => String (lower_char c) (lower s')
  end.

(** [a in range(n)]. *)
Definition in_range (a : Z) (n : Z) : bool := ((0 <=? a) && (a <? n))%Z.

(** [for a in device_info.archivers: print(f'    {i} : {a}'); i += 1]. *)
Fixpoint menu_lines (archivers : list string) (i : Z) : list out :=
  match archivers with
  | [] => []
  | a :: rest => Line ("    " ++ Py.str_int i ++ " : " ++ a) :: menu_lines rest (i + 1)
  end.

Definition menu (di : DeviceInfo) : list out :=
  Line "Please select archiver (or '0' to exit):" :: menu_lines (archivers di) 1.

Definition selection_prompt : string := "    Archiver selection: ".
Definition selection_error : string := "Please make a valid section.".
Definition start_date_prompt : string := "    Please enter start date in YYYYMMDD format: ".
Definition start_time_prompt : string :=
  "    Please enter the start time in HHMM format (24-hour clock): ".
Definition start_error : string :=
  "Error converting start time to datetime object. Please check inputs.".
Definition end_date_prompt : string :=
  "    Please enter end date in YYYYMMDD format (or enter 'c' for current date & time): ".
Definition end_time_prompt : string :=
  "    Please enter the end time in HHMM format (24-hour clock): ".
Definition end_error : string :=
  "Error converting end time to datetime object. Please check inputs.".

Section Dialogue.

(** [int(s)] for a line of input, [datetime.strptime(s, "%Y%m%d%H%M")], and
    what [datetime.utcnow()] gives when it is asked. *)
Variable int : string -> exn + Z.
Variable strptime : string -> exn + datetime.
Variable utcnow : datetime.

(** The loop of the archiver selection.  [input] is outside the [try]: at
    the end of the input its [EOFError] is not caught.  Every turn reads a
    line, so the loop is by recursion on the input. *)
Fixpoint select_archiver (di : DeviceInfo) (stdin : list string)
    : list out * ending Z :=
  match stdin with
  | [] => ([Text selection_prompt], EOFError)
  | a_selection :: rest =>
      let again := let '(o, e) := select_archiver di rest in
                   (Text selection_prompt :: Line selection_error :: o, e) in
      match int a_selection with
      | inl _ => again
      | inr a_selection =>
          if (a_selection =? 0)%Z
          then ([Text selection_prompt; Line "Exiting..."], SysExit 0)
          else if negb (in_range a_selection (Z.of_nat (length (archivers di)) + 1))
               then again                        (* [raise IndexError], caught *)
               else ([Text selection_prompt], Done a_selection rest)
      end
  end.

(** The loop of the start date.  Both [input]s are inside the [try]: an
    [EOFError] is caught like a [ValueError] of [strptime], and the loop
    goes on. *)
Fixpoint read_start (fuel : nat) (stdin : list string) : list out * ending datetime :=
  match fuel with
  | O => ([], Unfinished)
  | S fuel' =>
      match stdin with
      | [] =>
          let '(o, e) := read_start fuel' [] in
          (Text start_date_prompt :: Line start_error :: o, e)
      | [i_start_date] =>
          let '(o, e) := read_start fuel' [] in
          (Text start_date_prompt :: Text start_time_prompt :: Line start_error :: o, e)
      | i_start_date :: i_start_time :: rest =>
          match strptime (i_start_date ++ i_start_time) with
          | inr start_dt =>
              ([Text start_date_prompt; Text start_time_prompt;
                Line ("    Start time: " ++ str_datetime start_dt)], Done start_dt rest)
          | inl _ =>
              let '(o, e) := read_start fuel' rest in
              (Text start_date_prompt :: Text start_time_prompt :: Line start_error :: o, e)
          end
      end
  end.

(** The loop of the end date, where [c] stands for now. *)
Fixpoint read_end (fuel : nat) (stdin : list string) : list out * ending datetime :=
  match fuel with
  | O => ([], Unfinished)
  | S fuel' =>
      match stdin with
      | [] =>
          let '(o, e) := read_end fuel' [] in
          (Text end_date_prompt :: Line end_error :: o, e)
      | i_end_date :: rest =>
          if String.eqb (lower i_end_date) "c"
          then ([Text end_date_prompt; Line ("    End time: " ++ str_datetime utcnow)],
                Done utcnow rest)
          else match rest with
               | [] =>
                   let '(o, e) := read_end fuel' [] in
                   (Text end_date_prompt :: Text end_time_prompt :: Line end_error :: o, e)
               | i_end_time :: rest' =>
                   match strptime (i_end_date ++ i_end_time) with
                   | inr end_dt =>
                       ([Text end_date_prompt; Text end_time_prompt;
                         Line ("    End time: " ++ str_datetime end_dt)], Done end_dt rest')
                   | inl _ =>
                       let '(o, e) := read_end fuel' rest' in
                       (Text end_date_prompt :: Text end_time_prompt :: Line end_error :: o, e)
                   end
               end
      end
  end.

End Dialogue.

End Main.

(** ** Vocabulary of the statements *)

(** *** Digits and keys *)

(** The [w] decimal digits of [n], most significant first. *)
Fixpoint digits (w : nat) (n : N) : string :=
  match w with
  | O => ""
  | S w' => digits w' (n / 10) ++ String (pretty_N_char (n mod 10)) ""
  end.

(** The ten digits of month, day, hour, minute and second. *)
Definition digits_mdHMS (dt : datetime) : string :=
  digits 2 (month dt) ++ digits 2 (day dt) ++ digits 2 (hour dt) ++
  digits 2 (minute dt) ++ digits 2 (second dt).

(** No two of the keys are equal (as Python compares them). *)
Fixpoint distinct_keys (keys : list pyval) : bool :=
  match keys with
  | [] => true
  | k :: rest => negb (PyVal.key_in k rest) && distinct_keys rest
  end.

(** The three subscripts of [json_result['states'][a]['state']]. *)
Definition state_of (json_result a : pyval) : exn + pyval :=
  match PyVal.subscript json_result (PStr "states") with
  | inl e => inl e
  | inr states =>
      match PyVal.subscript states a with
      | inl e => inl e
      | inr entry => PyVal.subscript entry (PStr "state")
      end
  end.

(** *** States *)

(** The state once the [with] block has been left. *)
Definition close_session (w : World) : World :=
  mk_World (fs w) (stdout w) (sent w) (DeviceInfo_attrs w) true.

Definition set_session (b : bool) (w : World) : World :=
  mk_World (fs w) (stdout w) (sent w) (DeviceInfo_attrs w) b.

Definition set_fs (fs' : Os.FS) (w : World) : World :=
  mk_World fs' (stdout w) (sent w) (DeviceInfo_attrs w) (session_closed w).

Definition add_out (o : list out) (w : World) : World :=
  mk_World (fs w) (stdout w ++ o) (sent w) (DeviceInfo_attrs w) (session_closed w).

Definition add_sent (rq : Request) (w : World) : World :=
  mk_World (fs w) (stdout w) (sent w ++ [rq]) (DeviceInfo_attrs w) (session_closed w).

(** [m] neither reads nor changes whether the Session is closed. *)
Definition session_blind {A} (m : M A) : Prop :=
  forall b w, m (set_session b w) = (fst (m w), set_session b (snd (m w))).

(** The exit status of the interpreter when a top-level call ends this way;
    [None] when the script goes on. *)
Definition script_status {A} (r : result A) : option Z :=
  match r with
  | Return _ => None
  | Raise _ => Some 1%Z      (* uncaught exception: traceback, status 1 *)
  | Exit code => Some code
  end.

(** [m] sends nothing, prints nothing and leaves the file system alone. *)
Definition quiet {A} (m : M A) : Prop :=
  forall w, sent (snd (m w)) = sent w /\ stdout (snd (m w)) = stdout w /\
            fs (snd (m w)) = fs w /\ session_closed (snd (m w)) = session_closed w.

(** Run in the working directory [cwd], [m] stays there, makes no
    directory, leaves the attributes of [DeviceInfo] alone, and creates or
    changes no file outside [paths]. *)
Definition writes_only {A} (cwd : Os.fspath) (paths : list Os.fspath) (m : M A) : Prop :=
  forall w, Os.cwd (fs w) = cwd ->
            Os.cwd (fs (snd (m w))) = cwd /\
            Os.dirs (fs (snd (m w))) = Os.dirs (fs w) /\
            DeviceInfo_attrs (snd (m w)) = DeviceInfo_attrs w /\
            forall k, ~ In k paths ->
              Os.files (fs (snd (m w))) !! k = Os.files (fs w) !! k.

(** *** What [get_device_info] leaves and prints *)

(** The state a complete resolution leaves: the seven attributes, set in
    the order of the code. *)
Definition resolved (w : World) (v_esn v_type v_name v_cluster v_ips : pyval)
    (a_list : list pyval) (a_states : list (pyval * pyval)) : World :=
  set_attr "archiver_states" (PDict a_states)
    (set_attr "archivers" (PList a_list)
       (set_attr "disk_ips" v_ips
          (set_attr "cluster" v_cluster
             (set_attr "name" v_name
                (set_attr "type" v_type
                   (set_attr "esn" v_esn w)))))).

(** What the two [except] clauses of [get_device_info] print for [e]. *)
Definition handler_out (esn : string) (e : exn) : out :=
  if is_IndexError e then Line invalid_result
  else LineExc ("Exception raised when attempting to connect to " ++ device_info_url esn
                ++ Py.newline ++ "Exception: ") e.

Definition requesting_line (esn : string) : out :=
  Line (Py.newline ++ "Requesting data from: " ++ device_info_url esn).

(** What is printed on a 4xx or 5xx answer. *)
Definition refusal_out (response : Response) : list out :=
  Line ("Unable to retrieve device info. Response: " ++ Py.str_int (status_code response))
  :: (if (status_code response =? 403)%Z then [Line vpn_hint] else []).

(** The call ended in exit status 1 after the not-found message. *)
Definition reports_not_found {A} (rw : result A * World) : Prop :=
  fst rw = Exit 1%Z /\ last (stdout (snd rw)) = Some (Line invalid_result).

(** The [data] member of the decoded body, when it is an array. *)
Definition data_array (response : Response) : option (list pyval) :=
  match json response with
  | inr json_response =>
      match PyVal.subscript json_response (PStr "data") with
      | inr (PList xs) => Some xs
      | _ => None
      end
  | inl _ => None
  end.

(** There is no first device to read: [data] is empty, or is no array. *)
Definition no_first_device (response : Response) : Prop :=
  match data_array response with
  | Some (_ :: _) => False
  | _ => True
  end.

(** *** What [create_dirs] and [pull_logs] leave and print *)

Definition bridge_logs_root_dir (script_dir : string) : string :=
  Os.path_join script_dir "bridge_logs".

Definition create_dirs_error (e : exn) : out :=
  LineExc ("Error. Unable create requisite directories. Exception:" ++ Py.newline) e.

(** The text [pull_logs] writes for the lines of one response. *)
Fixpoint log_text (lines : list Py.bytes) : string :=
  match lines with
  | [] => ""
  | line :: rest => (Py.str_bytes line ++ Py.newline) ++ log_text rest
  end.

(** The file system after the [f.write] of each line. *)
Definition write_all (log_path : string) (lines : list Py.bytes) (fs0 : Os.FS) : Os.FS :=
  fold_left (fun fs1 line => Os.write fs1 log_path (Py.str_bytes line ++ Py.newline)) lines fs0.

(** The lines of a text, as [text.split('\n')] gives them. *)
Definition text_lines (text : string) : list string := Os.split_on (Py.chr 10) text.

(** [c] does not occur in [s]. *)
Fixpoint lacks (c : ascii) (s : string) : bool :=
  match s with
  | EmptyString => true
  | String x s' => negb (Ascii.eqb x c) && lacks c s'
  end.

(** [open(p, "w")] would succeed. *)
Definition can_open (fs0 : Os.FS) (p : string) : bool :=
  match Os.open_w fs0 p with inr _ => true | inl _ => false end.

(** The line printed for a category answered with 200. *)
Definition success_line (log_path : string) (log_response : Response) : out :=
  Line ("  " ++ log_path ++ " "
        ++ Py.str_int (Z.of_nat (length (iter_lines log_response))) ++ " lines").

(** The line printed for a category answered with another status. *)
Definition failure_line (log_response : Response) : out :=
  Line ("  " ++ Py.str_int (status_code log_response) ++ " "
        ++ Py.str_bytes (content log_response)).

Definition report_line (log_path : string) (log_response : Response) : out :=
  if (status_code log_response =? 200)%Z then success_line log_path log_response
  else failure_line log_response.

(** The files after one category. *)
Definition files_after (cwd : Os.fspath) (log_path : string) (log_response : Response)
    (files0 : gmap Os.fspath string) : gmap Os.fspath string :=
  if (status_code log_response =? 200)%Z
  then <[ Os.resolve cwd log_path := log_text (iter_lines log_response) ]> files0
  else files0.

(** The files after the categories [ts], in turn. *)
Definition files_after_all (cwd : Os.fspath) (di : DeviceInfo) (archiver : string)
    (answer : string -> Response) (ts : list string)
    (files0 : gmap Os.fspath string) : gmap Os.fspath string :=
  fold_left (fun fm t => files_after cwd (log_path_of di archiver t) (answer t) fm) ts files0.


(** *** Paths *)

Fixpoint no_slash (s : string) : bool :=
  match s with
  | EmptyString => true
  | String c s' => negb (Ascii.eqb c "/") && no_slash s'
  end.

(** [s] appended to the last string of [l]. *)
Fixpoint app_last (l : list string) (s : string) : list string :=
  match l with
  | [] => [s]
  | [x] => [x ++ s]
  | x :: rest => x :: app_last rest s
  end.

(** What follows the archiver name in the name of a log file. *)
Definition log_suffix (t : string) : string := "_" ++ t ++ ".log".

(** *** Logging in *)

(** The POST of [authenticate]: the credentials are the query parameters. *)
Definition authenticate_post (id : nat) (username password : string) : Login.Post :=
  Login.mk_Post id "https://login.eagleeyenetworks.com/g/aaa/authenticate"
    [("username", username); ("password", password)] [] 15.

(** The POST of [authorize]: the token is the form body. *)
Definition authorize_post (id : nat) (tok : pyval) : Login.Post :=
  Login.mk_Post id "https://login.eagleeyenetworks.com/g/aaa/authorize"
    [] [("token", tok)] 30.

Definition password_prompt (username : string) : string :=
  "Enter password for " ++ username ++ ": ".

(** The attributes [__init__] sets before it logs in. *)
Definition fresh_retriever (username : string) (session : option nat) : Login.Retriever :=
  Login.mk_Retriever [] "" "" (PDict []) username "/g/aaa/authenticate" "/g/aaa/authorize"
    "https://login.eagleeyenetworks.com" session.

(** The password that is sent: the one given, or the one typed. *)
Definition password_used (o : Login.Outside) (username : string) (password : option string)
    : Login.raised + string :=
  match password with
  | Some p => inr p
  | None => Login.getpass o (password_prompt username)
  end.

Definition prompts_of (username : string) (password : option string) : list string :=
  match password with Some _ => [] | None => [password_prompt username] end.

(** *** The dialogue *)

(** A line the archiver selection does not accept: not a number, or a
    number that is neither 0 nor in [range(len(archivers) + 1)]. *)
Definition rejected (int : string -> exn + Z) (di : DeviceInfo) (line : string) : bool :=
  match int line with
  | inl _ => true
  | inr a => negb (a =? 0)%Z
             && negb (Main.in_range a (Z.of_nat (length (archivers di)) + 1))
  end.

(** What the selection prints for the rejected lines [bad]. *)
Definition selection_retries (bad : list string) : list out :=
  flat_map (fun _ => [Text Main.selection_prompt; Line Main.selection_error]) bad.

(** The lines of date and time pairs, and what the start-date loop prints
    for pairs it does not accept. *)
Definition lines_of_pairs (pairs : list (string * string)) : list string :=
  flat_map (fun p => [fst p; snd p]) pairs.

Definition start_retries (bad : list (string * string)) : list out :=
  flat_map (fun _ => [Text Main.start_date_prompt; Text Main.start_time_prompt;
                      Line Main.start_error]) bad.

Definition fails {A} (r : exn + A) : bool :=
  match r with inl _ => true | inr _ => false end.

(** ** Sample runs *)

Module Sample.

Definition s_ (k : string) (v : pyval) : pyval * pyval := (PStr k, v).

(** The document the device-info endpoint returns for a bridge. *)
Definition device_json (bridge_esn : string) : pyval :=
  PDict [s_ "data" (PList [PDict [
    s_ "esn" (PStr bridge_esn);
    s_ "type" (PStr "bridge");
    s_ "name" (PStr "Lobby");
    s_ "cluster" (PStr "c001");
    s_ "disks_ips" (PDict [s_ "a1471" (PStr "10.0.0.1"); s_ "a2093" (PStr "10.0.0.2")]);
    s_ "states" (PDict [s_ "a1471" (PDict [s_ "state" (PStr "ATTD")]);
                        s_ "a2093" (PDict [s_ "state" (PStr "IDLE")])])]])].

Definition json_response (j : pyval) : Response :=
  mk_Response 200 (Py.b_ "{...}") (inr j) [].

Definition self : Self := mk_Self "c000~0123abcd".

Definition esn1 : string := "100bbc9c".
Definition esn2 : string := "100ddd11".

(** A resolver that knows two devices. *)
Definition resolver : Net := fun rq =>
  if String.eqb (url rq) (device_info_url esn1) then inr (json_response (device_json esn1))
  else if String.eqb (url rq) (device_info_url esn2) then inr (json_response (device_json esn2))
  else inr (mk_Response 404 (Py.b_ "not found") (inl JSONDecodeError) []).

(** The script is [/opt/tool/get_bridge_logs.py]: [__file__] is absolute. *)
Definition script_dir : string := "/opt/tool".

Definition env_resolver : Env := mk_Env resolver script_dir.

(** The script is started from its own directory, [/opt/tool], and nothing
    else is on disk; nothing printed, nothing sent, the Session open. *)
Definition w0 : World := init_World (Os.empty_at ["opt"; "tool"]).

(** A resolver answering with a fixed document. *)
Definition env_json (j : pyval) : Env :=
  mk_Env (fun _ => inr (json_response j)) script_dir.

(** A resolver answering 403. *)
Definition env_403 : Env :=
  mk_Env (fun _ => inr (mk_Response 403 (Py.b_ "Forbidden") (inl JSONDecodeError) []))
    script_dir.

End Sample.

Module SampleLogs.

Definition di : DeviceInfo :=
  mk_DeviceInfo "100bbc9c" "bridge" "Lobby" "c001"
    [("a1471", "10.0.0.1"); ("a2093", "10.0.0.2")]
    ["a1471"; "a2093"]
    [("a1471", "ATTD"); ("a2093", "IDLE")].

Definition st : datetime := mk_datetime 2024 3 5 14 30 0 0.
Definition et : datetime := mk_datetime 2024 3 5 15 0 0 0.

(** The [l] parameter of a request. *)
Definition category_of (rq : Request) : string :=
  match List.find (fun kv => String.eqb (fst kv) "l") (params rq) with
  | Some (_, t) => t
  | None => ""
  end.

Definition lines_response (ls : list string) : Response :=
  mk_Response 200 (Py.b_ "") (inl JSONDecodeError) (map Py.b_ ls).

Definition error_response : Response :=
  mk_Response 500 (Py.b_ "Internal Server Error") (inl JSONDecodeError) [].

(** [bridge] and [analog] are answered with log lines, [stream] and
    [preview] with status 500. *)
Definition answers (t : string) : Response :=
  if String.eqb t "bridge" then lines_response ["boot ok"; "link up"; "it's alive"]
  else if String.eqb t "analog" then lines_response ["abc"]
  else error_response.

Definition archive_two_of_four : Net := fun rq => inr (answers (category_of rq)).

(** Every category is answered with one line, [abc]. *)
Definition archive_abc : Net := fun _ => inr (lines_response ["abc"]).

(** Every category is refused. *)
Definition archive_down : Net := fun _ => inr error_response.

(** The request for [stream] is lost in transit; the others are answered as
    in [answers]. *)
Definition archive_stream_lost : Net := fun rq =>
  if String.eqb (category_of rq) "stream" then inl RequestException
  else inr (answers (category_of rq)).

(** The script is [/opt/tool/get_bridge_logs.py]. *)
Definition env (n : Net) : Env := mk_Env n Sample.script_dir.

(** The working directory is [/opt/tool], where [bridge_logs] holds a file
    of the user's. *)
Definition w_notes : World :=
  init_World (Os.mk_FS ["opt"; "tool"] {[ ["opt"; "tool"; "bridge_logs"] ]}
                {[ ["opt"; "tool"; "bridge_logs"; "notes.txt"] := "keep" ]}).

(** The working directory is [/opt/tool], where [bridge.log] has just been
    opened for writing. *)
Definition w_opened : World :=
  init_World (Os.mk_FS ["opt"; "tool"] ∅ {[ ["opt"; "tool"; "bridge.log"] := "" ]}).

(** The script is in [/opt/tool] and is started from [/home/user]; nothing
    else is on disk. *)
Definition w_elsewhere : World :=
  init_World (Os.mk_FS ["home"; "user"] {[ ["opt"]; ["opt"; "tool"] ]} ∅).

End SampleLogs.

Module SampleLogin.

Definition reply (status : Z) (j : exn + pyval) (jar : list (string * string)) : Login.Reply :=
  Login.mk_Reply (mk_Response status (Py.b_ "") j [])
    (fun name => match List.find (fun kv => String.eqb (fst kv) name) jar with
                 | Some (_, v) => inr v
                 | None => inl (Login.Thrown KeyError)
                 end).

(** The login service: a token for the credentials, the cookie and the
    account for the token. *)
Definition service : Login.Post -> Login.raised + Login.Reply := fun p =>
  if String.eqb (Login.post_url p) "https://login.eagleeyenetworks.com/g/aaa/authenticate"
  then inr (reply 200 (inr (PDict [(PStr "token", PStr "tok123")])) [])
  else inr (reply 200 (inr (PDict [(PStr "active_brand_subdomain", PStr "c001")]))
              [("auth_key", "c000~0123abcd")]).

(** The same, but the account document cannot be decoded. *)
Definition service_bad_account : Login.Post -> Login.raised + Login.Reply := fun p =>
  if String.eqb (Login.post_url p) "https://login.eagleeyenetworks.com/g/aaa/authenticate"
  then inr (reply 200 (inr (PDict [(PStr "token", PStr "tok123")])) [])
  else inr (reply 200 (inl JSONDecodeError) [("auth_key", "c000~0123abcd")]).

(** The credentials are refused. *)
Definition service_refusing : Login.Post -> Login.raised + Login.Reply := fun _ =>
  inr (reply 401 (inl JSONDecodeError) []).

Definition typing (password : string) : string -> Login.raised + string :=
  fun _ => inr password.

Definition outside : Login.Outside := Login.mk_Outside service (typing "hunter2").

(** A retriever that logged in earlier. *)
Definition logged_in : Login.State :=
  Login.mk_State
    (Login.mk_Retriever
       [Login.Lit "https://"; Login.Val (PStr "c001"); Login.Lit ".eagleeyenetworks.com"]
       "c000~old" "" (PDict [(PStr "active_brand_subdomain", PStr "c001")])
       "user@example.com" "/g/aaa/authenticate" "/g/aaa/authorize"
       "https://login.eagleeyenetworks.com" (Some 0))
    [] [] [] 1.

End SampleLogin.

Module SampleMain.

(** A reading of [int] for the sample lines. *)
Definition int (s : string) : exn + Z :=
  if String.eqb s "0" then inr 0%Z
  else if String.eqb s "1" then inr 1%Z
  else if String.eqb s "2" then inr 2%Z
  else if String.eqb s "3" then inr 3%Z
  else if String.eqb s "-1" then inr (-1)%Z
  else inl ValueError.

(** What [datetime.strptime(s, "%Y%m%d%H%M")] gives on the lines of the
    sample dialogues: [%m], [%d], [%H] and [%M] also take one digit, so
    [20241430] is the fourth of January 2024, 03:00. *)
Definition strptime (s : string) : exn + datetime :=
  if String.eqb s "202403051430" then inr (mk_datetime 2024 3 5 14 30 0 0)
  else if String.eqb s "20241430" then inr (mk_datetime 2024 1 4 3 0 0 0)
  else inl ValueError.

Definition utcnow : datetime := mk_datetime 2024 3 5 15 0 7 250000.

End SampleMain.

Create HintDb blind discriminated.

(** * Properties *)

(** ** Strings *)

Lemma str_app_cons (c : ascii) (s t : string) : String c s ++ t = String c (s ++ t).
Proof. reflexivity. Qed.

Lemma str_app_nil_l (s : string) : "" ++ s = s.
Proof. reflexivity. Qed.

Lemma str_app_nil_r (s : string) : s ++ "" = s.
Proof. induction s as [|c s IH]; [reflexivity | rewrite str_app_cons; now f_equal]. Qed.

Lemma str_app_assoc (s t u : string) : (s ++ t) ++ u = s ++ t ++ u.
Proof. induction s as [|c s IH]; [reflexivity | rewrite !str_app_cons; now f_equal]. Qed.

Lemma str_length_app (s t : string) :
  String.length (s ++ t) = String.length s + String.length t.
Proof.
  induction s as [|c s IH]; [reflexivity|].
  rewrite str_app_cons. cbn [String.length]. now rewrite IH.
Qed.

Lemma str_take_app_more (k : nat) (s t : string) :
  Py.str_take (String.length s + k) (s ++ t) = s ++ Py.str_take k t.
Proof.
  induction s as [|c s IH]; [reflexivity|].
  rewrite !str_app_cons. cbn [String.length Nat.add Py.str_take]. now rewrite IH.
Qed.

Lemma str_take_app (s t : string) : Py.str_take (String.length s) (s ++ t) = s.
Proof.
  rewrite <- (Nat.add_0_r (String.length s)), str_take_app_more.
  destruct t; apply str_app_nil_r.
Qed.

Lemma zeros_length (k : nat) : String.length (Py.zeros k) = k.
Proof. induction k as [|k IH]; [reflexivity | cbn; now f_equal]. Qed.

Lemma zeros_snoc (k : nat) : Py.zeros (S k) = Py.zeros k ++ "0".
Proof.
  induction k as [|k IH]; [reflexivity|].
  change (String "0" (Py.zeros (S k)) = String "0" (Py.zeros k ++ "0")). now f_equal.
Qed.

Lemma digits_length (w : nat) (n : N) : String.length (digits w n) = w.
Proof.
  revert n; induction w as [|w IH]; intros n; simpl; [reflexivity|].
  rewrite str_length_app, IH. simpl. lia.
Qed.

(** ** Decimal printing *)

Lemma pretty_N_go_app (x : N) (s : string) : pretty_N_go x s = pretty_N_go x "" ++ s.
Proof.
  revert s. induction (N.lt_wf_0 x) as [x _ IH]; intros s.
  destruct (decide (x = 0%N)) as [->|Hx].
  - now rewrite !pretty_N_go_0.
  - rewrite (pretty_N_go_step x s), (pretty_N_go_step x "") by lia.
    rewrite (IH (x `div` 10)%N) by (apply N.div_lt; lia).
    rewrite (IH (x `div` 10)%N ltac:(apply N.div_lt; lia) (String _ "")).
    now rewrite str_app_assoc.
Qed.

Lemma pretty_N_small (n : N) :
  (n < 10)%N -> pretty n = String (pretty_N_char n) "".
Proof.
  intros Hn. unfold pretty, pretty_N.
  destruct (decide (n = 0%N)) as [->|Hn0]; [reflexivity|].
  rewrite pretty_N_go_step by lia.
  rewrite N.div_small, N.mod_small by lia. now rewrite pretty_N_go_0.
Qed.

Lemma pretty_N_large (n : N) :
  (10 <= n)%N ->
  pretty n = pretty (n / 10)%N ++ String (pretty_N_char (n mod 10)) "".
Proof.
  intros Hn. unfold pretty, pretty_N.
  assert (0 < n / 10)%N by (apply N.div_str_pos; lia).
  destruct (decide (n = 0%N)); [lia|].
  destruct (decide ((n / 10)%N = 0%N)); [lia|].
  rewrite pretty_N_go_step by lia. apply pretty_N_go_app.
Qed.

Lemma pretty_N_length (w : nat) (n : N) :
  (n < 10 ^ N.of_nat (S w))%N -> String.length (pretty n) <= S w.
Proof.
  revert n; induction w as [|w IH]; intros n Hn.
  - rewrite pretty_N_small by (simpl in Hn; lia). simpl; lia.
  - destruct (decide (n < 10)%N) as [Hs|Hl].
    + rewrite pretty_N_small by lia. simpl; lia.
    + rewrite pretty_N_large by lia. rewrite str_length_app. simpl.
      assert (String.length (pretty (n / 10)%N) <= S w); [|lia].
      apply IH. apply N.Div0.div_lt_upper_bound.
      replace (N.of_nat (S (S w))) with (N.succ (N.of_nat (S w))) in Hn by lia.
      rewrite N.pow_succ_r' in Hn. lia.
Qed.

(** Within its width, zero filling gives exactly the [w] digits. *)
Lemma zpad_digits (w : nat) (n : N) :
  (n < 10 ^ N.of_nat (S w))%N -> Py.zpad (S w) n = digits (S w) n.
Proof.
  revert n; induction w as [|w IH]; intros n Hn.
  - assert (n < 10)%N by (simpl in Hn; lia).
    unfold Py.zpad. rewrite pretty_N_small by lia.
    cbn [digits]. rewrite N.mod_small by lia. reflexivity.
  - change (digits (S (S w)) n)
      with (digits (S w) (n / 10) ++ String (pretty_N_char (n mod 10)) "").
    destruct (decide (n < 10)%N) as [Hs|Hl].
    + rewrite N.div_small by lia. rewrite <- IH by (apply N.neq_0_lt_0, N.pow_nonzero; lia).
      unfold Py.zpad. rewrite (pretty_N_small n) by lia.
      rewrite (pretty_N_small 0) by lia.
      rewrite N.mod_small by lia.
      replace (S (S w) - String.length (String (pretty_N_char n) "")) with (S w) by (simpl; lia).
      replace (S w - String.length (String (pretty_N_char 0) "")) with w by (simpl; lia).
      rewrite zeros_snoc, !str_app_assoc.
      destruct (decide (n = 0%N)) as [->|Hn0]; [reflexivity|].
      (* the accumulated 0 of the shorter pad is the leading digit here *)
      simpl. reflexivity.
    + assert (Hq : (n / 10 < 10 ^ N.of_nat (S w))%N).
      { apply N.Div0.div_lt_upper_bound.
        replace (N.of_nat (S (S w))) with (N.succ (N.of_nat (S w))) in Hn by lia.
        rewrite N.pow_succ_r' in Hn. lia. }
      rewrite <- IH by exact Hq.
      unfold Py.zpad. rewrite (pretty_N_large n) by lia.
      rewrite str_length_app. simpl String.length.
      pose proof (pretty_N_length w _ Hq).
      replace (S (S w) - (String.length (pretty (n / 10)%N) + 1))
        with (S w - String.length (pretty (n / 10)%N)) by lia.
      now rewrite str_app_assoc.
Qed.

Lemma digits_split (k w : nat) (n : N) :
  digits (k + w) n = digits k (n / 10 ^ N.of_nat w) ++ digits w n.
Proof.
  revert n; induction w as [|w IH]; intros n.
  - rewrite Nat.add_0_r. change (10 ^ N.of_nat 0)%N with 1%N.
    rewrite N.div_1_r. cbn [digits]. now rewrite str_app_nil_r.
  - replace (k + S w) with (S (k + w)) by lia. cbn [digits].
    rewrite IH, str_app_assoc. do 2 f_equal.
    rewrite N.Div0.div_div. f_equal.
    replace (N.of_nat (S w)) with (N.succ (N.of_nat w)) by lia.
    now rewrite N.pow_succ_r'.
Qed.

(** ** The timestamp encoding *)

Lemma valid_datetime_day (dt : datetime) : valid_datetime dt -> (day dt < 100)%N.
Proof.
  intros (_ & _ & [_ Hd] & _). revert Hd. unfold days_in_month.
  repeat match goal with |- context [if ?b then _ else _] => destruct b end; lia.
Qed.

Lemma str_take_length (k : nat) (s : string) :
  String.length (Py.str_take k s) = Nat.min k (String.length s).
Proof.
  revert s. induction k as [|k IH]; intros [|c s]; cbn [Py.str_take String.length Nat.min];
    try reflexivity.
  now rewrite IH.
Qed.

Lemma pretty_N_nonempty (n : N) : 1 <= String.length (pretty n).
Proof.
  destruct (decide (n < 10)%N) as [Hs|Hl].
  - rewrite pretty_N_small by exact Hs. cbn. lia.
  - rewrite pretty_N_large by lia. rewrite str_length_app. cbn. lia.
Qed.

(** A number of four digits is printed as its four digits. *)
Lemma pretty_four_digits (n : N) : (1000 <= n < 10000)%N -> pretty n = digits 4 n.
Proof.
  intros Hn. rewrite <- (zpad_digits 3 n) by (cbn; lia).
  unfold Py.zpad.
  assert (Hlen : String.length (pretty n) = 4).
  { rewrite (pretty_N_large n) by lia.
    rewrite (pretty_N_large (n / 10)) by (apply N.div_le_lower_bound; lia).
    rewrite (pretty_N_large (n / 10 / 10))
      by (apply N.div_le_lower_bound; [lia|]; apply N.div_le_lower_bound; lia).
    rewrite (pretty_N_small (n / 10 / 10 / 10))
      by (repeat (apply N.Div0.div_lt_upper_bound); lia).
    rewrite !str_length_app. reflexivity. }
  rewrite Hlen. reflexivity.
Qed.

Lemma strftime_digits (dt : datetime) :
  valid_datetime dt ->
  strftime_YmdHMS_f dt =
    (pretty (year dt) ++ digits_mdHMS dt ++ ".") ++ digits 6 (microsecond dt).
Proof.
  intros Hv. pose proof (valid_datetime_day dt Hv) as Hday.
  destruct Hv as (Hy & Hm & _ & Hh & Hmi & Hs & Hus).
  unfold strftime_YmdHMS_f, digits_mdHMS.
  rewrite !zpad_digits by (cbn; lia).
  now rewrite !str_app_assoc.
Qed.

Lemma digits_mdHMS_length (dt : datetime) : String.length (digits_mdHMS dt) = 10.
Proof. unfold digits_mdHMS. rewrite !str_length_app, !digits_length. reflexivity. Qed.

(** The encoding of any valid datetime: the year as it is printed, the ten
    digits, the dot, and as many microsecond digits as fit in 18
    characters. *)
Lemma een_time_form (dt : datetime) :
  valid_datetime dt ->
  convert_dt_to_een_time dt =
    pretty (year dt) ++ digits_mdHMS dt ++ "." ++
    Py.str_take (7 - String.length (pretty (year dt))) (digits 6 (microsecond dt)) /\
  String.length (convert_dt_to_een_time dt) = 18.
Proof.
  intros Hv. unfold convert_dt_to_een_time. rewrite (strftime_digits dt Hv).
  pose proof (pretty_N_nonempty (year dt)) as Hlo.
  assert (Hhi : String.length (pretty (year dt)) <= 4).
  { apply (pretty_N_length 3). destruct Hv as (Hy & _). cbn. lia. }
  set (pre := pretty (year dt) ++ digits_mdHMS dt ++ ".").
  assert (Hlen : String.length pre = String.length (pretty (year dt)) + 11).
  { subst pre. rewrite !str_length_app, digits_mdHMS_length. cbn. lia. }
  replace 18 with (String.length pre + (7 - String.length (pretty (year dt)))) by lia.
  rewrite str_take_app_more. split.
  - subst pre. now rewrite !str_app_assoc.
  - rewrite str_length_app, str_take_length, digits_length. lia.
Qed.

Lemma een_time_digits (dt : datetime) :
  valid_datetime dt -> (1000 <= year dt)%N ->
  convert_dt_to_een_time dt =
    digits 4 (year dt) ++ digits 2 (month dt) ++ digits 2 (day dt) ++
    digits 2 (hour dt) ++ digits 2 (minute dt) ++ digits 2 (second dt) ++
    "." ++ digits 3 (microsecond dt / 1000).
Proof.
  intros Hv Hy. destruct (een_time_form dt Hv) as [Hform _]. rewrite Hform.
  assert (Hy4 : (1000 <= year dt < 10000)%N) by (destruct Hv as (Hy' & _); lia).
  rewrite (pretty_four_digits _ Hy4), digits_length.
  change (digits 6 (microsecond dt)) with (digits (3 + 3) (microsecond dt)).
  rewrite (digits_split 3 3 (microsecond dt)).
  change (10 ^ N.of_nat 3)%N with 1000%N.
  replace (7 - 4) with (String.length (digits 3 (microsecond dt / 1000)))
    by (rewrite digits_length; reflexivity).
  rewrite str_take_app. unfold digits_mdHMS. now rewrite !str_app_assoc.
Qed.

(** C3, as amended. [convert_dt_to_een_time] gives, for every valid datetime,
    a string of exactly 18 characters: the year as [strftime] prints it, two
    digits each for month, day, hour, minute and second, a dot, and the
    first microsecond digits that fit.  From the year 1000 on that is the
    four digits of the year, the ten digits, the dot and the three
    millisecond digits (truncated); the datetime 2024-03-05 14:30:00.123456
    encodes to 20240305143000.123. *)
Theorem convert_dt_to_een_time_fixed_width :
  (forall dt : datetime,
      valid_datetime dt ->
      String.length (convert_dt_to_een_time dt) = 18 /\
      convert_dt_to_een_time dt =
        pretty (year dt) ++
        digits 2 (month dt) ++ digits 2 (day dt) ++
        digits 2 (hour dt) ++ digits 2 (minute dt) ++ digits 2 (second dt) ++ "." ++
        Py.str_take (7 - String.length (pretty (year dt))) (digits 6 (microsecond dt)) /\
      ((1000 <= year dt)%N ->
       convert_dt_to_een_time dt =
         digits 4 (year dt) ++ digits 2 (month dt) ++ digits 2 (day dt) ++
         digits 2 (hour dt) ++ digits 2 (minute dt) ++ digits 2 (second dt) ++
         "." ++ digits 3 (microsecond dt / 1000))) /\
  convert_dt_to_een_time (mk_datetime 2024 3 5 14 30 0 123456) = "20240305143000.123".
Proof.
  split; [|vm_compute; reflexivity].
  intros dt Hv. destruct (een_time_form dt Hv) as [Hform Hlen].
  split; [exact Hlen|]. split.
  - rewrite Hform. unfold digits_mdHMS. now rewrite !str_app_assoc.
  - intros Hy. now apply een_time_digits.
Qed.

Lemma convert_dt_to_een_time_fixed_width_witness :
  String.length (convert_dt_to_een_time (mk_datetime 1999 12 31 23 59 59 999999)) = 18 /\
  convert_dt_to_een_time (mk_datetime 1999 12 31 23 59 59 999999) = "19991231235959.999".
Proof.
  destruct (proj1 convert_dt_to_een_time_fixed_width
              (mk_datetime 1999 12 31 23 59 59 999999)) as (Hlen & _ & Hform).
  - unfold valid_datetime; vm_compute; intuition discriminate.
  - split; [exact Hlen|]. rewrite Hform; [vm_compute; reflexivity | vm_compute; discriminate].
Defined.

(** C3, as stated, fails below the year 1000: the year 999 is printed with
    three digits, so the string does not begin with four year digits and
    the dot is the fourteenth character, followed by four digits. *)
Lemma convert_dt_to_een_time_short_year :
  valid_datetime (mk_datetime 999 12 31 23 59 59 999999) /\
  convert_dt_to_een_time (mk_datetime 999 12 31 23 59 59 999999) = "9991231235959.9999" /\
  ~ (forall dt : datetime,
        valid_datetime dt ->
        exists fraction,
          convert_dt_to_een_time dt =
            digits 4 (year dt) ++ digits 2 (month dt) ++ digits 2 (day dt) ++
            digits 2 (hour dt) ++ digits 2 (minute dt) ++ digits 2 (second dt) ++
            "." ++ fraction).
Proof.
  assert (Hv : valid_datetime (mk_datetime 999 12 31 23 59 59 999999))
    by (unfold valid_datetime; vm_compute; intuition discriminate).
  split; [exact Hv|]. split; [vm_compute; reflexivity|].
  intros H. destruct (H _ Hv) as [fraction Hf].
  vm_compute in Hf. discriminate Hf.
Qed.

(** ** Dict keys *)

Section DictKeys.
Import PyVal.

Lemma py_eq_sym (a b : pyval) : py_eq a b = py_eq b a.
Proof.
  destruct a, b; cbv beta iota delta [py_eq as_int]; try reflexivity;
    try apply String.eqb_sym; try apply Z.eqb_sym.
Qed.

Lemma py_eq_trans (a b c : pyval) :
  py_eq a b = true -> py_eq b c = true -> py_eq a c = true.
Proof.
  destruct a as [|[]| | | |], b as [|[]| | | |], c as [|[]| | | |];
    cbv beta iota delta [py_eq as_int];
    intros H1 H2; try discriminate; try reflexivity;
    rewrite ?Z.eqb_eq, ?String.eqb_eq in *; congruence.
Qed.

Lemma py_eq_refl (a : pyval) : hashable a = true -> py_eq a a = true.
Proof.
  destruct a as [|[]| | | |]; cbv beta iota delta [py_eq as_int hashable];
    try discriminate; try reflexivity; intros _.
  - apply Z.eqb_refl.
  - apply String.eqb_refl.
Qed.

Lemma key_in_cons (x k : pyval) (keys : list pyval) :
  key_in x (k :: keys) = py_eq x k || key_in x keys.
Proof. reflexivity. Qed.

Lemma key_in_dict_set (x k v : pyval) (d : list (pyval * pyval)) :
  key_in x (dict_keys (dict_set d k v)) = key_in x (dict_keys d) || py_eq x k.
Proof.
  induction d as [|[k' v'] d IH]; cbn [dict_set dict_keys map fst].
  - rewrite key_in_cons. cbn. now rewrite orb_false_r.
  - destruct (py_eq k' k) eqn:Hk; cbn [dict_keys map fst]; rewrite !key_in_cons.
    + destruct (py_eq x k) eqn:Hx; [|now rewrite orb_false_r].
      rewrite py_eq_sym in Hk.
      now rewrite (py_eq_trans _ _ _ Hx Hk).
    + fold (dict_keys (dict_set d k v)). fold (dict_keys d).
      now rewrite IH, orb_assoc.
Qed.

Lemma distinct_keys_dict_set (k v : pyval) (d : list (pyval * pyval)) :
  distinct_keys (dict_keys d) = true ->
  distinct_keys (dict_keys (dict_set d k v)) = true.
Proof.
  induction d as [|[k' v'] d IH]; cbn [dict_set dict_keys map fst]; [reflexivity|].
  intros Hd. cbn [distinct_keys] in Hd. apply andb_prop in Hd as [Hk' Hd].
  destruct (py_eq k' k) eqn:Hk; cbn [dict_keys map fst distinct_keys].
  - now rewrite Hk', Hd.
  - fold (dict_keys (dict_set d k v)). fold (dict_keys d) in Hk'.
    rewrite key_in_dict_set, Hk, orb_false_r, Hk'. now apply IH.
Qed.

Lemma collect_keys_dict_keys (d : list (pyval * pyval)) : collect_keys d = dict_keys d.
Proof.
  unfold collect_keys.
  enough (H : forall l acc, fold_left acc_app l acc = (acc ++ l)%list)
    by (exact (H (dict_keys d) [])).
  intros l; induction l as [|k l IH]; intros acc; cbn.
  - now rewrite app_nil_r.
  - rewrite IH. unfold acc_app. now rewrite <- app_assoc.
Qed.

Lemma collect_states_keys (json_result : pyval) (a_list : list pyval) :
  forall acc a_states,
    collect_states json_result a_list acc = inr a_states ->
    (forall x, key_in x (dict_keys a_states) = key_in x (dict_keys acc) || key_in x a_list) /\
    (distinct_keys (dict_keys acc) = true -> distinct_keys (dict_keys a_states) = true).
Proof.
  induction a_list as [|a rest IH]; intros acc a_states H; cbn [collect_states] in H.
  - injection H as <-. split; [intros x; cbn; now rewrite orb_false_r | auto].
  - destruct (subscript json_result (PStr "states")) as [|states]; [discriminate|].
    destruct (subscript states a) as [|entry]; [discriminate|].
    destruct (subscript entry (PStr "state")) as [|st]; [discriminate|].
    destruct (hashable a); [|discriminate].
    apply IH in H as [Hin Hd]. split.
    + intros x. now rewrite Hin, key_in_dict_set, key_in_cons, orb_assoc.
    + intros Hacc. now apply Hd, distinct_keys_dict_set.
Qed.

End DictKeys.

(** ** Stepping through the monad *)

Lemma bind_lift {A B} (r : exn + A) (k : A -> M B) (w : World) :
  bind (lift r) k w = match r with inl e => (Raise e, w) | inr a => k a w end.
Proof. now destruct r. Qed.

Lemma bind_ret {A B} (a : A) (k : A -> M B) (w : World) : bind (ret a) k w = k a w.
Proof. reflexivity. Qed.

Lemma bind_emit {B} (o : out) (k : unit -> M B) (w : World) :
  bind (emit o) k w =
  k tt (mk_World (fs w) (stdout w ++ [o]) (sent w) (DeviceInfo_attrs w) (session_closed w)).
Proof. reflexivity. Qed.

Lemma bind_setattr {B} (name : string) (v : pyval) (k : unit -> M B) (w : World) :
  bind (setattr_DeviceInfo name v) k w = k tt (set_attr name v w).
Proof. reflexivity. Qed.

Lemma getattr_set_attr (name attr : string) (v : pyval) (w : World) (di : pyobj) :
  getattr (set_attr name v w) di attr
  = if decide (name = attr) then Some v else getattr w di attr.
Proof. destruct di. unfold getattr, set_attr. cbn [DeviceInfo_attrs]. apply lookup_insert. Qed.

Lemma getattr_close_session (attr : string) (w : World) (di : pyobj) :
  getattr (close_session w) di attr = getattr w di attr.
Proof. now destruct di. Qed.

Lemma bind_assoc {A B C} (m : M A) (k : A -> M B) (k' : B -> M C) (w : World) :
  bind (bind m k) k' w = bind m (fun a => bind (k a) k') w.
Proof. unfold bind. destruct (m w) as [[a|e|c] w1]; reflexivity. Qed.

(** Destructs the value a [lift] at the head of the computation carries. *)
Ltac lift_step :=
  rewrite bind_lift;
  match goal with
  | |- match ?r with _ => _ end <> _ =>
      let H := fresh "Hstep" in destruct r eqn:H; [discriminate|]
  end.

Ltac lift_step_in H :=
  rewrite bind_lift in H;
  match type of H with
  | match ?r with _ => _ end = _ =>
      let Hs := fresh "Hstep" in destruct r eqn:Hs; [discriminate H|]
  end.

(** ** [get_device_info] *)

Lemma read_device_info_Return (response : Response) (w w' : World) (di : pyobj) :
  read_device_info response w = (Return di, w') ->
  exists json_result v_esn v_type v_name v_cluster v_ips d a_states,
    PyVal.subscript json_result (PStr "disks_ips") = inr v_ips /\
    PyVal.dict v_ips = inr d /\
    collect_states json_result (PyVal.dict_keys d) [] = inr a_states /\
    w' = resolved w v_esn v_type v_name v_cluster v_ips (PyVal.dict_keys d) a_states.
Proof.
  unfold read_device_info. intros H.
  lift_step_in H. lift_step_in H. lift_step_in H.
  lift_step_in H. rewrite bind_setattr in H.
  lift_step_in H. rewrite bind_setattr in H.
  lift_step_in H. rewrite bind_setattr in H.
  lift_step_in H. rewrite bind_setattr in H.
  lift_step_in H. rewrite bind_setattr in H.
  rewrite bind_lift in H; cbv beta iota in H. lift_step_in H.
  cbv zeta in H. rewrite bind_setattr in H.
  lift_step_in H. rewrite bind_setattr in H.
  unfold ret in H. apply (f_equal snd) in H. cbn [snd] in H. subst w'.
  rewrite collect_keys_dict_keys in *.
  match goal with
  | H1 : PyVal.subscript ?jr (PStr "disks_ips") = inr ?v, H2 : PyVal.dict ?v = inr ?d,
    H3 : collect_states ?jr _ _ = inr ?st |- _ =>
      exists jr; do 4 eexists; exists v, d, st; repeat split; [exact H1|exact H2|exact H3]
  end.
Qed.

(** [read_device_info] never leaves through [sys.exit]. *)
Lemma read_device_info_no_Exit (response : Response) (w w' : World) (code : Z) :
  read_device_info response w <> (Exit code, w').
Proof.
  unfold read_device_info.
  lift_step. lift_step. lift_step.
  lift_step. rewrite bind_setattr.
  lift_step. rewrite bind_setattr.
  lift_step. rewrite bind_setattr.
  lift_step. rewrite bind_setattr.
  lift_step. rewrite bind_setattr.
  rewrite bind_lift; cbv beta iota. lift_step.
  cbv zeta. rewrite bind_setattr.
  lift_step. rewrite bind_setattr.
  discriminate.
Qed.

Lemma get_device_info_unfold (env : Env) (self : Self) (esn : string) (w : World) :
  get_device_info env self esn w =
  let w1 := add_sent (device_info_request self esn) (add_out [requesting_line esn] w) in
  match net env (device_info_request self esn) with
  | inl e => (Exit 1%Z, close_session (add_out [handler_out esn e] w1))
  | inr response =>
      let w2 := add_out [Line (Py.str_bytes (content response))] w1 in
      if negb (ok response)
      then (Exit 1%Z, close_session (add_out (refusal_out response) w2))
      else match read_device_info response w2 with
           | (Return di, w') => (Return di, close_session w')
           | (Raise e, w') => (Exit 1%Z, close_session (add_out [handler_out esn e] w'))
           | (Exit c, w') => (Exit c, close_session w')
           end
  end.
Proof.
  unfold get_device_info, with_session, try_except, http_get, handler_out, refusal_out,
    requesting_line, print.
  rewrite bind_emit. unfold bind at 1. cbn [fs stdout sent DeviceInfo_attrs session_closed].
  destruct (net env (device_info_request self esn)) as [e|response].
  - destruct (is_IndexError e); reflexivity.
  - cbv zeta. rewrite bind_emit.
    destruct (ok response); cbn [negb].
    + destruct (read_device_info response _) as [[di|e|c] w'] eqn:Hr; [reflexivity| |reflexivity].
      destruct (is_IndexError e); reflexivity.
    + rewrite bind_emit. destruct (status_code response =? 403)%Z.
      * rewrite bind_emit. cbn. now rewrite <- app_assoc.
      * reflexivity.
Qed.

(** C5. In every state a successful [get_device_info] leaves, the archiver
    list is the key list of the disk-IP mapping, in its order, and the
    archiver-state mapping has exactly the same keys, each once. *)
Theorem get_device_info_key_sets (env : Env) (self : Self) (bridge_esn : string)
    (w w' : World) (di : pyobj) :
  get_device_info env self bridge_esn w = (Return di, w') ->
  exists v_ips d a_states,
    getattr w' di "disk_ips" = Some v_ips /\
    PyVal.dict v_ips = inr d /\
    getattr w' di "archivers" = Some (PList (PyVal.dict_keys d)) /\
    getattr w' di "archiver_states" = Some (PDict a_states) /\
    (forall k, PyVal.key_in k (PyVal.dict_keys d)
               = PyVal.key_in k (PyVal.dict_keys a_states)) /\
    distinct_keys (PyVal.dict_keys a_states) = true.
Proof.
  rewrite get_device_info_unfold. cbv zeta.
  destruct (net env _) as [e|response]; [discriminate|].
  destruct (negb (ok response)); [discriminate|].
  destruct (read_device_info response _) as [[di'|e|c] w1] eqn:Hr; try discriminate.
  intros H. assert (w' = close_session w1) as -> by congruence. clear H.
  apply read_device_info_Return in Hr
    as (json_result & v_esn & v_type & v_name & v_cluster & v_ips & d & a_states
        & _ & Hd & Hs & ->).
  apply collect_states_keys in Hs as [Hin Hdist].
  exists v_ips, d, a_states. unfold resolved.
  rewrite !getattr_close_session, !getattr_set_attr.
  split; [reflexivity|]. split; [exact Hd|]. split; [reflexivity|]. split; [reflexivity|].
  split; [intros k; now rewrite Hin | now apply Hdist].
Qed.

Lemma get_device_info_key_sets_witness :
  exists v_ips d a_states,
    getattr (snd (get_device_info Sample.env_resolver Sample.self Sample.esn1 Sample.w0))
      DeviceInfo_class "disk_ips" = Some v_ips /\
    PyVal.dict v_ips = inr d /\
    getattr (snd (get_device_info Sample.env_resolver Sample.self Sample.esn1 Sample.w0))
      DeviceInfo_class "archivers" = Some (PList (PyVal.dict_keys d)) /\
    getattr (snd (get_device_info Sample.env_resolver Sample.self Sample.esn1 Sample.w0))
      DeviceInfo_class "archiver_states" = Some (PDict a_states) /\
    (forall k, PyVal.key_in k (PyVal.dict_keys d)
               = PyVal.key_in k (PyVal.dict_keys a_states)) /\
    distinct_keys (PyVal.dict_keys a_states) = true.
Proof.
  apply (get_device_info_key_sets Sample.env_resolver Sample.self Sample.esn1 Sample.w0).
  vm_compute. reflexivity.
Defined.

(** ** Failures of the resolution *)

Lemma read_device_info_empty_data (response : Response) (w : World) :
  data_array response = Some [] ->
  read_device_info response w = (Raise IndexError, w).
Proof.
  unfold data_array, read_device_info. intros H.
  rewrite bind_lift. destruct (json response) as [|json_response]; [discriminate|].
  rewrite bind_lift.
  destruct (PyVal.subscript json_response (PStr "data")) as [|[]]; try discriminate.
  injection H as ->. reflexivity.
Qed.

(** C6, as amended. [get_device_info] ends in a returned record or in exit
    status 1, never in an exception reaching the caller; and when the
    endpoint answers with success and an empty [data] array, it prints the
    not-found message and exits with status 1. *)
Theorem get_device_info_empty_data (env : Env) (self : Self) (bridge_esn : string)
    (w : World) :
  (fst (get_device_info env self bridge_esn w) = Return DeviceInfo_class \/
   fst (get_device_info env self bridge_esn w) = Exit 1%Z) /\
  (forall response,
      net env (device_info_request self bridge_esn) = inr response ->
      ok response = true ->
      data_array response = Some [] ->
      reports_not_found (get_device_info env self bridge_esn w)).
Proof.
  rewrite get_device_info_unfold. cbv zeta. split.
  - destruct (net env _) as [e|response]; [now right|].
    destruct (negb (ok response)); [now right|].
    destruct (read_device_info response _) as [[[]|e|c] w1] eqn:Hr;
      [now left | now right |].
    now apply read_device_info_no_Exit in Hr.
  - intros response -> -> Hdata. cbn [negb].
    rewrite (read_device_info_empty_data _ _ Hdata).
    split; [reflexivity|]. cbn. now rewrite last_snoc.
Qed.

Lemma get_device_info_empty_data_witness :
  reports_not_found
    (get_device_info (Sample.env_json (PDict [Sample.s_ "data" (PList [])]))
       Sample.self Sample.esn1 Sample.w0).
Proof.
  apply (proj2 (get_device_info_empty_data
                  (Sample.env_json (PDict [Sample.s_ "data" (PList [])]))
                  Sample.self Sample.esn1 Sample.w0)
           (Sample.json_response (PDict [Sample.s_ "data" (PList [])])));
    reflexivity.
Defined.

(** C6, as stated, fails: a successful answer whose [data] is an object
    instead of an array ends in the generic exception message, not in the
    not-found one. *)
Lemma get_device_info_malformed_data_not_reported_not_found :
  ~ (forall (env : Env) (self : Self) (bridge_esn : string) (w : World) (response : Response),
        net env (device_info_request self bridge_esn) = inr response ->
        ok response = true ->
        no_first_device response ->
        reports_not_found (get_device_info env self bridge_esn w)).
Proof.
  intros H.
  specialize (H (Sample.env_json (PDict [Sample.s_ "data" (PDict [])]))
                Sample.self Sample.esn1 Sample.w0
                (Sample.json_response (PDict [Sample.s_ "data" (PDict [])]))
                eq_refl eq_refl I).
  destruct H as [_ H]. vm_compute in H. discriminate H.
Qed.

(** C8. On a 403 answer [get_device_info] prints the refusal and the VPN
    hint and leaves through [sys.exit(1)]: the script ends with status 1. *)
Theorem get_device_info_403_vpn_hint (env : Env) (self : Self) (bridge_esn : string)
    (w : World) (response : Response) :
  net env (device_info_request self bridge_esn) = inr response ->
  status_code response = 403%Z ->
  fst (get_device_info env self bridge_esn w) = Exit 1%Z /\
  script_status (fst (get_device_info env self bridge_esn w)) = Some 1%Z /\
  stdout (snd (get_device_info env self bridge_esn w)) =
    (stdout w ++ [requesting_line bridge_esn;
                  Line (Py.str_bytes (content response));
                  Line "Unable to retrieve device info. Response: 403";
                  Line vpn_hint])%list.
Proof.
  intros Hnet Hst. rewrite get_device_info_unfold, Hnet. cbv zeta.
  unfold ok, refusal_out. rewrite Hst. cbn [negb andb Z.leb Z.ltb Z.eqb Z.compare Pos.compare Pos.compare_cont Pos.eqb].
  repeat split. cbn [snd close_session add_out add_sent stdout].
  rewrite <- !app_assoc. reflexivity.
Qed.

Lemma get_device_info_403_vpn_hint_witness :
  fst (get_device_info Sample.env_403 Sample.self Sample.esn1 Sample.w0) = Exit 1%Z /\
  In (Line vpn_hint)
     (stdout (snd (get_device_info Sample.env_403 Sample.self Sample.esn1 Sample.w0))).
Proof.
  destruct (get_device_info_403_vpn_hint Sample.env_403 Sample.self Sample.esn1 Sample.w0
              (mk_Response 403 (Py.b_ "Forbidden") (inl JSONDecodeError) [])
              eq_refl eq_refl) as (Hexit & _ & Hout).
  split; [exact Hexit|]. rewrite Hout. cbn. auto.
Defined.

(** C9 (the code departs from it). Two resolutions in a row: both return the
    one class object, and the record the first call returned reads the
    second device afterwards. *)
Theorem get_device_info_overwrites_earlier_record :
  let rw1 := get_device_info Sample.env_resolver Sample.self Sample.esn1 Sample.w0 in
  let rw2 := get_device_info Sample.env_resolver Sample.self Sample.esn2 (snd rw1) in
  exists di1 di2,
    fst rw1 = Return di1 /\ fst rw2 = Return di2 /\
    di1 = di2 /\
    getattr (snd rw1) di1 "esn" = Some (PStr Sample.esn1) /\
    getattr (snd rw2) di1 "esn" = Some (PStr Sample.esn2).
Proof.
  cbv zeta. exists DeviceInfo_class, DeviceInfo_class.
  split; [|split; [|split; [|split]]]; vm_compute; reflexivity.
Qed.

(** ** [create_dirs] *)

Lemma create_dirs_cases (script_dir bridge_esn : string) (w : World) :
  create_dirs script_dir bridge_esn w =
  if Os.path_exists (fs w) (bridge_logs_root_dir script_dir) then (Return tt, w)
  else match Os.mkdir (fs w) (bridge_logs_root_dir script_dir) with
       | inl e => (Return tt, add_out [create_dirs_error e] w)
       | inr fs' => (Return tt, set_fs fs' w)
       end.
Proof.
  unfold create_dirs, try_except_Exception, bind, os_path_exists, os_mkdir, with_fs,
    truth_of_function, bridge_logs_root_dir. cbn [negb].
  destruct (Os.path_exists _ _); cbn [negb]; [reflexivity|].
  destruct (Os.mkdir _ _); reflexivity.
Qed.

(** The case analysis of [os.mkdir] and [open]. *)
Ltac os_cases :=
  cbv zeta;
  repeat match goal with
         | |- context [match Os.ending_of ?p with _ => _ end] => destruct (Os.ending_of p)
         | |- context [if ?b then _ else _] =>
             lazymatch type of b with bool => destruct b end
         end.

Lemma create_dirs_returns (script_dir bridge_esn : string) (w : World) :
  fst (create_dirs script_dir bridge_esn w) = Return tt /\
  sent (snd (create_dirs script_dir bridge_esn w)) = sent w /\
  Os.files (fs (snd (create_dirs script_dir bridge_esn w))) = Os.files (fs w) /\
  session_closed (snd (create_dirs script_dir bridge_esn w)) = session_closed w /\
  Os.cwd (fs (snd (create_dirs script_dir bridge_esn w))) = Os.cwd (fs w).
Proof.
  rewrite create_dirs_cases.
  destruct (Os.path_exists _ _); [easy|].
  unfold Os.mkdir. os_cases; easy.
Qed.

(** The only directory [create_dirs] can add is [bridge_logs] itself: the
    per-device directory is never made. *)
Lemma create_dirs_dirs (script_dir bridge_esn : string) (w : World) :
  Os.dirs (fs (snd (create_dirs script_dir bridge_esn w)))
  ⊆ {[ Os.resolve (Os.cwd (fs w)) (bridge_logs_root_dir script_dir) ]} ∪ Os.dirs (fs w).
Proof.
  rewrite create_dirs_cases.
  destruct (Os.path_exists _ _); [set_solver|].
  unfold Os.mkdir. os_cases; cbn; set_solver.
Qed.

(** ** The archiver index *)

Lemma seq_index_out_of_range {A} (l : list A) (i : Z) :
  (i < - Z.of_nat (length l) \/ Z.of_nat (length l) <= i)%Z ->
  PyVal.seq_index l i = None.
Proof.
  intros H. unfold PyVal.seq_index. cbv zeta.
  destruct (0 <=? i)%Z eqn:H0, (i <? Z.of_nat (length l))%Z eqn:H1; cbn [andb];
    try lia;
    destruct (- Z.of_nat (length l) <=? i)%Z eqn:H2, (i <? 0)%Z eqn:H3; cbn [andb];
    try reflexivity; lia.
Qed.

Lemma pull_logs_unfold (env : Env) (self : Self) (di : DeviceInfo)
    (a : Z) (st et : datetime) (w : World) :
  pull_logs env self di a st et w =
  match PyVal.seq_index (archivers di) a with
  | Some archiver_name =>
      for_each categories
        (pull_category env self di a archiver_name
           (convert_dt_to_een_time st) (convert_dt_to_een_time et))
        (snd (create_dirs (script_dir env) (esn di) w))
  | None => (Raise IndexError, snd (create_dirs (script_dir env) (esn di) w))
  end.
Proof.
  destruct (create_dirs_returns (script_dir env) (esn di) w) as (Hr & _).
  unfold pull_logs. unfold bind at 1.
  destruct (create_dirs _ _ w) as [r w1]. cbn [fst snd] in Hr |- *. subst r.
  cbv zeta. unfold list_item.
  destruct (PyVal.seq_index (archivers di) a); reflexivity.
Qed.

(** C7, as amended. When the index is at or past the end of the archiver
    list, or below minus its length, [pull_logs] raises [IndexError] and no
    request has been issued. *)
Theorem pull_logs_index_out_of_range (env : Env) (self : Self) (di : DeviceInfo)
    (a : Z) (st et : datetime) (w : World) :
  (a < - Z.of_nat (length (archivers di)) \/ Z.of_nat (length (archivers di)) <= a)%Z ->
  fst (pull_logs env self di a st et w) = Raise IndexError /\
  sent (snd (pull_logs env self di a st et w)) = sent w.
Proof.
  intros Ha.
  destruct (create_dirs_returns (script_dir env) (esn di) w) as (_ & Hs & _).
  rewrite pull_logs_unfold, (seq_index_out_of_range _ _ Ha).
  split; [reflexivity | exact Hs].
Qed.

Lemma pull_logs_index_out_of_range_witness :
  fst (pull_logs (SampleLogs.env SampleLogs.archive_abc) Sample.self SampleLogs.di 2
         SampleLogs.st SampleLogs.et Sample.w0) = Raise IndexError /\
  sent (snd (pull_logs (SampleLogs.env SampleLogs.archive_abc) Sample.self SampleLogs.di 2
         SampleLogs.st SampleLogs.et Sample.w0)) = [].
Proof.
  apply (pull_logs_index_out_of_range (SampleLogs.env SampleLogs.archive_abc) Sample.self
           SampleLogs.di 2 SampleLogs.st SampleLogs.et Sample.w0).
  cbn. lia.
Defined.

(** C7, as stated, fails: the index -1 is outside [0, len) and yet the
    last archiver is queried, four requests go out and nothing is raised. *)
Lemma pull_logs_negative_index_accepted :
  ~ (forall (env : Env) (self : Self) (di : DeviceInfo) (a : Z) (st et : datetime) (w : World),
        ~ (0 <= a < Z.of_nat (length (archivers di)))%Z ->
        (exists e, fst (pull_logs env self di a st et w) = Raise e) /\
        sent (snd (pull_logs env self di a st et w)) = sent w).
Proof.
  intros H.
  destruct (H (SampleLogs.env SampleLogs.archive_down) Sample.self SampleLogs.di (-1)%Z
              SampleLogs.st SampleLogs.et Sample.w0) as [_ Hsent].
  - cbn. lia.
  - vm_compute in Hsent. discriminate Hsent.
Qed.

(** ** What is written to the log file *)

Lemma repr_byte_length (quote : ascii) (b : byte) :
  1 <= String.length (Py.repr_byte quote b).
Proof.
  unfold Py.repr_byte. cbv zeta.
  repeat match goal with |- context [if ?c then _ else _] => destruct c end;
    cbn [String.length]; lia.
Qed.

Lemma repr_bytes_length (bs : Py.bytes) :
  length bs + 3 <= String.length (Py.repr_bytes bs).
Proof.
  unfold Py.repr_bytes. cbv zeta.
  generalize (if Py.has_byte Py.squote bs && negb (Py.has_byte Py.dquote bs)
              then Py.dquote else Py.squote).
  intros quote. cbn [String.length].
  enough (length bs + 1 <=
          String.length (fold_right (fun b acc => Py.repr_byte quote b ++ acc)
                           (String quote "") bs)) by lia.
  induction bs as [|b bs IH]; cbn [fold_right length String.length]; [lia|].
  rewrite str_length_app. pose proof (repr_byte_length quote b). lia.
Qed.

Lemma text_of_bytes_length (bs : Py.bytes) :
  String.length (Py.text_of_bytes bs) = length bs.
Proof.
  unfold Py.text_of_bytes.
  induction bs as [|b bs IH]; cbn [map string_of_list_ascii String.length length]; congruence.
Qed.

(** [str(line)] is never the text of the line. *)
Lemma str_bytes_not_text (line : Py.bytes) : Py.str_bytes line <> Py.text_of_bytes line.
Proof.
  intros H. apply (f_equal String.length) in H.
  unfold Py.str_bytes in H. rewrite text_of_bytes_length in H.
  pose proof (repr_bytes_length line). lia.
Qed.

(** C1 (the code departs from it). Each category is answered with the single
    line [abc]: the file holds one newline-terminated line and the count is
    1, but the line written is the literal [b'abc'], not [abc]. *)
Theorem pull_logs_writes_repr_of_line :
  let rw := pull_logs (SampleLogs.env SampleLogs.archive_abc) Sample.self SampleLogs.di 0
              SampleLogs.st SampleLogs.et Sample.w0 in
  fst rw = Return tt /\
  Os.read (fs (snd rw)) "./bridge_logs/100bbc9c.a1471_bridge.log"
    = Some ("b'abc'" ++ Py.newline) /\
  In (Line "  ./bridge_logs/100bbc9c.a1471_bridge.log 1 lines") (stdout (snd rw)) /\
  Os.read (fs (snd rw)) "./bridge_logs/100bbc9c.a1471_bridge.log"
    <> Some (Py.text_of_bytes (Py.b_ "abc") ++ Py.newline).
Proof.
  cbv zeta. split; [|split; [|split]].
  - vm_compute. reflexivity.
  - vm_compute. reflexivity.
  - vm_compute. auto 10.
  - vm_compute. discriminate.
Qed.

(** C4 (the code departs from it). With every category answered and nothing
    on disk before, the four files lie directly in [bridge_logs]; the
    per-device directory does not exist afterwards and holds no file. *)
Theorem pull_logs_no_device_directory :
  let rw := pull_logs (SampleLogs.env SampleLogs.archive_abc) Sample.self SampleLogs.di 0
              SampleLogs.st SampleLogs.et Sample.w0 in
  fst rw = Return tt /\
  Os.isdir (fs (snd rw)) "bridge_logs" = true /\
  Os.isdir (fs (snd rw)) "bridge_logs/100bbc9c" = false /\
  map (fun t => Os.isfile (fs (snd rw)) ("bridge_logs/100bbc9c.a1471_" ++ t ++ ".log"))
      categories
    = [true; true; true; true] /\
  map (fun t => Os.isfile (fs (snd rw))
                  ("bridge_logs/100bbc9c/100bbc9c.a1471_" ++ t ++ ".log"))
      categories
    = [false; false; false; false] /\
  size (Os.files (fs (snd rw))) = 4 /\
  size (Os.dirs (fs (snd rw))) = 1.
Proof.
  cbv zeta. split; [|split; [|split; [|split; [|split; [|split]]]]]; vm_compute; reflexivity.
Qed.

(** ** Writing the lines *)

Lemma write_all_dirs (log_path : string) (lines : list Py.bytes) (fs0 : Os.FS) :
  Os.dirs (write_all log_path lines fs0) = Os.dirs fs0.
Proof.
  unfold write_all. revert fs0.
  induction lines as [|line rest IH]; intros fs0; cbn [fold_left]; [reflexivity|].
  now rewrite IH.
Qed.

Lemma write_all_cwd (log_path : string) (lines : list Py.bytes) (fs0 : Os.FS) :
  Os.cwd (write_all log_path lines fs0) = Os.cwd fs0.
Proof.
  unfold write_all. revert fs0.
  induction lines as [|line rest IH]; intros fs0; cbn [fold_left]; [reflexivity|].
  now rewrite IH.
Qed.

Lemma write_all_files (log_path : string) (lines : list Py.bytes) :
  forall (fs0 : Os.FS) (s : string),
    Os.files fs0 !! Os.resolve (Os.cwd fs0) log_path = Some s ->
    Os.files (write_all log_path lines fs0)
    = <[ Os.resolve (Os.cwd fs0) log_path := s ++ log_text lines ]> (Os.files fs0).
Proof.
  unfold write_all.
  induction lines as [|line rest IH]; intros fs0 s Hs; cbn [fold_left log_text].
  - rewrite str_app_nil_r. symmetry. now apply insert_id.
  - rewrite (IH _ (s ++ Py.str_bytes line ++ Py.newline)).
    + cbn [Os.write Os.files Os.cwd]. rewrite Hs. cbn [default].
      now rewrite insert_insert_eq, !str_app_assoc.
    + cbn [Os.write Os.files Os.cwd]. rewrite Hs. cbn [default]. apply lookup_insert_eq.
Qed.

Lemma write_lines_spec (log_path : string) (lines : list Py.bytes) :
  forall (count : Z) (queue : list string) (w : World),
    queue <> [] ->
    exists o,
      write_lines log_path lines count queue w
      = (Return (count + Z.of_nat (length lines))%Z,
         mk_World (write_all log_path lines (fs w)) (stdout w ++ o) (sent w)
           (DeviceInfo_attrs w) (session_closed w)).
Proof.
  induction lines as [|line rest IH]; intros count queue w Hq.
  - exists []. cbn. rewrite Z.add_0_r, app_nil_r. now destruct w.
  - cbn [write_lines]. unfold f_write, with_fs. unfold bind at 1.
    destruct (count mod 10 =? 0)%Z.
    + destruct queue as [|p_char q]; [congruence|].
      unfold stdout_write. rewrite bind_assoc, bind_emit, bind_assoc, bind_emit, bind_ret.
      destruct (IH (count + 1)%Z (q ++ [p_char])%list
                  (mk_World (Os.write (fs w) log_path (Py.str_bytes line ++ Py.newline))
                     ((stdout w ++ [Text backspace]) ++ [Text p_char]) (sent w)
                     (DeviceInfo_attrs w) (session_closed w))) as [o Ho].
      { now destruct q. }
      exists ([Text backspace; Text p_char] ++ o)%list.
      cbn [fs stdout sent DeviceInfo_attrs session_closed] in Ho |- *.
      rewrite Ho. cbn [length].
      replace (count + 1 + Z.of_nat (length rest))%Z
        with (count + Z.of_nat (S (length rest)))%Z by lia.
      rewrite <- !app_assoc. reflexivity.
    + rewrite bind_ret.
      destruct (IH (count + 1)%Z queue
                  (mk_World (Os.write (fs w) log_path (Py.str_bytes line ++ Py.newline))
                     (stdout w) (sent w) (DeviceInfo_attrs w) (session_closed w)) Hq)
        as [o Ho].
      exists o. cbn [fs stdout sent DeviceInfo_attrs session_closed] in Ho |- *.
      rewrite Ho. cbn [length].
      replace (count + 1 + Z.of_nat (length rest))%Z
        with (count + Z.of_nat (S (length rest)))%Z by lia.
      reflexivity.
Qed.

(** ** Opening a file *)

Lemma existsb_ext_in {A} (f g : A -> bool) (l : list A) :
  (forall x, In x l -> f x = g x) -> existsb f l = existsb g l.
Proof.
  induction l as [|x l IH]; intros H; [reflexivity|].
  cbn [existsb]. rewrite (H x (or_introl eq_refl)), IH; [reflexivity|].
  intros y Hy. apply H. now right.
Qed.

Lemma ancestors_shorter (k q : Os.fspath) :
  In q (Os.ancestors k) -> length q < length k.
Proof.
  unfold Os.ancestors. intros H. apply in_map_iff in H as (n & <- & Hn).
  apply in_seq in Hn. rewrite length_take. lia.
Qed.

(** Whether, and how, [open(p, "w")] fails for a path that ends with a name
    depends on the working directory, on the directories, and on the
    regular files that stand above [p]. *)
Lemma open_w_ext (fs1 fs2 : Os.FS) (p : string) :
  Os.cwd fs1 = Os.cwd fs2 -> Os.dirs fs1 = Os.dirs fs2 ->
  Os.ending_of p = Os.Plain ->
  (forall q, In q (Os.ancestors (Os.resolve (Os.cwd fs2) p)) ->
             Os.is_file fs1 q = Os.is_file fs2 q) ->
  match Os.open_w fs1 p, Os.open_w fs2 p with
  | inl e1, inl e2 => e1 = e2
  | inr _, inr _ => True
  | _, _ => False
  end.
Proof.
  intros Hc Hd Hp Hf. unfold Os.open_w. cbv zeta. rewrite Hp, Hc.
  assert (Hb : Os.below_file fs1 (Os.resolve (Os.cwd fs2) p)
               = Os.below_file fs2 (Os.resolve (Os.cwd fs2) p))
    by (apply existsb_ext_in; exact Hf).
  assert (Hdir : forall q, Os.is_dir fs1 q = Os.is_dir fs2 q)
    by (intros q; unfold Os.is_dir; now rewrite Hc, Hd).
  rewrite Hb, !Hdir.
  repeat match goal with
         | |- context [if ?b then _ else _] =>
             lazymatch type of b with bool => destruct b end
         end; trivial.
Qed.

Lemma can_open_ext (fs1 fs2 : Os.FS) (p : string) :
  Os.cwd fs1 = Os.cwd fs2 -> Os.dirs fs1 = Os.dirs fs2 ->
  Os.ending_of p = Os.Plain ->
  (forall q, In q (Os.ancestors (Os.resolve (Os.cwd fs2) p)) ->
             Os.is_file fs1 q = Os.is_file fs2 q) ->
  can_open fs1 p = can_open fs2 p.
Proof.
  intros Hc Hd Hp Hf. pose proof (open_w_ext fs1 fs2 p Hc Hd Hp Hf) as H.
  unfold can_open. destruct (Os.open_w fs1 p), (Os.open_w fs2 p); tauto.
Qed.

Lemma open_w_success (fs0 fs1 : Os.FS) (p : string) :
  Os.open_w fs0 p = inr fs1 ->
  fs1 = Os.mk_FS (Os.cwd fs0) (Os.dirs fs0)
          (<[ Os.resolve (Os.cwd fs0) p := "" ]> (Os.files fs0)).
Proof.
  unfold Os.open_w. cbv zeta. intros Ho.
  destruct (String.eqb p ""); [discriminate|].
  destruct (Os.ending_of p);
    repeat match type of Ho with
           | context [if ?b then _ else _] =>
               lazymatch type of b with bool => destruct b end
           end; try discriminate.
  now injection Ho as <-.
Qed.

(** ** One category *)

Lemma pull_category_step (env : Env) (self : Self) (di : DeviceInfo) (a : Z)
    (archiver archiver_name st et t : string) (w : World) (log_response : Response) :
  PyVal.seq_index (archivers di) a = Some archiver ->
  net env (log_request self di archiver st et t) = inr log_response ->
  (status_code log_response = 200%Z ->
   can_open (fs w) (log_path_of di archiver_name t) = true) ->
  exists o w',
    pull_category env self di a archiver_name st et t w = (Return tt, w') /\
    sent w' = (sent w ++ [log_request self di archiver st et t])%list /\
    stdout w' = (stdout w ++ o)%list /\
    In (report_line (log_path_of di archiver_name t) log_response) o /\
    Os.dirs (fs w') = Os.dirs (fs w) /\
    Os.files (fs w')
      = files_after (Os.cwd (fs w)) (log_path_of di archiver_name t) log_response
          (Os.files (fs w)) /\
    DeviceInfo_attrs w' = DeviceInfo_attrs w /\
    session_closed w' = session_closed w /\
    Os.cwd (fs w') = Os.cwd (fs w).
Proof.
  intros Hidx Hnet Hopen.
  unfold pull_category, list_item. rewrite Hidx, bind_ret.
  unfold print. rewrite bind_emit. unfold http_get. unfold bind at 1.
  cbn [fs stdout sent DeviceInfo_attrs session_closed]. rewrite Hnet.
  unfold report_line, files_after.
  destruct (status_code log_response =? 200)%Z eqn:Hst.
  - apply Z.eqb_eq in Hst. specialize (Hopen Hst). unfold can_open in Hopen.
    rewrite bind_assoc. unfold open_w, with_fs. unfold bind at 1.
    cbn [fs stdout sent DeviceInfo_attrs session_closed].
    destruct (Os.open_w (fs w) _) as [|fs1] eqn:Ho; [discriminate|].
    unfold stdout_write. rewrite bind_assoc, bind_emit, bind_assoc.
    cbn [fs stdout sent DeviceInfo_attrs session_closed].
    unfold bind at 1.
    match goal with |- context [write_lines ?p ?l ?c ?q ?w0] =>
      destruct (write_lines_spec p l c q w0 ltac:(discriminate)) as [o1 Ho1]
    end.
    rewrite Ho1. rewrite bind_assoc, bind_emit, bind_emit.
    cbn [fs stdout sent DeviceInfo_attrs session_closed].
    unfold emit. cbn [fs stdout sent DeviceInfo_attrs session_closed].
    eexists _, _. split; [reflexivity|].
    cbn [fs stdout sent DeviceInfo_attrs session_closed].
    pose proof (open_w_success _ _ _ Ho) as Hfs1.
    split; [reflexivity|]. split; [rewrite <- !app_assoc; reflexivity|].
    split; [|split; [|split; [|split; [reflexivity|split; [reflexivity|]]]]].
    + unfold success_line. rewrite Z.add_0_l, !in_app_iff.
      do 4 right. left. now left.
    + rewrite write_all_dirs, Hfs1. reflexivity.
    + rewrite (write_all_files _ _ _ "")
        by (rewrite Hfs1; cbn [Os.cwd Os.files]; apply lookup_insert_eq).
      rewrite Hfs1. cbn [Os.files Os.cwd]. rewrite str_app_nil_l. apply insert_insert_eq.
    + rewrite write_all_cwd, Hfs1. reflexivity.
  - rewrite bind_emit. unfold emit.
    cbn [fs stdout sent DeviceInfo_attrs session_closed].
    eexists _, _. split; [reflexivity|].
    cbn [fs stdout sent DeviceInfo_attrs session_closed].
    split; [reflexivity|]. split; [rewrite <- !app_assoc; reflexivity|].
    split; [|repeat split; reflexivity].
    right. left. reflexivity.
Qed.

(** ** Paths of the log files *)

Lemma split_on_nonempty (s : string) : Os.split_on "/" s <> [].
Proof.
  destruct s as [|c s]; cbn [Os.split_on]; [discriminate|].
  destruct (Ascii.eqb c "/"); [discriminate|].
  destruct (Os.split_on "/" s); discriminate.
Qed.

Lemma split_on_no_slash (s : string) : no_slash s = true -> Os.split_on "/" s = [s].
Proof.
  induction s as [|c s IH]; cbn [no_slash Os.split_on]; [reflexivity|].
  intros H. apply andb_prop in H as [Hc Hs].
  destruct (Ascii.eqb c "/"); [discriminate|]. now rewrite (IH Hs).
Qed.

Lemma split_on_app (p s : string) :
  no_slash s = true ->
  Os.split_on "/" (p ++ s) = app_last (Os.split_on "/" p) s.
Proof.
  intros Hs. induction p as [|c p IH].
  - rewrite str_app_nil_l. now rewrite split_on_no_slash.
  - rewrite str_app_cons. cbn [Os.split_on]. rewrite IH.
    pose proof (split_on_nonempty p) as Hne.
    destruct (Os.split_on "/" p) as [|x [|y ys]]; [congruence| |].
    + destruct (Ascii.eqb c "/"); reflexivity.
    + destruct (Ascii.eqb c "/"); reflexivity.
Qed.

Lemma app_last_snoc (l : list string) (s : string) :
  l <> [] -> app_last l s = (removelast l ++ [(List.last l "" ++ s)%string])%list.
Proof.
  induction l as [|x [|y ys] IH]; intros Hne; [congruence|reflexivity|].
  change (x :: app_last (y :: ys) s
          = x :: (removelast (y :: ys) ++ [(List.last (y :: ys) "" ++ s)%string])%list).
  f_equal. now apply IH.
Qed.

Lemma proper_component_long (c : string) : 2 <= String.length c -> Os.proper_component c = true.
Proof.
  destruct c as [|a [|b c]]; cbn [String.length]; try lia. intros _.
  unfold Os.proper_component. cbn. now destruct (Ascii.eqb a ".").
Qed.

Lemma split_on_suffix (p s : string) :
  no_slash s = true ->
  Os.split_on "/" (p ++ s)
  = (removelast (Os.split_on "/" p) ++ [(List.last (Os.split_on "/" p) "" ++ s)%string])%list.
Proof.
  intros Hs. now rewrite (split_on_app _ _ Hs), (app_last_snoc _ _ (split_on_nonempty p)).
Qed.

(** The components of [p ++ s], when [s] has no slash and two characters
    or more: the last component ends in [s]. *)
Lemma components_app (p s : string) :
  no_slash s = true -> 2 <= String.length s ->
  Os.components (p ++ s)
  = (List.filter Os.proper_component (removelast (Os.split_on "/" p))
     ++ [(List.last (Os.split_on "/" p) "" ++ s)%string])%list.
Proof.
  intros Hs Hlen. unfold Os.components.
  rewrite (split_on_suffix _ _ Hs), List.filter_app. cbn [List.filter].
  rewrite proper_component_long; [reflexivity|].
  rewrite str_length_app. lia.
Qed.

Lemma eqb_other_length (x y : string) :
  String.length x <> String.length y -> String.eqb x y = false.
Proof. intros H. apply String.eqb_neq. intros ->. now apply H. Qed.

(** Such a path ends with a name. *)
Lemma ending_of_app (p s : string) :
  no_slash s = true -> 2 <= String.length s -> Os.ending_of (p ++ s) = Os.Plain.
Proof.
  intros Hs Hlen. unfold Os.ending_of. cbv zeta.
  rewrite (split_on_suffix _ _ Hs), rev_app_distr. cbn [rev app Os.drop_empty].
  assert (Hlong : 2 <= String.length (List.last (Os.split_on "/" p) "" ++ s))
    by (rewrite str_length_app; lia).
  rewrite !eqb_other_length by (cbn [String.length]; lia).
  cbn [length]. rewrite length_app, length_rev. cbn [length].
  replace (S (length (removelast (Os.split_on "/" p)))
           <? length (removelast (Os.split_on "/" p)) + 1)%nat with false
    by (symmetry; apply Nat.ltb_ge; lia).
  reflexivity.
Qed.

Lemma log_path_of_split (di : DeviceInfo) (archiver_name t : string) :
  log_path_of di archiver_name t
  = ("./bridge_logs/" ++ esn di ++ "." ++ archiver_name) ++ log_suffix t.
Proof.
  unfold log_path_of, log_suffix. rewrite !str_app_assoc. reflexivity.
Qed.

Lemma log_suffix_shape (t : string) :
  In t categories -> no_slash (log_suffix t) = true /\ 2 <= String.length (log_suffix t).
Proof.
  intros Ht. cbn in Ht.
  destruct Ht as [<-|[<-|[<-|[<-|[]]]]]; split; vm_compute; try reflexivity; lia.
Qed.

(** Where a log file is: in the working directory, under the components of
    the path up to the last, which ends with the category. *)
Lemma resolve_log_path (cwd : Os.fspath) (di : DeviceInfo) (archiver_name t : string) :
  In t categories ->
  Os.resolve cwd (log_path_of di archiver_name t)
  = (cwd ++
     List.filter Os.proper_component
       (removelast (Os.split_on "/" ("./bridge_logs/" ++ esn di ++ "." ++ archiver_name)))
     ++ [(List.last (Os.split_on "/" ("./bridge_logs/" ++ esn di ++ "." ++ archiver_name)) ""
          ++ log_suffix t)%string])%list.
Proof.
  intros Ht. destruct (log_suffix_shape t Ht) as [Hn Hl].
  unfold Os.resolve.
  replace (Os.is_abs (log_path_of di archiver_name t)) with false by reflexivity.
  rewrite log_path_of_split. now rewrite (components_app _ _ Hn Hl).
Qed.

Lemma log_path_plain (di : DeviceInfo) (archiver_name t : string) :
  In t categories -> Os.ending_of (log_path_of di archiver_name t) = Os.Plain.
Proof.
  intros Ht. destruct (log_suffix_shape t Ht) as [Hn Hl].
  rewrite log_path_of_split. now apply ending_of_app.
Qed.


(** No log file stands above another. *)
Lemma log_path_not_above (cwd : Os.fspath) (di : DeviceInfo) (archiver_name t1 t2 : string) :
  In t1 categories -> In t2 categories ->
  ~ In (Os.resolve cwd (log_path_of di archiver_name t1))
       (Os.ancestors (Os.resolve cwd (log_path_of di archiver_name t2))).
Proof.
  intros H1 H2 Hin. apply ancestors_shorter in Hin. revert Hin.
  rewrite (resolve_log_path _ _ _ _ H1), (resolve_log_path _ _ _ _ H2).
  rewrite !length_app. cbn [length]. lia.
Qed.

(** ** The loop over the categories *)

Section Categories.
Variables (env : Env) (self : Self) (di : DeviceInfo) (a : Z).
Variables (archiver st et : string).
Variable answer : string -> Response.

Hypothesis Hindex : PyVal.seq_index (archivers di) a = Some archiver.

Local Abbreviation rq := (log_request self di archiver st et).
Local Abbreviation path := (log_path_of di archiver).

Lemma for_each_categories (ts : list string) :
  forall w : World,
    (forall t, In t ts -> In t categories) ->
    (forall t, In t ts -> net env (rq t) = inr (answer t)) ->
    (forall t, In t ts -> status_code (answer t) = 200%Z ->
               can_open (fs w) (path t) = true) ->
    exists o w',
      for_each ts (pull_category env self di a archiver st et) w = (Return tt, w') /\
      sent w' = (sent w ++ map rq ts)%list /\
      stdout w' = (stdout w ++ o)%list /\
      (forall t, In t ts -> In (report_line (path t) (answer t)) o) /\
      Os.dirs (fs w') = Os.dirs (fs w) /\
      Os.files (fs w')
        = files_after_all (Os.cwd (fs w)) di archiver answer ts (Os.files (fs w)) /\
      session_closed w' = session_closed w /\
      Os.cwd (fs w') = Os.cwd (fs w).
Proof.
  induction ts as [|t ts IH]; intros w Hcat Hnet Hopen.
  - exists [], w. cbn. rewrite !app_nil_r. repeat split; tauto.
  - cbn [for_each].
    destruct (pull_category_step env self di a archiver archiver st et t w (answer t)
                Hindex (Hnet t (or_introl eq_refl)) (Hopen t (or_introl eq_refl)))
      as (o1 & w1 & Hrun & Hsent & Hout & Hrep & Hdirs & Hfiles & _ & Hclosed & Hcwd).
    destruct (IH w1) as (o2 & w2 & Hrun2 & Hsent2 & Hout2 & Hrep2 & Hdirs2 & Hfiles2
                         & Hclosed2 & Hcwd2).
    { intros t' Ht'. apply Hcat. now right. }
    { intros t' Ht'. apply Hnet. now right. }
    { intros t' Ht' H200.
      rewrite (can_open_ext (fs w1) (fs w) (path t') Hcwd Hdirs).
      - apply Hopen; [now right | exact H200].
      - apply log_path_plain. apply Hcat. now right.
      - intros q Hq. unfold Os.is_file. rewrite Hfiles. unfold files_after.
        destruct (status_code (answer t) =? 200)%Z; [|reflexivity].
        rewrite lookup_insert_ne; [reflexivity|].
        intros <-. revert Hq. apply log_path_not_above; apply Hcat; [now left | now right]. }
    exists (o1 ++ o2)%list, w2. unfold bind. rewrite Hrun, Hrun2.
    repeat split.
    + rewrite Hsent2, Hsent, <- app_assoc. reflexivity.
    + rewrite Hout2, Hout, <- app_assoc. reflexivity.
    + intros t' [<-|Ht']; rewrite in_app_iff; [left; exact Hrep | right; now apply Hrep2].
    + congruence.
    + rewrite Hfiles2, Hfiles, Hcwd. reflexivity.
    + congruence.
    + congruence.
Qed.

End Categories.

Lemma files_after_all_other (cwd : Os.fspath) (di : DeviceInfo) (archiver : string)
    (answer : string -> Response) (ts : list string) :
  forall (files0 : gmap Os.fspath string) (k : Os.fspath),
    (forall t, In t ts -> status_code (answer t) = 200%Z ->
               k <> Os.resolve cwd (log_path_of di archiver t)) ->
    files_after_all cwd di archiver answer ts files0 !! k = files0 !! k.
Proof.
  unfold files_after_all.
  induction ts as [|t ts IH]; intros files0 k Hk; [reflexivity|].
  cbn [fold_left].
  rewrite IH by (intros t' Ht'; apply Hk; now right).
  unfold files_after. destruct (status_code (answer t) =? 200)%Z eqn:Hst; [|reflexivity].
  apply lookup_insert_ne. intros Heq. apply Z.eqb_eq in Hst.
  now apply (Hk t (or_introl eq_refl) Hst).
Qed.






(** ** The Session plays no part in [pull_logs] *)

Lemma blind_ret {A} (x : A) : session_blind (ret x).
Proof. intros b w. reflexivity. Qed.

Lemma blind_raise {A} (e : exn) : session_blind (@raise A e).
Proof. intros b w. reflexivity. Qed.

Lemma blind_emit (o : out) : session_blind (emit o).
Proof. intros b w. reflexivity. Qed.

Lemma blind_print (s : string) : session_blind (print s).
Proof. apply blind_emit. Qed.

Lemma blind_stdout_write (s : string) : session_blind (stdout_write s).
Proof. apply blind_emit. Qed.

Lemma blind_http_get (n : Net) (rq : Request) : session_blind (http_get n rq).
Proof. intros b w. unfold http_get. cbn. destruct (n rq); reflexivity. Qed.

Lemma blind_with_fs {A} (f : Os.FS -> exn + (A * Os.FS)) : session_blind (with_fs f).
Proof. intros b w. unfold with_fs. cbn. destruct (f (fs w)) as [|[]]; reflexivity. Qed.

Lemma blind_os_path_exists (p : string) : session_blind (os_path_exists p).
Proof. intros b w. reflexivity. Qed.

Lemma blind_os_mkdir (p : string) : session_blind (os_mkdir p).
Proof. apply blind_with_fs. Qed.

Lemma blind_open_w (p : string) : session_blind (open_w p).
Proof. apply blind_with_fs. Qed.

Lemma blind_f_write (p s : string) : session_blind (f_write p s).
Proof. apply blind_with_fs. Qed.

Lemma blind_list_item {A} (l : list A) (i : Z) : session_blind (list_item l i).
Proof. unfold list_item. destruct (PyVal.seq_index l i); [apply blind_ret | apply blind_raise]. Qed.

Lemma blind_bind {A B} (m : M A) (k : A -> M B) :
  session_blind m -> (forall x, session_blind (k x)) -> session_blind (bind m k).
Proof.
  intros Hm Hk b w. unfold bind. rewrite Hm.
  destruct (m w) as [[x|e|c] w1]; cbn [fst snd]; [apply Hk | reflexivity | reflexivity].
Qed.

Lemma blind_try_except_Exception {A} (m : M A) (h : exn -> M A) :
  session_blind m -> (forall e, session_blind (h e)) ->
  session_blind (try_except_Exception m h).
Proof.
  intros Hm Hh b w. unfold try_except_Exception. rewrite Hm.
  destruct (m w) as [[x|e|c] w1]; cbn [fst snd]; [reflexivity | apply Hh | reflexivity].
Qed.

Lemma blind_if {A} (c : bool) (m1 m2 : M A) :
  session_blind m1 -> session_blind m2 -> session_blind (if c then m1 else m2).
Proof. now destruct c. Qed.

Lemma blind_for_each {A} (l : list A) (body : A -> M unit) :
  (forall x, session_blind (body x)) -> session_blind (for_each l body).
Proof.
  intros Hb. induction l as [|x l IH]; cbn [for_each];
    [apply blind_ret | apply blind_bind; auto].
Qed.

#[local] Hint Resolve blind_ret blind_raise blind_emit blind_print blind_stdout_write
  blind_http_get blind_os_path_exists blind_os_mkdir blind_open_w blind_f_write
  blind_list_item blind_bind blind_try_except_Exception blind_if blind_for_each : blind.

Lemma blind_write_lines (log_path : string) (lines : list Py.bytes) :
  forall count queue, session_blind (write_lines log_path lines count queue).
Proof.
  induction lines as [|line rest IH]; intros count queue; cbn [write_lines].
  - auto with blind.
  - apply blind_bind; [auto with blind|]. intros _.
    apply blind_bind; [|intros q; apply IH].
    apply blind_if; [|auto with blind].
    destruct queue; auto 6 with blind.
Qed.

Lemma blind_create_dirs (script_dir bridge_esn : string) :
  session_blind (create_dirs script_dir bridge_esn).
Proof. unfold create_dirs. cbv zeta. auto 8 with blind. Qed.

Lemma blind_pull_category (env : Env) (self : Self) (di : DeviceInfo) (a : Z)
    (archiver_name st et t : string) :
  session_blind (pull_category env self di a archiver_name st et t).
Proof.
  unfold pull_category.
  apply blind_bind; [auto with blind|]. intros archiver.
  apply blind_bind; [auto with blind|]. intros _.
  apply blind_bind; [auto with blind|]. intros log_response.
  apply blind_bind; [|auto with blind].
  apply blind_if; [|auto with blind]. cbv zeta.
  apply blind_bind; [auto with blind|]. intros _.
  apply blind_bind; [auto with blind|]. intros _.
  apply blind_bind; [apply blind_write_lines|]. intros count.
  auto with blind.
Qed.

Lemma blind_pull_logs (env : Env) (self : Self) (di : DeviceInfo) (a : Z)
    (st et : datetime) :
  session_blind (pull_logs env self di a st et).
Proof.
  unfold pull_logs.
  apply blind_bind; [apply blind_create_dirs|]. intros _. cbv zeta.
  apply blind_bind; [auto with blind|]. intros archiver_name.
  apply blind_for_each. intros t. apply blind_pull_category.
Qed.

(** ** The requests of [pull_logs] *)

Lemma pull_category_sent (env : Env) (self : Self) (di : DeviceInfo) (a : Z)
    (archiver archiver_name st et t : string) (w : World) :
  PyVal.seq_index (archivers di) a = Some archiver ->
  sent (snd (pull_category env self di a archiver_name st et t w))
  = (sent w ++ [log_request self di archiver st et t])%list.
Proof.
  intros Hidx. unfold pull_category, list_item. rewrite Hidx, bind_ret.
  unfold print. rewrite bind_emit. unfold http_get. unfold bind at 1.
  cbn [fs stdout sent DeviceInfo_attrs session_closed].
  destruct (net env _) as [e|log_response]; [reflexivity|].
  destruct (status_code log_response =? 200)%Z.
  - rewrite bind_assoc. unfold open_w, with_fs. unfold bind at 1.
    cbn [fs stdout sent DeviceInfo_attrs session_closed].
    destruct (Os.open_w (fs w) _) as [|fs1]; [reflexivity|].
    unfold stdout_write. rewrite bind_assoc, bind_emit, bind_assoc.
    cbn [fs stdout sent DeviceInfo_attrs session_closed].
    unfold bind at 1.
    match goal with |- context [write_lines ?p ?l ?c ?q ?w0] =>
      destruct (write_lines_spec p l c q w0 ltac:(discriminate)) as [o1 Ho1]
    end.
    rewrite Ho1. rewrite bind_assoc, bind_emit, bind_emit.
    unfold emit. reflexivity.
  - rewrite bind_emit. unfold emit. reflexivity.
Qed.

Lemma for_each_sent (env : Env) (self : Self) (di : DeviceInfo) (a : Z)
    (archiver archiver_name st et : string) (ts : list string) :
  PyVal.seq_index (archivers di) a = Some archiver ->
  forall w, exists k,
    k <= length ts /\
    sent (snd (for_each ts (pull_category env self di a archiver_name st et) w))
    = (sent w ++ map (log_request self di archiver st et) (take k ts))%list /\
    (fst (for_each ts (pull_category env self di a archiver_name st et) w) = Return tt ->
     k = length ts).
Proof.
  intros Hidx. induction ts as [|t ts IH]; intros w.
  - exists 0. cbn. rewrite app_nil_r. auto.
  - cbn [for_each]. unfold bind.
    pose proof (pull_category_sent env self di a archiver archiver_name st et t w Hidx) as Hs.
    destruct (pull_category env self di a archiver_name st et t w) as [[[]|e|c] w1];
      cbn [snd] in Hs.
    + destruct (IH w1) as (k & Hk & Hsent & Hret).
      exists (S k). cbn [length take map]. split; [lia|]. split.
      * rewrite Hsent, Hs, <- app_assoc. reflexivity.
      * intros H. now rewrite (Hret H).
    + exists 1. cbn [length take map fst snd]. rewrite take_0.
      split; [lia|]. split; [exact Hs | discriminate].
    + exists 1. cbn [length take map fst snd]. rewrite take_0.
      split; [lia|]. split; [exact Hs | discriminate].
Qed.

(** C10. The requests of [pull_logs] are those of the categories, in order,
    each a module-level [requests.get] (not a call on the Session) carrying
    the stored auth key as the cookies [auth_key] and [vbsadmin_sessionid];
    all four are issued when the run returns.  Whether the Session is open or
    closed changes nothing in the run, and [get_device_info] leaves it
    closed. *)
Theorem pull_logs_independent_of_session (env : Env) (self : Self) (di : DeviceInfo)
    (a : Z) (st et : datetime) (w : World) :
  (exists new,
      sent (snd (pull_logs env self di a st et w)) = (sent w ++ new)%list /\
      Forall (fun rq => through_session rq = false /\
                        cookies rq = [("auth_key", auth_key self);
                                      ("vbsadmin_sessionid", auth_key self)]) new /\
      (fst (pull_logs env self di a st et w) = Return tt ->
       exists archiver,
         PyVal.seq_index (archivers di) a = Some archiver /\
         new = map (log_request self di archiver (convert_dt_to_een_time st)
                      (convert_dt_to_een_time et)) categories)) /\
  (forall b,
      pull_logs env self di a st et (set_session b w)
      = (fst (pull_logs env self di a st et w),
         set_session b (snd (pull_logs env self di a st et w)))) /\
  (forall bridge_esn w0,
      session_closed (snd (get_device_info env self bridge_esn w0)) = true).
Proof.
  split; [|split].
  - destruct (create_dirs_returns (script_dir env) (esn di) w) as (_ & Hs & _).
    rewrite pull_logs_unfold.
    destruct (PyVal.seq_index (archivers di) a) as [archiver|] eqn:Hidx.
    + destruct (for_each_sent env self di a archiver archiver
                  (convert_dt_to_een_time st) (convert_dt_to_een_time et)
                  categories Hidx (snd (create_dirs (script_dir env) (esn di) w)))
        as (k & Hk & Hsent & Hret).
      eexists. split; [rewrite Hsent, Hs; reflexivity|]. split.
      * apply Forall_forall. intros rq Hin. apply list_elem_of_In in Hin.
        apply in_map_iff in Hin as (t & <- & _). split; reflexivity.
      * intros H. exists archiver. split; [reflexivity|].
        rewrite (Hret H). reflexivity.
    + exists []. cbn [fst snd]. rewrite app_nil_r.
      split; [exact Hs|]. split; [constructor | discriminate].
  - intros b. apply blind_pull_logs.
  - intros bridge_esn w0. rewrite get_device_info_unfold. cbv zeta.
    destruct (net env _) as [e|response]; [reflexivity|].
    destruct (negb (ok response)); [reflexivity|].
    destruct (read_device_info response _) as [[di'|e|c] w1]; reflexivity.
Qed.

Lemma pull_logs_independent_of_session_witness :
  exists archiver new,
    PyVal.seq_index (archivers SampleLogs.di) 0 = Some archiver /\
    sent (snd (pull_logs (SampleLogs.env SampleLogs.archive_two_of_four) Sample.self
                 SampleLogs.di 0 SampleLogs.st SampleLogs.et Sample.w0))
    = (sent Sample.w0 ++ new)%list /\
    new = map (log_request Sample.self SampleLogs.di archiver
                 (convert_dt_to_een_time SampleLogs.st)
                 (convert_dt_to_een_time SampleLogs.et))
            categories.
Proof.
  destruct (pull_logs_independent_of_session
              (SampleLogs.env SampleLogs.archive_two_of_four) Sample.self
              SampleLogs.di 0 SampleLogs.st SampleLogs.et Sample.w0)
    as ((new & Hsent & _ & Hret) & _ & _).
  destruct Hret as (archiver & Hidx & Hnew); [vm_compute; reflexivity|].
  exists archiver, new. split; [exact Hidx|]. split; [exact Hsent | exact Hnew].
Defined.

(** * Further properties of the code *)

(** ** [create_dirs] *)

Lemma bridge_logs_root_dir_not_empty (script_dir : string) :
  String.eqb (bridge_logs_root_dir script_dir) "" = false.
Proof.
  unfold bridge_logs_root_dir, Os.path_join. cbn [Os.is_abs].
  change (Ascii.eqb "b" "/") with false. cbv iota.
  destruct (String.eqb script_dir "" || Os.ends_with_slash script_dir);
    destruct script_dir; reflexivity.
Qed.

Lemma is_dir_after_mkdir (fs0 fs1 : Os.FS) (p : string) :
  Os.mkdir fs0 p = inr fs1 ->
  Os.is_dir fs1 (Os.resolve (Os.cwd fs0) p) = true /\ Os.files fs1 = Os.files fs0 /\
  Os.dirs fs1 = {[ Os.resolve (Os.cwd fs0) p ]} ∪ Os.dirs fs0 /\
  Os.cwd fs1 = Os.cwd fs0.
Proof.
  unfold Os.mkdir. cbv zeta. intros H.
  destruct (String.eqb p ""); [discriminate|].
  destruct (Os.ending_of p);
    repeat match type of H with
           | context [if ?b then _ else _] =>
               lazymatch type of b with bool => destruct b end
           end; try discriminate;
    injection H as <-; cbn [Os.files Os.dirs Os.cwd]; (split; [|auto]);
    unfold Os.is_dir; cbn [Os.dirs]; apply orb_true_iff; right;
    apply bool_decide_eq_true; set_solver.
Qed.

(** X1. [create_dirs] always returns: an exception of [os.mkdir] is caught
    and only printed.  It issues no request, changes no file and no
    attribute of [DeviceInfo], and the only directory it can add is
    [bridge_logs] beside the script. *)
Theorem create_dirs_swallows_errors (script_dir bridge_esn : string) (w : World) :
  fst (create_dirs script_dir bridge_esn w) = Return tt /\
  sent (snd (create_dirs script_dir bridge_esn w)) = sent w /\
  Os.files (fs (snd (create_dirs script_dir bridge_esn w))) = Os.files (fs w) /\
  DeviceInfo_attrs (snd (create_dirs script_dir bridge_esn w)) = DeviceInfo_attrs w /\
  (forall d, d ∈ Os.dirs (fs (snd (create_dirs script_dir bridge_esn w))) ->
             d = Os.resolve (Os.cwd (fs w)) (Os.path_join script_dir "bridge_logs")
             \/ d ∈ Os.dirs (fs w)) /\
  (forall e, Os.path_exists (fs w) (Os.path_join script_dir "bridge_logs") = false ->
             Os.mkdir (fs w) (Os.path_join script_dir "bridge_logs") = inl e ->
             create_dirs script_dir bridge_esn w
             = (Return tt, add_out [create_dirs_error e] w)).
Proof.
  rewrite create_dirs_cases. fold (bridge_logs_root_dir script_dir).
  destruct (Os.path_exists (fs w) (bridge_logs_root_dir script_dir)) eqn:Hex.
  - cbn [fst snd]. repeat split; auto. discriminate.
  - destruct (Os.mkdir (fs w) (bridge_logs_root_dir script_dir)) as [e|fs1] eqn:Hmk.
    + cbn [fst snd add_out fs sent DeviceInfo_attrs]. repeat split; auto.
      intros e' _ [= <-]. reflexivity.
    + apply is_dir_after_mkdir in Hmk as (_ & Hf & Hd & _).
      cbn [fst snd set_fs fs sent DeviceInfo_attrs]. repeat split; auto.
      * intros d. rewrite Hd. set_solver.
      * discriminate.
Qed.

Lemma create_dirs_swallows_errors_witness :
  create_dirs "/srv/gone" "100bbc9c" Sample.w0
  = (Return tt, add_out [create_dirs_error FileNotFoundError] Sample.w0).
Proof.
  destruct (create_dirs_swallows_errors "/srv/gone" "100bbc9c" Sample.w0)
    as (_ & _ & _ & _ & _ & H).
  apply (H FileNotFoundError); vm_compute; reflexivity.
Defined.

(** X2. [create_dirs] is idempotent on the file system: a second call finds
    what the first left and changes nothing; and where [bridge_logs] is
    already there the call changes nothing at all. *)
Theorem create_dirs_idempotent (script_dir bridge_esn : string) (w : World) :
  fs (snd (create_dirs script_dir bridge_esn
             (snd (create_dirs script_dir bridge_esn w))))
  = fs (snd (create_dirs script_dir bridge_esn w)) /\
  (Os.path_exists (fs w) (Os.path_join script_dir "bridge_logs") = true ->
   create_dirs script_dir bridge_esn w = (Return tt, w)).
Proof.
  split.
  - rewrite (create_dirs_cases script_dir bridge_esn w).
    destruct (Os.path_exists (fs w) (bridge_logs_root_dir script_dir)) eqn:Hex.
    + cbn [snd]. rewrite create_dirs_cases, Hex. reflexivity.
    + destruct (Os.mkdir (fs w) (bridge_logs_root_dir script_dir)) as [e|fs1] eqn:Hmk;
        cbn [snd]; rewrite create_dirs_cases; cbn [add_out set_fs fs].
      * rewrite Hex, Hmk. reflexivity.
      * apply is_dir_after_mkdir in Hmk as (Hdir & _ & _ & Hcwd).
        unfold Os.path_exists at 1, Os.isdir.
        rewrite bridge_logs_root_dir_not_empty, Hcwd, Hdir. reflexivity.
  - intros Hex. rewrite create_dirs_cases.
    fold (bridge_logs_root_dir script_dir) in Hex. now rewrite Hex.
Qed.

Lemma create_dirs_idempotent_witness :
  create_dirs "/opt/tool" "100bbc9c" (snd (create_dirs "/opt/tool" "100bbc9c" Sample.w0))
  = (Return tt, snd (create_dirs "/opt/tool" "100bbc9c" Sample.w0)).
Proof.
  apply (proj2 (create_dirs_idempotent "/opt/tool" "100bbc9c"
                  (snd (create_dirs "/opt/tool" "100bbc9c" Sample.w0)))).
  vm_compute. reflexivity.
Defined.

(** ** [get_device_info]: failures *)

(** X3. When the device-info endpoint answers with a 4xx or 5xx status,
    [get_device_info] prints the body and the status, adds the VPN hint
    exactly when the status is 403, and exits with status 1; no attribute of
    the record and no file is touched. *)
Theorem get_device_info_error_status (env : Env) (self : Self) (bridge_esn : string)
    (w : World) (response : Response) :
  net env (device_info_request self bridge_esn) = inr response ->
  ok response = false ->
  fst (get_device_info env self bridge_esn w) = Exit 1%Z /\
  stdout (snd (get_device_info env self bridge_esn w))
    = (stdout w
       ++ [requesting_line bridge_esn;
           Line (Py.str_bytes (content response));
           Line ("Unable to retrieve device info. Response: "
                 ++ Py.str_int (status_code response))]
       ++ (if (status_code response =? 403)%Z then [Line vpn_hint] else []))%list /\
  DeviceInfo_attrs (snd (get_device_info env self bridge_esn w)) = DeviceInfo_attrs w /\
  fs (snd (get_device_info env self bridge_esn w)) = fs w.
Proof.
  intros Hnet Hok. rewrite get_device_info_unfold, Hnet. cbv zeta. rewrite Hok.
  cbn [negb fst snd close_session add_out add_sent stdout DeviceInfo_attrs fs].
  unfold refusal_out. repeat split. rewrite <- !app_assoc. reflexivity.
Qed.

Lemma get_device_info_error_status_witness :
  fst (get_device_info (SampleLogs.env SampleLogs.archive_down) Sample.self Sample.esn1 Sample.w0)
    = Exit 1%Z /\
  stdout (snd (get_device_info (SampleLogs.env SampleLogs.archive_down) Sample.self
                 Sample.esn1 Sample.w0))
    = [requesting_line Sample.esn1;
       Line "b'Internal Server Error'";
       Line "Unable to retrieve device info. Response: 500"].
Proof.
  destruct (get_device_info_error_status (SampleLogs.env SampleLogs.archive_down) Sample.self
              Sample.esn1 Sample.w0 SampleLogs.error_response eq_refl eq_refl)
    as (Hexit & Hout & _).
  split; [exact Hexit | rewrite Hout; reflexivity].
Defined.

(** X4. When the device-info request fails in transit, the exception is
    caught: the generic message is printed (the not-found one for an
    [IndexError]) and the call exits with status 1, with no attribute of the
    record set. *)
Theorem get_device_info_transit_failure (env : Env) (self : Self) (bridge_esn : string)
    (w : World) (e : exn) :
  net env (device_info_request self bridge_esn) = inl e ->
  fst (get_device_info env self bridge_esn w) = Exit 1%Z /\
  stdout (snd (get_device_info env self bridge_esn w))
    = (stdout w
       ++ [requesting_line bridge_esn;
           if is_IndexError e then Line "Invalid result. Check ESN."
           else LineExc ("Exception raised when attempting to connect to "
                         ++ device_info_url bridge_esn ++ Py.newline ++ "Exception: ") e])%list /\
  DeviceInfo_attrs (snd (get_device_info env self bridge_esn w)) = DeviceInfo_attrs w.
Proof.
  intros Hnet. rewrite get_device_info_unfold, Hnet. cbv zeta.
  cbn [fst snd close_session add_out add_sent stdout DeviceInfo_attrs].
  repeat split. rewrite <- !app_assoc. reflexivity.
Qed.

Lemma get_device_info_transit_failure_witness :
  fst (get_device_info (SampleLogs.env (fun _ => inl RequestException)) Sample.self
         Sample.esn1 Sample.w0) = Exit 1%Z.
Proof.
  apply (get_device_info_transit_failure (SampleLogs.env (fun _ => inl RequestException))
           Sample.self Sample.esn1 Sample.w0 RequestException eq_refl).
Defined.

Lemma quiet_ret {A} (x : A) : quiet (ret x).
Proof. intros w. now cbn. Qed.

Lemma quiet_lift {A} (r : exn + A) : quiet (lift r).
Proof. intros w. destruct r; now cbn. Qed.

Lemma quiet_setattr (name : string) (v : pyval) : quiet (setattr_DeviceInfo name v).
Proof. intros w. now cbn. Qed.

Lemma quiet_bind {A B} (m : M A) (k : A -> M B) :
  quiet m -> (forall x, quiet (k x)) -> quiet (bind m k).
Proof.
  intros Hm Hk w. unfold bind. specialize (Hm w).
  destruct (m w) as [[x|e|c] w1]; cbn [snd] in Hm |- *; [|exact Hm|exact Hm].
  destruct (Hk x w1) as (H1 & H2 & H3 & H4), Hm as (H1' & H2' & H3' & H4').
  repeat split; congruence.
Qed.

Lemma quiet_read_device_info (response : Response) : quiet (read_device_info response).
Proof.
  unfold read_device_info.
  repeat first [ apply quiet_ret | apply quiet_lift | apply quiet_setattr
               | apply quiet_bind; [|intros ?] | progress cbv zeta ].
Qed.

Lemma get_device_info_sent (env : Env) (self : Self) (bridge_esn : string)
    (w : World) :
  sent (snd (get_device_info env self bridge_esn w))
  = (sent w
     ++ [mk_Request true
           ("https://nexus.aus1hub1.eencloud.com/api/v2/EsnDetails/" ++ bridge_esn) []
           [("auth_key", auth_key self); ("vbsadmin_sessionid", auth_key self)]
           false None])%list.
Proof.
  rewrite get_device_info_unfold. cbv zeta.
  destruct (net env _) as [e|response]; [reflexivity|].
  destruct (negb (ok response)); [reflexivity|].
  match goal with |- context [read_device_info response ?w0] =>
    destruct (quiet_read_device_info response w0) as (Hsent & _);
    destruct (read_device_info response w0) as [[di|e|c] w1]
  end; cbn [snd] in Hsent |- *; cbn [close_session add_out sent]; rewrite Hsent; reflexivity.
Qed.

(** X5. However it ends, [get_device_info] issues exactly one request: a GET
    on the Session to the fixed resolver URL followed by the ESN, with the
    stored auth key as both cookies, and no query parameter. *)
Theorem get_device_info_one_request (env : Env) (self : Self) (bridge_esn : string)
    (w : World) :
  sent (snd (get_device_info env self bridge_esn w))
  = (sent w
     ++ [mk_Request true
           ("https://nexus.aus1hub1.eencloud.com/api/v2/EsnDetails/" ++ bridge_esn) []
           [("auth_key", auth_key self); ("vbsadmin_sessionid", auth_key self)]
           false None])%list.
Proof. apply get_device_info_sent. Qed.

(** ** [get_device_info]: what a resolution records *)

Lemma read_device_info_fields (response : Response) (w w' : World) (di : pyobj) :
  read_device_info response w = (Return di, w') ->
  exists json_response data json_result v_esn v_type v_name v_cluster v_ips d a_states,
    json response = inr json_response /\
    PyVal.subscript json_response (PStr "data") = inr data /\
    PyVal.subscript data (PInt 0) = inr json_result /\
    PyVal.subscript json_result (PStr "esn") = inr v_esn /\
    PyVal.subscript json_result (PStr "type") = inr v_type /\
    PyVal.subscript json_result (PStr "name") = inr v_name /\
    PyVal.subscript json_result (PStr "cluster") = inr v_cluster /\
    PyVal.subscript json_result (PStr "disks_ips") = inr v_ips /\
    PyVal.dict v_ips = inr d /\
    collect_states json_result (PyVal.dict_keys d) [] = inr a_states /\
    w' = resolved w v_esn v_type v_name v_cluster v_ips (PyVal.dict_keys d) a_states.
Proof.
  unfold read_device_info. intros H.
  lift_step_in H. lift_step_in H. lift_step_in H.
  lift_step_in H. rewrite bind_setattr in H.
  lift_step_in H. rewrite bind_setattr in H.
  lift_step_in H. rewrite bind_setattr in H.
  lift_step_in H. rewrite bind_setattr in H.
  lift_step_in H. rewrite bind_setattr in H.
  rewrite bind_lift in H; cbv beta iota in H. lift_step_in H.
  cbv zeta in H. rewrite bind_setattr in H.
  lift_step_in H. rewrite bind_setattr in H.
  unfold ret in H. apply (f_equal snd) in H. cbn [snd] in H. subst w'.
  rewrite collect_keys_dict_keys in *.
  do 10 eexists. repeat split; eassumption.
Qed.

Lemma get_device_info_Return (env : Env) (self : Self) (bridge_esn : string)
    (w w' : World) (di : pyobj) :
  get_device_info env self bridge_esn w = (Return di, w') ->
  exists response w0 w1,
    net env (device_info_request self bridge_esn) = inr response /\
    ok response = true /\
    read_device_info response w0 = (Return di, w1) /\
    w' = close_session w1.
Proof.
  rewrite get_device_info_unfold. cbv zeta.
  destruct (net env _) as [e|response]; [discriminate|].
  destruct (ok response) eqn:Hok; cbn [negb]; [|discriminate].
  match goal with |- context [read_device_info response ?w0] =>
    destruct (read_device_info response w0) as [[di'|e|c] w1] eqn:Hr
  end; try discriminate.
  intros H. exists response. do 2 eexists. split; [reflexivity|]. split; [exact Hok|].
  split; [|symmetry; exact (f_equal snd H)].
  rewrite Hr. f_equal. now destruct di, di'.
Qed.

(** X6. A successful [get_device_info] copies five members of the first
    element of [data] verbatim into the record: [esn], [type], [name],
    [cluster], and the member [disks_ips] under the attribute [disk_ips]. *)
Theorem get_device_info_copies_fields (env : Env) (self : Self) (bridge_esn : string)
    (w w' : World) (di : pyobj) :
  get_device_info env self bridge_esn w = (Return di, w') ->
  exists response json_response data json_result,
    net env (device_info_request self bridge_esn) = inr response /\
    json response = inr json_response /\
    PyVal.subscript json_response (PStr "data") = inr data /\
    PyVal.subscript data (PInt 0) = inr json_result /\
    forall attr member,
      In (attr, member) [("esn", "esn"); ("type", "type"); ("name", "name");
                         ("cluster", "cluster"); ("disk_ips", "disks_ips")] ->
      exists v, PyVal.subscript json_result (PStr member) = inr v /\
                getattr w' di attr = Some v.
Proof.
  intros H. apply get_device_info_Return in H as (response & w0 & w1 & Hnet & _ & Hr & ->).
  apply read_device_info_fields in Hr
    as (json_response & data & json_result & v_esn & v_type & v_name & v_cluster & v_ips
        & d & a_states & Hj & Hdata & H0 & Hesn & Htype & Hname & Hcl & Hips & _ & _ & ->).
  exists response, json_response, data, json_result. repeat (split; [assumption|]).
  intros attr member Hin. unfold resolved. cbn in Hin.
  destruct Hin as [[= <- <-]|[[= <- <-]|[[= <- <-]|[[= <- <-]|[[= <- <-]|[]]]]]];
    eexists; (split; [eassumption|]);
    rewrite getattr_close_session, !getattr_set_attr; reflexivity.
Qed.

Lemma get_device_info_copies_fields_witness :
  exists v,
    PyVal.subscript (Sample.device_json Sample.esn1) (PStr "data") = inr (PList [v]) /\
    getattr (snd (get_device_info Sample.env_resolver Sample.self Sample.esn1 Sample.w0))
      DeviceInfo_class "esn" = Some (PStr Sample.esn1).
Proof.
  destruct (get_device_info_copies_fields Sample.env_resolver Sample.self Sample.esn1
              Sample.w0
              (snd (get_device_info Sample.env_resolver Sample.self Sample.esn1 Sample.w0))
              DeviceInfo_class)
    as (response & json_response & data & json_result & Hnet & Hj & Hdata & H0 & Hcopy).
  - vm_compute. reflexivity.
  - destruct (Hcopy "esn" "esn" (or_introl eq_refl)) as (v & Hv & Hattr).
    injection Hnet as <-. injection Hj as <-.
    injection Hdata as <-. injection H0 as <-. injection Hv as <-.
    eexists. split; [reflexivity | exact Hattr].
Defined.

Section DictValues.
Import PyVal.

Lemma py_eq_hashable (a b : pyval) :
  py_eq a b = true -> hashable a = true /\ hashable b = true.
Proof. destruct a, b; cbv beta iota delta [py_eq as_int hashable]; auto; discriminate. Qed.

Lemma py_eq_as_int (a b : pyval) : py_eq a b = true -> as_int a = as_int b.
Proof.
  destruct a as [|[]| | | |], b as [|[]| | | |]; cbv beta iota delta [py_eq as_int];
    intros H; try discriminate; try reflexivity;
    rewrite ?Z.eqb_eq in H; congruence.
Qed.

Lemma py_eq_key (k a b : pyval) : py_eq a b = true -> py_eq k a = py_eq k b.
Proof.
  intros Hab. destruct (py_eq k a) eqn:Hka, (py_eq k b) eqn:Hkb; try reflexivity.
  - now rewrite (py_eq_trans _ _ _ Hka Hab) in Hkb.
  - rewrite py_eq_sym in Hab. now rewrite (py_eq_trans _ _ _ Hkb Hab) in Hka.
Qed.

Lemma dict_get_py_eq (kvs : list (pyval * pyval)) (a b : pyval) :
  py_eq a b = true -> dict_get kvs a = dict_get kvs b.
Proof.
  intros Hab. unfold dict_get. f_equal.
  induction kvs as [|[k v] kvs IH]; cbn [find fst]; [reflexivity|].
  now rewrite (py_eq_key k a b Hab), IH.
Qed.

(** Subscripting does not tell apart keys that Python holds equal. *)
Lemma subscript_py_eq (c a b : pyval) : py_eq a b = true -> subscript c a = subscript c b.
Proof.
  intros Hab. destruct (py_eq_hashable _ _ Hab) as [Ha Hb].
  unfold subscript. destruct c; try reflexivity.
  - now rewrite (py_eq_as_int _ _ Hab).
  - now rewrite (py_eq_as_int _ _ Hab).
  - now rewrite Ha, Hb, (dict_get_py_eq _ _ _ Hab).
Qed.

Lemma dict_get_dict_set (d : list (pyval * pyval)) (k v x : pyval) :
  dict_get (dict_set d k v) x = if py_eq k x then Some v else dict_get d x.
Proof.
  unfold dict_get.
  induction d as [|[k' v'] d IH]; cbn [dict_set find fst snd fmap option_fmap option_map].
  - now destruct (py_eq k x).
  - destruct (py_eq k' k) eqn:Hk'; cbn [find fst].
    + destruct (py_eq k x) eqn:Hkx.
      * now rewrite (py_eq_trans _ _ _ Hk' Hkx).
      * destruct (py_eq k' x) eqn:Hk'x; [|reflexivity].
        rewrite py_eq_sym in Hk'. now rewrite (py_eq_trans _ _ _ Hk' Hk'x) in Hkx.
    + destruct (py_eq k' x) eqn:Hk'x.
      * destruct (py_eq k x) eqn:Hkx; [|reflexivity].
        rewrite (py_eq_sym k x) in Hkx. now rewrite (py_eq_trans _ _ _ Hk'x Hkx) in Hk'.
      * exact IH.
Qed.

Lemma key_in_dict_get (d : list (pyval * pyval)) (x : pyval) :
  key_in x (dict_keys d) = true -> exists v, dict_get d x = Some v.
Proof.
  unfold dict_get.
  induction d as [|[k v] d IH]; cbn [dict_keys map fst]; [discriminate|].
  rewrite key_in_cons. cbn [find fst]. rewrite (py_eq_sym x k).
  destruct (py_eq k x); cbn [orb]; [intros _; now exists v | exact IH].
Qed.

Lemma state_of_py_eq (json_result a b : pyval) :
  py_eq a b = true -> state_of json_result a = state_of json_result b.
Proof.
  intros Hab. unfold state_of. destruct (subscript json_result _); [reflexivity|].
  now rewrite (subscript_py_eq _ _ _ Hab).
Qed.

Lemma collect_states_values (json_result : pyval) (a_list : list pyval) :
  forall acc a_states,
    collect_states json_result a_list acc = inr a_states ->
    (forall x v, dict_get acc x = Some v -> state_of json_result x = inr v) ->
    forall x v, dict_get a_states x = Some v -> state_of json_result x = inr v.
Proof.
  induction a_list as [|a rest IH]; intros acc a_states H Hacc; cbn [collect_states] in H.
  - injection H as <-. exact Hacc.
  - destruct (subscript json_result (PStr "states")) as [|states] eqn:Hs; [discriminate|].
    destruct (subscript states a) as [|entry] eqn:He; [discriminate|].
    destruct (subscript entry (PStr "state")) as [|st] eqn:Hst; [discriminate|].
    destruct (hashable a); [|discriminate].
    apply (IH _ _ H). intros x v. rewrite dict_get_dict_set.
    destruct (py_eq a x) eqn:Hax; [|apply Hacc].
    intros [= <-]. rewrite <- (state_of_py_eq json_result a x Hax).
    unfold state_of. now rewrite Hs, He.
Qed.

Lemma collect_states_hashable (json_result : pyval) (a_list : list pyval) :
  forall acc a_states,
    collect_states json_result a_list acc = inr a_states ->
    forall a, In a a_list -> hashable a = true.
Proof.
  induction a_list as [|a0 rest IH]; intros acc a_states H a Hin; [destruct Hin|].
  cbn [collect_states] in H.
  destruct (subscript json_result (PStr "states")) as [|states]; [discriminate|].
  destruct (subscript states a0) as [|entry]; [discriminate|].
  destruct (subscript entry (PStr "state")) as [|st]; [discriminate|].
  destruct (hashable a0) eqn:Hh; [|discriminate].
  destruct Hin as [<-|Hin]; [exact Hh | exact (IH _ _ H a Hin)].
Qed.

Lemma key_in_In (a : pyval) (l : list pyval) :
  hashable a = true -> In a l -> key_in a l = true.
Proof.
  intros Hh. induction l as [|k l IH]; [intros []|].
  intros [->|Hin]; rewrite key_in_cons.
  - now rewrite py_eq_refl.
  - rewrite (IH Hin). apply orb_true_r.
Qed.

End DictValues.

(** X7. After a successful [get_device_info], every archiver of the record
    has a state in [archiver_states], and it is the [state] member found
    under [states] for that archiver in the first element of [data]. *)
Theorem get_device_info_archiver_states (env : Env) (self : Self) (bridge_esn : string)
    (w w' : World) (di : pyobj) :
  get_device_info env self bridge_esn w = (Return di, w') ->
  exists response json_response data json_result a_list a_states,
    net env (device_info_request self bridge_esn) = inr response /\
    json response = inr json_response /\
    PyVal.subscript json_response (PStr "data") = inr data /\
    PyVal.subscript data (PInt 0) = inr json_result /\
    getattr w' di "archivers" = Some (PList a_list) /\
    getattr w' di "archiver_states" = Some (PDict a_states) /\
    forall a, In a a_list ->
      exists st, state_of json_result a = inr st /\
                 PyVal.dict_get a_states a = Some st.
Proof.
  intros H. apply get_device_info_Return in H as (response & w0 & w1 & Hnet & _ & Hr & ->).
  apply read_device_info_fields in Hr
    as (json_response & data & json_result & v_esn & v_type & v_name & v_cluster & v_ips
        & d & a_states & Hj & Hdata & H0 & _ & _ & _ & _ & _ & _ & Hs & ->).
  exists response, json_response, data, json_result, (PyVal.dict_keys d), a_states.
  repeat (split; [assumption|]). unfold resolved.
  rewrite !getattr_close_session, !getattr_set_attr.
  split; [reflexivity|]. split; [reflexivity|].
  intros a Hin.
  pose proof (collect_states_hashable _ _ _ _ Hs a Hin) as Hh.
  destruct (collect_states_keys _ _ _ _ Hs) as [Hkeys _].
  destruct (key_in_dict_get a_states a) as [st Hst].
  { rewrite Hkeys. rewrite (key_in_In a _ Hh Hin). apply orb_true_r. }
  exists st. split; [|exact Hst].
  apply (collect_states_values _ _ _ _ Hs); [discriminate | exact Hst].
Qed.

Lemma get_device_info_archiver_states_witness :
  exists a_states,
    getattr (snd (get_device_info Sample.env_resolver Sample.self Sample.esn1 Sample.w0))
      DeviceInfo_class "archiver_states" = Some (PDict a_states) /\
    PyVal.dict_get a_states (PStr "a2093") = Some (PStr "IDLE").
Proof.
  destruct (get_device_info_archiver_states Sample.env_resolver Sample.self Sample.esn1
              Sample.w0
              (snd (get_device_info Sample.env_resolver Sample.self Sample.esn1 Sample.w0))
              DeviceInfo_class)
    as (response & json_response & data & json_result & a_list & a_states
        & Hnet & Hj & Hdata & H0 & Hl & Hst & Hval).
  - vm_compute. reflexivity.
  - exists a_states. split; [exact Hst|].
    injection Hnet as <-. injection Hj as <-. injection Hdata as <-. injection H0 as <-.
    assert (Ha : a_list = [PStr "a1471"; PStr "a2093"]).
    { vm_compute in Hl. now injection Hl. }
    destruct (Hval (PStr "a2093")) as (st & Hchain & Hget).
    { rewrite Ha. cbn. auto. }
    vm_compute in Hchain. injection Hchain as <-. exact Hget.
Defined.

(** ** [pull_logs]: the index, and what stops the loop *)

Lemma seq_index_negative {A} (l : list A) (i : Z) :
  (- Z.of_nat (length l) <= i < 0)%Z ->
  PyVal.seq_index l i = PyVal.seq_index l (i + Z.of_nat (length l)) /\
  PyVal.seq_index l i = l !! Z.to_nat (Z.of_nat (length l) + i).
Proof.
  intros H. unfold PyVal.seq_index. cbv zeta.
  replace (0 <=? i)%Z with false by lia. cbn [andb].
  replace (- Z.of_nat (length l) <=? i)%Z with true by lia.
  replace (i <? 0)%Z with true by lia. cbn [andb].
  replace (0 <=? i + Z.of_nat (length l))%Z with true by lia.
  replace (i + Z.of_nat (length l) <? Z.of_nat (length l))%Z with true by lia.
  cbn [andb]. now rewrite (Z.add_comm i).
Qed.

Lemma for_each_ext {A} (l : list A) (f g : A -> M unit) :
  (forall x, f x = g x) -> for_each l f = for_each l g.
Proof.
  intros H. induction l as [|x l IH]; cbn [for_each]; [reflexivity|].
  now rewrite H, IH.
Qed.

Lemma pull_category_index (env : Env) (self : Self) (di : DeviceInfo) (a a' : Z)
    (archiver_name st et t : string) :
  PyVal.seq_index (archivers di) a = PyVal.seq_index (archivers di) a' ->
  pull_category env self di a archiver_name st et t
  = pull_category env self di a' archiver_name st et t.
Proof. intros H. unfold pull_category, list_item. now rewrite H. Qed.

(** X8. A negative archiver index down to minus the length of the list
    counts from the end: [pull_logs] with such an index does exactly what it
    does with that index plus the length, so -1 is the last archiver. *)
Theorem pull_logs_negative_index (env : Env) (self : Self) (di : DeviceInfo)
    (a : Z) (st et : datetime) (w : World) :
  (- Z.of_nat (length (archivers di)) <= a < 0)%Z ->
  pull_logs env self di a st et w
  = pull_logs env self di (a + Z.of_nat (length (archivers di))) st et w /\
  PyVal.seq_index (archivers di) a
  = archivers di !! Z.to_nat (Z.of_nat (length (archivers di)) + a).
Proof.
  intros Ha. destruct (seq_index_negative (archivers di) a Ha) as [Heq Hnth].
  split; [|exact Hnth].
  rewrite !pull_logs_unfold, <- Heq.
  destruct (PyVal.seq_index (archivers di) a) as [archiver_name|]; [|reflexivity].
  rewrite (for_each_ext categories _
             (pull_category env self di (a + Z.of_nat (length (archivers di)))
                archiver_name (convert_dt_to_een_time st) (convert_dt_to_een_time et)));
    [reflexivity|].
  intros t. apply pull_category_index.
  exact (proj1 (seq_index_negative (archivers di) a Ha)).
Qed.

Lemma pull_logs_negative_index_witness :
  pull_logs (SampleLogs.env SampleLogs.archive_down) Sample.self SampleLogs.di (-1)
    SampleLogs.st SampleLogs.et Sample.w0
  = pull_logs (SampleLogs.env SampleLogs.archive_down) Sample.self SampleLogs.di 1
      SampleLogs.st SampleLogs.et Sample.w0 /\
  PyVal.seq_index (archivers SampleLogs.di) (-1) = Some "a2093".
Proof.
  apply (pull_logs_negative_index (SampleLogs.env SampleLogs.archive_down) Sample.self
           SampleLogs.di (-1) SampleLogs.st SampleLogs.et Sample.w0).
  cbn. lia.
Defined.

Lemma for_each_app {A} (l1 l2 : list A) (body : A -> M unit) (w : World) :
  for_each (l1 ++ l2) body w
  = match for_each l1 body w with
    | (Return _, w1) => for_each l2 body w1
    | (Raise e, w1) => (Raise e, w1)
    | (Exit c, w1) => (Exit c, w1)
    end.
Proof.
  revert w. induction l1 as [|x l1 IH]; intros w; [reflexivity|].
  cbn [app for_each]. unfold bind.
  destruct (body x w) as [[[]|e|c] w1]; [apply IH | reflexivity | reflexivity].
Qed.

(** A category whose turn raises stops the loop there. *)
Lemma for_each_categories_abort (env : Env) (self : Self) (di : DeviceInfo) (a : Z)
    (archiver st et : string) (answer : string -> Response)
    (ts1 ts2 : list string) (t : string) (w : World) (e : exn) :
  PyVal.seq_index (archivers di) a = Some archiver ->
  (forall t', In t' ts1 -> In t' categories) ->
  (forall t', In t' ts1 ->
     net env (log_request self di archiver st et t') = inr (answer t')) ->
  (forall t', In t' ts1 -> status_code (answer t') = 200%Z ->
     can_open (fs w) (log_path_of di archiver t') = true) ->
  (forall w1, Os.cwd (fs w1) = Os.cwd (fs w) -> Os.dirs (fs w1) = Os.dirs (fs w) ->
     Os.files (fs w1)
       = files_after_all (Os.cwd (fs w)) di archiver answer ts1 (Os.files (fs w)) ->
     exists w2,
       pull_category env self di a archiver st et t w1 = (Raise e, w2) /\
       sent w2 = (sent w1 ++ [log_request self di archiver st et t])%list /\
       Os.files (fs w2) = Os.files (fs w1)) ->
  exists w',
    for_each (ts1 ++ t :: ts2) (pull_category env self di a archiver st et) w
    = (Raise e, w') /\
    sent w' = (sent w ++ map (log_request self di archiver st et) (ts1 ++ [t]))%list /\
    Os.files (fs w')
      = files_after_all (Os.cwd (fs w)) di archiver answer ts1 (Os.files (fs w)).
Proof.
  intros Hidx Hcat Hnet Hopen Hfail.
  destruct (for_each_categories env self di a archiver st et answer Hidx ts1 w
              Hcat Hnet Hopen)
    as (o & w1 & Hrun & Hsent & _ & _ & Hdirs & Hfiles & _ & Hcwd).
  destruct (Hfail w1 Hcwd Hdirs Hfiles) as (w2 & Hstep & Hsent2 & Hfiles2).
  exists w2. rewrite for_each_app, Hrun. cbn [for_each]. unfold bind. rewrite Hstep.
  split; [reflexivity|]. split.
  - rewrite Hsent2, Hsent, map_app, <- app_assoc. reflexivity.
  - now rewrite Hfiles2, Hfiles.
Qed.

(** X9. A request that fails in transit is not caught by [pull_logs]: the
    exception ends the run at that category.  The categories before it have
    been handled, its own request is the last one issued, and no later
    category is asked for. *)
Theorem pull_logs_transit_failure_aborts (env : Env) (self : Self) (di : DeviceInfo)
    (a : Z) (st et : datetime) (w : World) (archiver : string)
    (answer : string -> Response) (ts1 ts2 : list string) (t : string) (e : exn) :
  PyVal.seq_index (archivers di) a = Some archiver ->
  categories = (ts1 ++ t :: ts2)%list ->
  (forall t', In t' ts1 ->
     net env (log_request self di archiver (convert_dt_to_een_time st)
                (convert_dt_to_een_time et) t') = inr (answer t')) ->
  (forall t', In t' ts1 -> status_code (answer t') = 200%Z ->
     can_open (fs (snd (create_dirs (script_dir env) (esn di) w)))
       (log_path_of di archiver t') = true) ->
  net env (log_request self di archiver (convert_dt_to_een_time st)
             (convert_dt_to_een_time et) t) = inl e ->
  fst (pull_logs env self di a st et w) = Raise e /\
  sent (snd (pull_logs env self di a st et w))
    = (sent w ++ map (log_request self di archiver (convert_dt_to_een_time st)
                        (convert_dt_to_een_time et)) (ts1 ++ [t]))%list /\
  Os.files (fs (snd (pull_logs env self di a st et w)))
    = files_after_all (Os.cwd (fs w)) di archiver answer ts1 (Os.files (fs w)).
Proof.
  intros Hidx Hcat Hnet Hopen Hfail.
  destruct (create_dirs_returns (script_dir env) (esn di) w) as (_ & Hs & Hf & _ & Hc).
  assert (Hin : forall t', In t' ts1 -> In t' categories)
    by (intros t' Ht'; rewrite Hcat; apply in_or_app; now left).
  rewrite pull_logs_unfold, Hidx, Hcat.
  destruct (for_each_categories_abort env self di a archiver
              (convert_dt_to_een_time st) (convert_dt_to_een_time et) answer
              ts1 ts2 t (snd (create_dirs (script_dir env) (esn di) w)) e
              Hidx Hin Hnet Hopen) as (w' & Hrun & Hsent & Hfiles).
  { intros w1 _ _ _. eexists. split; [|split].
    - unfold pull_category, list_item. rewrite Hidx, bind_ret.
      unfold print. rewrite bind_emit. unfold http_get. unfold bind at 1.
      cbn [fs stdout sent DeviceInfo_attrs session_closed]. rewrite Hfail. reflexivity.
    - reflexivity.
    - reflexivity. }
  rewrite Hrun. cbn [fst snd]. rewrite Hsent, Hfiles, Hs, Hf, Hc. auto.
Qed.

Lemma pull_logs_transit_failure_aborts_witness :
  fst (pull_logs (SampleLogs.env SampleLogs.archive_stream_lost) Sample.self SampleLogs.di 0
         SampleLogs.st SampleLogs.et Sample.w0) = Raise RequestException /\
  map SampleLogs.category_of
      (sent (snd (pull_logs (SampleLogs.env SampleLogs.archive_stream_lost) Sample.self
                    SampleLogs.di 0 SampleLogs.st SampleLogs.et Sample.w0)))
    = ["bridge"; "stream"].
Proof.
  destruct (pull_logs_transit_failure_aborts
              (SampleLogs.env SampleLogs.archive_stream_lost) Sample.self SampleLogs.di 0
              SampleLogs.st SampleLogs.et Sample.w0 "a1471" SampleLogs.answers
              ["bridge"] ["analog"; "preview"] "stream" RequestException)
    as (Hr & Hsent & _).
  - reflexivity.
  - reflexivity.
  - intros t' [<-|[]]. reflexivity.
  - intros t' [<-|[]] _. vm_compute. reflexivity.
  - reflexivity.
  - split; [exact Hr | rewrite Hsent; reflexivity].
Defined.

(** X10. When the log file of a category answered with 200 cannot be opened
    (no [bridge_logs] directory in the working directory, say), the
    exception of [open] ends the run at that category: its request has been
    issued and answered, nothing is written for it, and no later category is
    asked for. *)
Theorem pull_logs_open_failure_aborts (env : Env) (self : Self) (di : DeviceInfo)
    (a : Z) (st et : datetime) (w : World) (archiver : string)
    (answer : string -> Response) (ts1 ts2 : list string) (t : string) :
  PyVal.seq_index (archivers di) a = Some archiver ->
  categories = (ts1 ++ t :: ts2)%list ->
  (forall t', In t' (ts1 ++ [t]) ->
     net env (log_request self di archiver (convert_dt_to_een_time st)
                (convert_dt_to_een_time et) t') = inr (answer t')) ->
  (forall t', In t' ts1 -> status_code (answer t') = 200%Z ->
     can_open (fs (snd (create_dirs (script_dir env) (esn di) w)))
       (log_path_of di archiver t') = true) ->
  status_code (answer t) = 200%Z ->
  can_open (fs (snd (create_dirs (script_dir env) (esn di) w)))
    (log_path_of di archiver t) = false ->
  exists e,
    Os.open_w (fs (snd (create_dirs (script_dir env) (esn di) w)))
      (log_path_of di archiver t) = inl e /\
    fst (pull_logs env self di a st et w) = Raise e /\
    sent (snd (pull_logs env self di a st et w))
      = (sent w ++ map (log_request self di archiver (convert_dt_to_een_time st)
                          (convert_dt_to_een_time et)) (ts1 ++ [t]))%list /\
    Os.files (fs (snd (pull_logs env self di a st et w)))
      = files_after_all (Os.cwd (fs w)) di archiver answer ts1 (Os.files (fs w)).
Proof.
  intros Hidx Hcat Hnet Hopen H200 Hcannot.
  destruct (create_dirs_returns (script_dir env) (esn di) w) as (_ & Hs & Hf & _ & Hc).
  assert (Hin1 : forall t', In t' ts1 -> In t' categories)
    by (intros t' Ht'; rewrite Hcat; apply in_or_app; now left).
  assert (Hint : In t categories)
    by (rewrite Hcat; apply in_or_app; right; now left).
  set (w0 := snd (create_dirs (script_dir env) (esn di) w)) in *.
  unfold can_open in Hcannot.
  destruct (Os.open_w (fs w0) (log_path_of di archiver t)) as [e|] eqn:Ho; [|discriminate].
  exists e. split; [reflexivity|].
  rewrite pull_logs_unfold, Hidx, Hcat. fold w0.
  destruct (for_each_categories_abort env self di a archiver
              (convert_dt_to_een_time st) (convert_dt_to_een_time et) answer
              ts1 ts2 t w0 e Hidx Hin1) as (w' & Hrun & Hsent & Hfiles).
  { intros t' Ht'. apply Hnet. apply in_or_app. now left. }
  { exact Hopen. }
  { intros w1 Hcwd Hdirs Hfiles1.
    assert (Ho1 : Os.open_w (fs w1) (log_path_of di archiver t) = inl e).
    { pose proof (open_w_ext (fs w1) (fs w0) (log_path_of di archiver t) Hcwd Hdirs
                    (log_path_plain di archiver t Hint)) as Hext.
      rewrite Ho in Hext.
      destruct (Os.open_w (fs w1) (log_path_of di archiver t)) as [e1|fs1].
      - f_equal. apply Hext. intros q Hq. unfold Os.is_file. rewrite Hfiles1.
        rewrite files_after_all_other; [reflexivity|].
        intros t' Ht' _ ->. revert Hq. apply log_path_not_above; [now apply Hin1 | exact Hint].
      - exfalso. apply Hext. intros q Hq. unfold Os.is_file. rewrite Hfiles1.
        rewrite files_after_all_other; [reflexivity|].
        intros t' Ht' _ ->. revert Hq.
        apply log_path_not_above; [now apply Hin1 | exact Hint]. }
    eexists. split; [|split].
    - unfold pull_category, list_item. rewrite Hidx, bind_ret.
      unfold print. rewrite bind_emit. unfold http_get. unfold bind at 1.
      cbn [fs stdout sent DeviceInfo_attrs session_closed].
      rewrite (Hnet t) by (apply in_or_app; right; now left).
      rewrite (proj2 (Z.eqb_eq _ _) H200).
      rewrite bind_assoc. unfold open_w, with_fs. unfold bind at 1.
      cbn [fs stdout sent DeviceInfo_attrs session_closed]. rewrite Ho1. reflexivity.
    - reflexivity.
    - reflexivity. }
  rewrite Hrun. cbn [fst snd]. rewrite Hsent, Hfiles, Hs, Hf, Hc. auto.
Qed.

Lemma pull_logs_open_failure_aborts_witness :
  fst (pull_logs (SampleLogs.env SampleLogs.archive_abc) Sample.self SampleLogs.di 0
         SampleLogs.st SampleLogs.et SampleLogs.w_elsewhere) = Raise FileNotFoundError /\
  map SampleLogs.category_of
      (sent (snd (pull_logs (SampleLogs.env SampleLogs.archive_abc) Sample.self
                    SampleLogs.di 0 SampleLogs.st SampleLogs.et SampleLogs.w_elsewhere)))
    = ["bridge"].
Proof.
  destruct (pull_logs_open_failure_aborts
              (SampleLogs.env SampleLogs.archive_abc) Sample.self SampleLogs.di 0
              SampleLogs.st SampleLogs.et SampleLogs.w_elsewhere "a1471"
              (fun _ => SampleLogs.lines_response ["abc"])
              [] ["stream"; "analog"; "preview"] "bridge")
    as (e & Ho & Hr & Hsent & _).
  - reflexivity.
  - reflexivity.
  - intros t' _. reflexivity.
  - intros t' [].
  - reflexivity.
  - vm_compute. reflexivity.
  - vm_compute in Ho. injection Ho as <-.
    split; [exact Hr | rewrite Hsent; reflexivity].
Defined.

(** ** [pull_logs]: what it leaves alone *)

Lemma writes_only_ret {A} (cwd : Os.fspath) (paths : list Os.fspath) (a : A) :
  writes_only cwd paths (ret a).
Proof. intros w Hw. cbn. auto. Qed.

Lemma writes_only_raise {A} (cwd : Os.fspath) (paths : list Os.fspath) (e : exn) :
  writes_only cwd paths (@raise A e).
Proof. intros w Hw. cbn. auto. Qed.

Lemma writes_only_emit (cwd : Os.fspath) (paths : list Os.fspath) (o : out) :
  writes_only cwd paths (emit o).
Proof. intros w Hw. cbn. auto. Qed.

Lemma writes_only_list_item {A} (cwd : Os.fspath) (paths : list Os.fspath)
    (l : list A) (i : Z) :
  writes_only cwd paths (list_item l i).
Proof.
  unfold list_item. destruct (PyVal.seq_index l i);
    [apply writes_only_ret | apply writes_only_raise].
Qed.

Lemma writes_only_http_get (cwd : Os.fspath) (paths : list Os.fspath)
    (net : Net) (rq : Request) :
  writes_only cwd paths (http_get net rq).
Proof. intros w Hw. unfold http_get. destruct (net rq); cbn; auto. Qed.

Lemma writes_only_open_w (cwd : Os.fspath) (paths : list Os.fspath) (p : string) :
  In (Os.resolve cwd p) paths -> writes_only cwd paths (open_w p).
Proof.
  intros Hin w Hw. unfold open_w, with_fs.
  destruct (Os.open_w (fs w) p) as [e|fs1] eqn:Ho; cbn [snd fs DeviceInfo_attrs]; [auto|].
  rewrite (open_w_success _ _ _ Ho). cbn [Os.cwd Os.dirs Os.files].
  repeat split; [exact Hw|]. intros k Hk. apply lookup_insert_ne.
  rewrite Hw. intros <-. now apply Hk.
Qed.

Lemma writes_only_f_write (cwd : Os.fspath) (paths : list Os.fspath) (p s : string) :
  In (Os.resolve cwd p) paths -> writes_only cwd paths (f_write p s).
Proof.
  intros Hin w Hw. unfold f_write, with_fs, Os.write. cbn.
  repeat split; [exact Hw|]. intros k Hk. apply lookup_insert_ne.
  rewrite Hw. intros <-. now apply Hk.
Qed.

Lemma writes_only_bind {A B} (cwd : Os.fspath) (paths : list Os.fspath)
    (m : M A) (k : A -> M B) :
  writes_only cwd paths m -> (forall a, writes_only cwd paths (k a)) ->
  writes_only cwd paths (bind m k).
Proof.
  intros Hm Hk w Hw. unfold bind. specialize (Hm w Hw).
  destruct (m w) as [[a|e|c] w1]; cbn [snd] in Hm |- *; [|exact Hm|exact Hm].
  destruct Hm as (Hc1 & Hd1 & Ha1 & Hf1).
  destruct (Hk a w1 Hc1) as (Hc & Hd & Ha & Hf).
  repeat split; [exact Hc | congruence | congruence |].
  intros x Hx. now rewrite Hf, Hf1.
Qed.

Lemma writes_only_mono {A} (cwd : Os.fspath) (paths paths' : list Os.fspath) (m : M A) :
  (forall k, In k paths -> In k paths') ->
  writes_only cwd paths m -> writes_only cwd paths' m.
Proof.
  intros Hsub Hm w Hw. destruct (Hm w Hw) as (Hc & Hd & Ha & Hf). repeat split; auto.
Qed.

Lemma writes_only_write_lines (cwd : Os.fspath) (paths : list Os.fspath)
    (log_path : string) (lines : list Py.bytes) :
  In (Os.resolve cwd log_path) paths ->
  forall count queue, writes_only cwd paths (write_lines log_path lines count queue).
Proof.
  intros Hin. induction lines as [|line rest IH]; intros count queue.
  - apply writes_only_ret.
  - cbn [write_lines]. apply writes_only_bind; [now apply writes_only_f_write|].
    intros _. apply writes_only_bind.
    + destruct (count mod 10 =? 0)%Z; [|apply writes_only_ret].
      destruct queue as [|p_char q]; [apply writes_only_raise|].
      apply writes_only_bind; [apply writes_only_emit|]. intros _.
      apply writes_only_bind; [apply writes_only_emit|]. intros _.
      apply writes_only_ret.
    + intros queue'. apply IH.
Qed.

Lemma writes_only_pull_category (cwd : Os.fspath) (env : Env) (self : Self)
    (di : DeviceInfo) (a : Z) (archiver_name st et t : string) :
  writes_only cwd [Os.resolve cwd (log_path_of di archiver_name t)]
    (pull_category env self di a archiver_name st et t).
Proof.
  unfold pull_category.
  apply writes_only_bind; [apply writes_only_list_item|]. intros archiver.
  apply writes_only_bind; [apply writes_only_emit|]. intros _.
  apply writes_only_bind; [apply writes_only_http_get|]. intros log_response.
  apply writes_only_bind; [|intros _; apply writes_only_emit].
  destruct (status_code log_response =? 200)%Z; [|apply writes_only_emit].
  cbv zeta.
  apply writes_only_bind; [apply writes_only_open_w; now left|]. intros _.
  apply writes_only_bind; [apply writes_only_emit|]. intros _.
  apply writes_only_bind; [apply writes_only_write_lines; now left|]. intros count.
  apply writes_only_bind; [apply writes_only_emit|]. intros _.
  apply writes_only_emit.
Qed.

Lemma writes_only_for_each {A} (cwd : Os.fspath) (path_of : A -> Os.fspath) (l : list A)
    (body : A -> M unit) :
  (forall x, writes_only cwd [path_of x] (body x)) ->
  writes_only cwd (map path_of l) (for_each l body).
Proof.
  intros Hbody. induction l as [|x l IH]; cbn [for_each map].
  - apply writes_only_ret.
  - apply writes_only_bind.
    + apply (writes_only_mono cwd [path_of x]); [|apply Hbody].
      intros k [<-|[]]. now left.
    + intros _. apply (writes_only_mono cwd (map path_of l)); [|exact IH].
      intros k Hk. now right.
Qed.

(** X11. Whatever the remote side answers and however the run ends,
    [pull_logs] creates or changes no file other than the four log files of
    the chosen archiver, makes no directory other than [bridge_logs] beside
    the script, and leaves the recorded device untouched. *)
Theorem pull_logs_touches_only_log_files (env : Env) (self : Self) (di : DeviceInfo)
    (a : Z) (st et : datetime) (w : World) (p : string) :
  (forall archiver t, PyVal.seq_index (archivers di) a = Some archiver ->
     In t categories ->
     Os.resolve (Os.cwd (fs w)) p
     <> Os.resolve (Os.cwd (fs w)) (log_path_of di archiver t)) ->
  Os.read (fs (snd (pull_logs env self di a st et w))) p = Os.read (fs w) p /\
  Os.dirs (fs (snd (pull_logs env self di a st et w)))
    ⊆ {[ Os.resolve (Os.cwd (fs w)) (bridge_logs_root_dir (script_dir env)) ]}
      ∪ Os.dirs (fs w) /\
  DeviceInfo_attrs (snd (pull_logs env self di a st et w)) = DeviceInfo_attrs w.
Proof.
  intros Hp.
  pose proof (create_dirs_dirs (script_dir env) (esn di) w) as Hd0.
  destruct (create_dirs_returns (script_dir env) (esn di) w) as (_ & _ & Hf0 & _ & Hc0).
  assert (Ha0 : DeviceInfo_attrs (snd (create_dirs (script_dir env) (esn di) w))
                = DeviceInfo_attrs w).
  { rewrite create_dirs_cases. destruct (Os.path_exists _ _); [reflexivity|].
    destruct (Os.mkdir _ _); reflexivity. }
  rewrite pull_logs_unfold. unfold Os.read.
  destruct (PyVal.seq_index (archivers di) a) as [archiver|] eqn:Hidx.
  - destruct (writes_only_for_each (Os.cwd (fs w))
                (fun t => Os.resolve (Os.cwd (fs w)) (log_path_of di archiver t)) categories
                (pull_category env self di a archiver
                   (convert_dt_to_een_time st) (convert_dt_to_een_time et))
                (fun t => writes_only_pull_category (Os.cwd (fs w)) env self di a archiver _ _ t)
                (snd (create_dirs (script_dir env) (esn di) w)) Hc0)
      as (Hc & Hd & Ha & Hf).
    split; [|split].
    + rewrite Hc, Hf, Hf0; [reflexivity|].
      intros Hin. apply in_map_iff in Hin. destruct Hin as (t & Ht & Hin).
      now apply (Hp archiver t eq_refl Hin).
    + rewrite Hd. exact Hd0.
    + now rewrite Ha.
  - cbn [snd]. rewrite Hf0, Hc0. auto.
Qed.

Lemma pull_logs_touches_only_log_files_witness :
  Os.read (fs (snd (pull_logs (SampleLogs.env SampleLogs.archive_abc) Sample.self
                      SampleLogs.di 0 SampleLogs.st SampleLogs.et SampleLogs.w_notes)))
    "bridge_logs/notes.txt" = Some "keep".
Proof.
  destruct (pull_logs_touches_only_log_files
              (SampleLogs.env SampleLogs.archive_abc) Sample.self SampleLogs.di 0
              SampleLogs.st SampleLogs.et SampleLogs.w_notes "bridge_logs/notes.txt")
    as (Hread & _).
  - intros archiver t Hidx Ht. injection Hidx as <-.
    cbn in Ht. decompose [or] Ht; subst; try contradiction; vm_compute; discriminate.
  - rewrite Hread. vm_compute. reflexivity.
Defined.

(** ** The log file, line by line *)

Lemma lacks_app (c : ascii) (s t : string) :
  lacks c (s ++ t) = lacks c s && lacks c t.
Proof.
  induction s as [|x s IH]; [reflexivity|].
  rewrite str_app_cons. cbn [lacks]. now rewrite IH, andb_assoc.
Qed.

Lemma repr_byte_one_line (double : bool) (b : byte) :
  lacks (Py.chr 10) (Py.repr_byte (if double then Py.dquote else Py.squote) b) = true.
Proof. destruct double; destruct b; vm_compute; reflexivity. Qed.

Lemma repr_body_one_line (double : bool) (bs : Py.bytes) :
  lacks (Py.chr 10)
    (fold_right (fun b acc => Py.repr_byte (if double then Py.dquote else Py.squote) b ++ acc)
       (String (if double then Py.dquote else Py.squote) "") bs) = true.
Proof.
  induction bs as [|b bs IH]; cbn [fold_right].
  - now destruct double.
  - now rewrite lacks_app, repr_byte_one_line, IH.
Qed.

Lemma str_bytes_one_line (bs : Py.bytes) : lacks (Py.chr 10) (Py.str_bytes bs) = true.
Proof.
  unfold Py.str_bytes, Py.repr_bytes. cbv zeta.
  generalize (Py.has_byte Py.squote bs && negb (Py.has_byte Py.dquote bs)).
  intros double.
  pose proof (repr_body_one_line double bs) as H.
  cbn [lacks]. rewrite H. now destruct double.
Qed.

Lemma split_on_line (sep : ascii) (s rest : string) :
  lacks sep s = true ->
  Os.split_on sep (s ++ String sep rest) = s :: Os.split_on sep rest.
Proof.
  induction s as [|c s IH]; intros H.
  - rewrite str_app_nil_l. cbn [Os.split_on]. now rewrite Ascii.eqb_refl.
  - rewrite str_app_cons. cbn [lacks] in H. apply andb_prop in H as [Hc Hs].
    cbn [Os.split_on]. rewrite (IH Hs).
    destruct (Ascii.eqb c sep); [discriminate | reflexivity].
Qed.

Lemma text_lines_log_text (lines : list Py.bytes) :
  text_lines (log_text lines) = (map Py.str_bytes lines ++ [""])%list.
Proof.
  unfold text_lines. induction lines as [|line rest IH]; [reflexivity|].
  cbn [log_text map app]. unfold Py.newline. rewrite str_app_assoc, str_app_cons, str_app_nil_l.
  rewrite split_on_line by apply str_bytes_one_line. now rewrite IH.
Qed.

(** X12. The loop that writes a log file puts every received line on a line
    of its own, whatever bytes it holds: read back and split at the
    newlines, the file gives [str(line)] for each received line in order
    (and the empty rest after the last newline), so the count the loop
    returns, which [pull_logs] prints, is the number of lines of the file. *)
Theorem write_lines_one_line_each (log_path : string) (lines : list Py.bytes) (w : World) :
  Os.read (fs w) log_path = Some "" ->
  exists text,
    Os.read (fs (snd (write_lines log_path lines 0 output_busy_queue w))) log_path
      = Some text /\
    text_lines text = (map Py.str_bytes lines ++ [""])%list /\
    fst (write_lines log_path lines 0 output_busy_queue w)
      = Return (Z.of_nat (length (map Py.str_bytes lines))).
Proof.
  intros Hopen.
  destruct (write_lines_spec log_path lines 0 output_busy_queue w) as [o Ho];
    [discriminate|].
  rewrite Ho. cbn [fst snd fs]. exists (log_text lines).
  unfold Os.read in *. rewrite write_all_cwd.
  rewrite (write_all_files log_path lines (fs w) "" Hopen).
  rewrite lookup_insert_eq, str_app_nil_l, length_map, Z.add_0_l.
  split; [reflexivity|]. split; [apply text_lines_log_text | reflexivity].
Qed.

Lemma write_lines_one_line_each_witness :
  exists text,
    Os.read (fs (snd (write_lines "bridge.log" [Py.b_ "it's"; [x0a; x5c]%byte] 0
                        output_busy_queue SampleLogs.w_opened))) "bridge.log" = Some text /\
    List.length (text_lines text) = 3.
Proof.
  destruct (write_lines_one_line_each "bridge.log" [Py.b_ "it's"; [x0a; x5c]%byte]
              SampleLogs.w_opened) as (text & Hread & Hlines & _).
  - vm_compute. reflexivity.
  - exists text. split; [exact Hread|]. rewrite Hlines. reflexivity.
Defined.

(** ** The timestamp encoding keeps the millisecond *)

Lemma str_app_inj (s1 s2 t1 t2 : string) :
  String.length s1 = String.length s2 -> s1 ++ t1 = s2 ++ t2 -> s1 = s2 /\ t1 = t2.
Proof.
  revert s2. induction s1 as [|c s1 IH]; intros [|d s2] Hlen H; try discriminate.
  - now rewrite !str_app_nil_l in H.
  - rewrite !str_app_cons in H. injection H as -> H. injection Hlen as Hlen.
    destruct (IH s2 Hlen H) as [-> ->]. auto.
Qed.

Lemma pretty_N_char_inj (x y : N) :
  (x < 10)%N -> (y < 10)%N -> pretty_N_char x = pretty_N_char y -> x = y.
Proof.
  intros Hx Hy.
  assert (Ex : (x = 0 \/ x = 1 \/ x = 2 \/ x = 3 \/ x = 4 \/ x = 5 \/ x = 6 \/ x = 7
                \/ x = 8 \/ x = 9)%N) by lia.
  assert (Ey : (y = 0 \/ y = 1 \/ y = 2 \/ y = 3 \/ y = 4 \/ y = 5 \/ y = 6 \/ y = 7
                \/ y = 8 \/ y = 9)%N) by lia.
  decompose [or] Ex; decompose [or] Ey; subst; cbn; intros H;
    first [reflexivity | discriminate H].
Qed.

Lemma digits_inj (w : nat) (n m : N) :
  (n < 10 ^ N.of_nat w)%N -> (m < 10 ^ N.of_nat w)%N ->
  digits w n = digits w m -> n = m.
Proof.
  revert n m. induction w as [|w IH]; intros n m Hn Hm H.
  - cbn in Hn, Hm. lia.
  - cbn [digits] in H.
    apply str_app_inj in H; [|now rewrite !digits_length].
    destruct H as [Hhi Hlo]. injection Hlo as Hlo.
    replace (N.of_nat (S w)) with (N.succ (N.of_nat w)) in Hn, Hm by lia.
    rewrite N.pow_succ_r' in Hn, Hm.
    apply IH in Hhi; [| apply N.Div0.div_lt_upper_bound; lia
                      | apply N.Div0.div_lt_upper_bound; lia].
    apply pretty_N_char_inj in Hlo; [| apply N.mod_lt; lia | apply N.mod_lt; lia].
    rewrite (N.div_mod' n 10), (N.div_mod' m 10). now rewrite Hhi, Hlo.
Qed.

(** X13. Two valid datetimes of the year 1000 or later get the same
    encoding exactly when they agree in year, month, day, hour, minute,
    second and millisecond: for a year of four digits the slice to 18
    characters drops the three sub-millisecond digits and nothing else. *)
Theorem convert_dt_to_een_time_same_millisecond (dt1 dt2 : datetime) :
  valid_datetime dt1 -> valid_datetime dt2 ->
  (1000 <= year dt1)%N -> (1000 <= year dt2)%N ->
  (convert_dt_to_een_time dt1 = convert_dt_to_een_time dt2 <->
   year dt1 = year dt2 /\ month dt1 = month dt2 /\ day dt1 = day dt2 /\
   hour dt1 = hour dt2 /\ minute dt1 = minute dt2 /\ second dt1 = second dt2 /\
   (microsecond dt1 / 1000 = microsecond dt2 / 1000)%N).
Proof.
  intros Hv1 Hv2 Hy1000 Hy2000.
  rewrite (een_time_digits dt1 Hv1 Hy1000), (een_time_digits dt2 Hv2 Hy2000).
  pose proof (valid_datetime_day dt1 Hv1) as Hd1.
  pose proof (valid_datetime_day dt2 Hv2) as Hd2.
  destruct Hv1 as (Hy1 & Hm1 & _ & Hh1 & Hmi1 & Hs1 & Hus1).
  destruct Hv2 as (Hy2 & Hm2 & _ & Hh2 & Hmi2 & Hs2 & Hus2).
  split.
  - intros H.
    apply str_app_inj in H as [Hy H]; [|now rewrite !digits_length].
    apply str_app_inj in H as [Hm H]; [|now rewrite !digits_length].
    apply str_app_inj in H as [Hd H]; [|now rewrite !digits_length].
    apply str_app_inj in H as [Hh H]; [|now rewrite !digits_length].
    apply str_app_inj in H as [Hmi H]; [|now rewrite !digits_length].
    apply str_app_inj in H as [Hs H]; [|now rewrite !digits_length].
    apply str_app_inj in H as [_ Hms]; [|reflexivity].
    apply digits_inj in Hy; [|cbn; lia|cbn; lia].
    apply digits_inj in Hm; [|cbn; lia|cbn; lia].
    apply digits_inj in Hd; [|cbn; lia|cbn; lia].
    apply digits_inj in Hh; [|cbn; lia|cbn; lia].
    apply digits_inj in Hmi; [|cbn; lia|cbn; lia].
    apply digits_inj in Hs; [|cbn; lia|cbn; lia].
    apply digits_inj in Hms;
      [| cbn; apply N.Div0.div_lt_upper_bound; lia
       | cbn; apply N.Div0.div_lt_upper_bound; lia].
    auto 10.
  - intros (-> & -> & -> & -> & -> & -> & ->). reflexivity.
Qed.

Lemma convert_dt_to_een_time_same_millisecond_witness :
  convert_dt_to_een_time (mk_datetime 2024 3 5 14 30 0 123456)
  = convert_dt_to_een_time (mk_datetime 2024 3 5 14 30 0 123999).
Proof.
  apply (convert_dt_to_een_time_same_millisecond
           (mk_datetime 2024 3 5 14 30 0 123456) (mk_datetime 2024 3 5 14 30 0 123999)).
  - unfold valid_datetime; vm_compute; intuition discriminate.
  - unfold valid_datetime; vm_compute; intuition discriminate.
  - vm_compute. discriminate.
  - vm_compute. discriminate.
  - cbn. repeat split.
Defined.

(** ** Logging in *)

(** One pass of evaluation through the three methods: the state is
    normalised at every step. *)
Ltac login_run :=
  cbv beta iota zeta delta
    [Login.__init__ Login.authenticate Login.authorize Login.session_post
     Login.raise_for_status Login.call_getpass Login.Session Login.print
     Login.print_secs Login.set Login.get Login.lift Login.lift_raised Login.bind
     Login.ret Login.raise
     fst snd Login.self Login.stdout Login.posted Login.prompted Login.sessions_made
     Login.auth_base_url Login.auth_key Login.token Login.user_data Login.username
     Login.authent_url Login.author_url Login.base_url Login.session
     Login.with_auth_base_url Login.with_auth_key Login.with_token Login.with_user_data
     Login.with_username Login.with_authent_url Login.with_author_url Login.with_base_url
     Login.with_session].

Lemma authenticate_url_eq :
  "https://login.eagleeyenetworks.com" ++ "/g/aaa/authenticate"
  = "https://login.eagleeyenetworks.com/g/aaa/authenticate".
Proof. reflexivity. Qed.

Lemma authorize_url_eq :
  "https://login.eagleeyenetworks.com" ++ "/g/aaa/authorize"
  = "https://login.eagleeyenetworks.com/g/aaa/authorize".
Proof. reflexivity. Qed.


Ltac login_hyps :=
  repeat match goal with
         | H : context [authenticate_post] |- _ =>
             unfold authenticate_post in H; rewrite <- authenticate_url_eq in H
         | H : context [authorize_post] |- _ =>
             unfold authorize_post in H; rewrite <- authorize_url_eq in H
         | H : context [password_prompt] |- _ => unfold password_prompt in H
         end.

Lemma init_run (o : Login.Outside) (username : string) (password : option string)
    (s : Login.State) (pw : string) (r1 r2 : Login.Reply) (j tok ud sub : pyval)
    (key : string) :
  password_used o username password = inr pw ->
  Login.remote o (authenticate_post (Login.sessions_made s) username pw) = inr r1 ->
  ok (Login.response r1) = true ->
  json (Login.response r1) = inr j ->
  PyVal.subscript j (PStr "token") = inr tok ->
  Login.remote o (authorize_post (Login.sessions_made s) tok) = inr r2 ->
  ok (Login.response r2) = true ->
  Login.cookies_getitem r2 "auth_key" = inr key ->
  json (Login.response r2) = inr ud ->
  PyVal.subscript ud (PStr "active_brand_subdomain") = inr sub ->
  Login.__init__ o username password s =
  (inr tt,
   Login.mk_State
     (Login.mk_Retriever
        [Login.Lit "https://"; Login.Val sub; Login.Lit ".eagleeyenetworks.com"]
        key "" ud username "/g/aaa/authenticate" "/g/aaa/authorize"
        "https://login.eagleeyenetworks.com" (Some (Login.sessions_made s)))
     (Login.stdout s ++
      [Login.Printed ("Attempting (simple) login: " ++ username ++ "...");
       Login.Printed ("Successful authentication - "
                      ++ Py.str_int (status_code (Login.response r1)));
       Login.PrintedSecs "Completed authentication process: ";
       Login.Printed ("Simple Auth w/ Token : "
                      ++ Py.str_int (status_code (Login.response r2)));
       Login.PrintedSecs "Complete authorization process: "])
     (Login.posted s ++ [authenticate_post (Login.sessions_made s) username pw;
                         authorize_post (Login.sessions_made s) tok])
     (Login.prompted s ++ prompts_of username password)
     (S (Login.sessions_made s))).
Proof.
  intros Hpw Hr1 Hok1 Hj1 Htok Hr2 Hok2 Hkey Hj2 Hsub.
  destruct s as [self0 out0 posted0 prompted0 n]. cbn [Login.sessions_made] in *.
  unfold authenticate_post, authorize_post.
  rewrite <- authenticate_url_eq, <- authorize_url_eq.
  login_hyps.
  destruct password as [p|]; cbn [password_used prompts_of] in Hpw |- *.
  - injection Hpw as ->. login_run. rewrite Hr1. login_run. rewrite Hok1. login_run.
    rewrite Hj1. login_run. rewrite Htok. login_run. rewrite Hr2. login_run.
    rewrite Hok2. login_run. rewrite Hkey. login_run. rewrite Hj2. login_run.
    rewrite Hsub. login_run. rewrite <- !app_assoc, app_nil_r. reflexivity.
  - login_hyps. login_run. rewrite Hpw. login_run. rewrite Hr1. login_run.
    rewrite Hok1. login_run.
    rewrite Hj1. login_run. rewrite Htok. login_run. rewrite Hr2. login_run.
    rewrite Hok2. login_run. rewrite Hkey. login_run. rewrite Hj2. login_run.
    rewrite Hsub. login_run. rewrite <- !app_assoc. reflexivity.
Qed.

(** X14. A login that goes well: the password given (or typed, when none is
    given) is sent with the user name as the query parameters of one POST to
    [/g/aaa/authenticate], the token of its answer is sent as the form body
    of one POST to [/g/aaa/authorize], both through the one new Session the
    retriever keeps; [auth_key] is the cookie of the second answer,
    [user_data] its document, [auth_base_url] is built from
    [active_brand_subdomain], and the attribute [token] stays empty. *)
Theorem login_success (o : Login.Outside) (username : string) (password : option string)
    (s : Login.State) (pw : string) (r1 r2 : Login.Reply) (j tok ud sub : pyval)
    (key : string) :
  password_used o username password = inr pw ->
  Login.remote o (authenticate_post (Login.sessions_made s) username pw) = inr r1 ->
  ok (Login.response r1) = true ->
  json (Login.response r1) = inr j ->
  PyVal.subscript j (PStr "token") = inr tok ->
  Login.remote o (authorize_post (Login.sessions_made s) tok) = inr r2 ->
  ok (Login.response r2) = true ->
  Login.cookies_getitem r2 "auth_key" = inr key ->
  json (Login.response r2) = inr ud ->
  PyVal.subscript ud (PStr "active_brand_subdomain") = inr sub ->
  Login.__init__ o username password s =
  (inr tt,
   Login.mk_State
     (Login.mk_Retriever
        [Login.Lit "https://"; Login.Val sub; Login.Lit ".eagleeyenetworks.com"]
        key "" ud username "/g/aaa/authenticate" "/g/aaa/authorize"
        "https://login.eagleeyenetworks.com" (Some (Login.sessions_made s)))
     (Login.stdout s ++
      [Login.Printed ("Attempting (simple) login: " ++ username ++ "...");
       Login.Printed ("Successful authentication - "
                      ++ Py.str_int (status_code (Login.response r1)));
       Login.PrintedSecs "Completed authentication process: ";
       Login.Printed ("Simple Auth w/ Token : "
                      ++ Py.str_int (status_code (Login.response r2)));
       Login.PrintedSecs "Complete authorization process: "])
     (Login.posted s ++ [authenticate_post (Login.sessions_made s) username pw;
                         authorize_post (Login.sessions_made s) tok])
     (Login.prompted s ++ prompts_of username password)
     (S (Login.sessions_made s))).
Proof. apply init_run. Qed.

Lemma login_success_witness :
  fst (Login.__init__ SampleLogin.outside "user@example.com" None Login.blank) = inr tt /\
  Self_of (Login.self (snd (Login.__init__ SampleLogin.outside "user@example.com" None
                              Login.blank)))
  = mk_Self "c000~0123abcd" /\
  Login.posted (snd (Login.__init__ SampleLogin.outside "user@example.com" None Login.blank))
  = [authenticate_post 0 "user@example.com" "hunter2"; authorize_post 0 (PStr "tok123")].
Proof.
  rewrite (login_success SampleLogin.outside "user@example.com" None Login.blank "hunter2"
             (SampleLogin.reply 200 (inr (PDict [(PStr "token", PStr "tok123")])) [])
             (SampleLogin.reply 200
                (inr (PDict [(PStr "active_brand_subdomain", PStr "c001")]))
                [("auth_key", "c000~0123abcd")])
             (PDict [(PStr "token", PStr "tok123")]) (PStr "tok123")
             (PDict [(PStr "active_brand_subdomain", PStr "c001")]) (PStr "c001")
             "c000~0123abcd");
    try reflexivity.
  repeat split.
Defined.

(** X15. When the credentials are refused (the first POST is answered with a
    4xx or 5xx status), [__init__] raises the [HTTPError] of that status:
    nothing is posted to [/g/aaa/authorize], the success line is not
    printed, and [auth_key] is still empty. *)
Theorem login_refused (o : Login.Outside) (username : string) (password : option string)
    (s : Login.State) (pw : string) (r1 : Login.Reply) :
  password_used o username password = inr pw ->
  Login.remote o (authenticate_post (Login.sessions_made s) username pw) = inr r1 ->
  ok (Login.response r1) = false ->
  Login.__init__ o username password s =
  (inl (Login.HTTPError (status_code (Login.response r1))),
   Login.mk_State (fresh_retriever username (Some (Login.sessions_made s)))
     (Login.stdout s ++ [Login.Printed ("Attempting (simple) login: " ++ username ++ "...")])
     (Login.posted s ++ [authenticate_post (Login.sessions_made s) username pw])
     (Login.prompted s ++ prompts_of username password)
     (S (Login.sessions_made s))).
Proof.
  intros Hpw Hr1 Hok1.
  destruct s as [self0 out0 posted0 prompted0 n]. cbn [Login.sessions_made] in *.
  unfold authenticate_post, fresh_retriever. rewrite <- authenticate_url_eq.
  login_hyps.
  destruct password as [p|]; cbn [password_used prompts_of] in Hpw |- *.
  - injection Hpw as ->. login_run. rewrite Hr1. login_run. rewrite Hok1. login_run.
    rewrite app_nil_r. reflexivity.
  - login_hyps. login_run. rewrite Hpw. login_run. rewrite Hr1. login_run.
    rewrite Hok1. login_run. reflexivity.
Qed.

Lemma login_refused_witness :
  fst (Login.__init__ (Login.mk_Outside SampleLogin.service_refusing (SampleLogin.typing "x"))
         "user@example.com" (Some "wrong") Login.blank)
  = inl (Login.HTTPError 401).
Proof.
  rewrite (login_refused (Login.mk_Outside SampleLogin.service_refusing (SampleLogin.typing "x"))
             "user@example.com" (Some "wrong") Login.blank "wrong"
             (SampleLogin.reply 401 (inl JSONDecodeError) []));
    reflexivity.
Defined.

(** X16. Whatever the outside does, [__init__] issues at most two POSTs,
    through the Session it has just made: none only when [getpass] fails,
    the one to [/g/aaa/authenticate] alone only when the login fails, and
    the one to [/g/aaa/authorize] only after the first was answered without
    error status with a document holding [token], which is what it
    carries. *)
Theorem login_posts (o : Login.Outside) (username : string) (password : option string)
    (s : Login.State) :
  exists extra,
    Login.posted (snd (Login.__init__ o username password s)) = (Login.posted s ++ extra)%list /\
    match extra with
    | [] =>
        exists e, password_used o username password = inl e /\
                  fst (Login.__init__ o username password s) = inl e
    | [p1] =>
        exists pw, password_used o username password = inr pw /\
                   p1 = authenticate_post (Login.sessions_made s) username pw /\
                   fst (Login.__init__ o username password s) <> inr tt
    | [p1; p2] =>
        exists pw r1 j tok,
          password_used o username password = inr pw /\
          p1 = authenticate_post (Login.sessions_made s) username pw /\
          Login.remote o p1 = inr r1 /\ ok (Login.response r1) = true /\
          json (Login.response r1) = inr j /\
          PyVal.subscript j (PStr "token") = inr tok /\
          p2 = authorize_post (Login.sessions_made s) tok
    | _ => False
    end.
Proof.
  destruct s as [self0 out0 posted0 prompted0 n]. cbn [Login.sessions_made].
  unfold authenticate_post, authorize_post.
  rewrite <- authenticate_url_eq, <- authorize_url_eq.
  destruct password as [p|]; cbn [password_used]; unfold password_prompt; login_run;
    repeat match goal with
           | |- context [match ?x with _ => _ end] =>
               lazymatch x with
               | context [match _ with _ => _ end] => fail
               | _ => destruct x eqn:?; login_run
               end
           end;
    first [ exists []; split; [symmetry; apply app_nil_r|]; eauto
          | eexists; split; [rewrite <- ?app_assoc; reflexivity|]; cbn [app];
            first [ eexists; split; [reflexivity || eassumption|];
                    split; [reflexivity | discriminate]
                  | do 4 eexists; split; [reflexivity || eassumption|];
                    split; [reflexivity|]; eauto 10 ] ].
Qed.

(** X17. [getpass] is called exactly when no password is given, with the
    prompt naming the user, however the login ends; a password that is
    given, the empty one included, makes the run independent of what
    [getpass] would return. *)
Theorem login_prompts_only_without_password (o : Login.Outside) (username : string)
    (password : option string) (s : Login.State) :
  Login.prompted (snd (Login.__init__ o username password s))
  = (Login.prompted s ++ prompts_of username password)%list /\
  forall (p : string) (typed : string -> Login.raised + string),
    Login.__init__ (Login.mk_Outside (Login.remote o) typed) username (Some p) s
    = Login.__init__ o username (Some p) s.
Proof.
  destruct s as [self0 out0 posted0 prompted0 n]. split.
  - destruct password as [p|]; cbn [prompts_of]; unfold password_prompt; login_run;
      repeat match goal with
             | |- context [match ?x with _ => _ end] =>
                 lazymatch x with
                 | context [match _ with _ => _ end] => fail
                 | _ => destruct x eqn:?; login_run
                 end
             end;
      rewrite ?app_nil_r; reflexivity.
  - intros p typed. login_run. cbn [Login.remote]. reflexivity.
Qed.

(** X18. [authorize] stores the cookie before it decodes the answer: when
    the answer of [/g/aaa/authorize] carries the cookie but has no decodable
    document, or no [active_brand_subdomain] in it, the call raises and the
    retriever is left with the new [auth_key] beside the old
    [auth_base_url]. *)
Theorem authorize_failure_keeps_new_key (o : Login.Outside)
    (payload : list (string * pyval)) (s : Login.State) (id : nat) (r : Login.Reply)
    (key : string) (e : exn) :
  Login.session (Login.self s) = Some id ->
  Login.remote o (Login.mk_Post id (Login.base_url (Login.self s)
                                    ++ Login.author_url (Login.self s)) [] payload 30)
    = inr r ->
  ok (Login.response r) = true ->
  Login.cookies_getitem r "auth_key" = inr key ->
  (json (Login.response r) = inl e \/
   exists ud, json (Login.response r) = inr ud /\
              PyVal.subscript ud (PStr "active_brand_subdomain") = inl e) ->
  fst (Login.authorize o payload s) = inl (Login.Thrown e) /\
  Login.auth_key (Login.self (snd (Login.authorize o payload s))) = key /\
  Login.auth_base_url (Login.self (snd (Login.authorize o payload s)))
    = Login.auth_base_url (Login.self s).
Proof.
  intros Hs Hr Hok Hkey Hfail.
  destruct s as [[abu ak tk ud0 un au1 au2 bu se] out0 posted0 prompted0 n].
  cbn [Login.self Login.session Login.base_url Login.author_url Login.auth_base_url] in *.
  subst se. login_run. rewrite Hr. login_run. rewrite Hok. login_run.
  rewrite Hkey. login_run.
  destruct Hfail as [Hj | (ud & Hj & Hsub)]; rewrite Hj; login_run.
  - auto.
  - rewrite Hsub. login_run. auto.
Qed.

Lemma authorize_failure_keeps_new_key_witness :
  fst (Login.authorize (Login.mk_Outside SampleLogin.service_bad_account
                          (SampleLogin.typing "x"))
         [("token", PStr "tok123")] SampleLogin.logged_in)
  = inl (Login.Thrown JSONDecodeError) /\
  Login.auth_key (Login.self (snd (Login.authorize
                                     (Login.mk_Outside SampleLogin.service_bad_account
                                        (SampleLogin.typing "x"))
                                     [("token", PStr "tok123")] SampleLogin.logged_in)))
  = "c000~0123abcd".
Proof.
  destruct (authorize_failure_keeps_new_key
              (Login.mk_Outside SampleLogin.service_bad_account (SampleLogin.typing "x"))
              [("token", PStr "tok123")] SampleLogin.logged_in 0
              (SampleLogin.reply 200 (inl JSONDecodeError) [("auth_key", "c000~0123abcd")])
              "c000~0123abcd" JSONDecodeError) as (Hr & Hk & _).
  - reflexivity.
  - reflexivity.
  - reflexivity.
  - reflexivity.
  - left. reflexivity.
  - split; [exact Hr | exact Hk].
Defined.

(** ** The dialogue of [__main__] *)

Lemma seq_index_nonneg {A} (l : list A) (i : Z) :
  (0 <= i < Z.of_nat (length l))%Z -> PyVal.seq_index l i = l !! Z.to_nat i.
Proof.
  intros H. unfold PyVal.seq_index. cbv zeta.
  replace (0 <=? i)%Z with true by lia.
  replace (i <? Z.of_nat (length l))%Z with true by lia. reflexivity.
Qed.

Lemma menu_lines_lookup (l : list string) :
  forall (i : Z) (k : nat) (x : string),
    l !! k = Some x ->
    In (Line ("    " ++ Py.str_int (i + Z.of_nat k) ++ " : " ++ x)) (Main.menu_lines l i).
Proof.
  induction l as [|y l IH]; intros i k x Hk; [discriminate|].
  destruct k as [|k]; cbn [Main.menu_lines].
  - injection Hk as ->. left. now rewrite Z.add_0_r.
  - right. replace (i + Z.of_nat (S k))%Z with (i + 1 + Z.of_nat k)%Z by lia.
    now apply IH.
Qed.

(** X19. The number the archiver selection hands on is one of the menu: it
    lies between 1 and the number of archivers, so the index [a_selection - 1]
    that [__main__] passes to [pull_logs] is in range, not negative, and names
    the archiver printed beside that number. *)
Theorem select_archiver_selects_listed (int : string -> exn + Z) (di : DeviceInfo)
    (stdin : list string) (o : list out) (a : Z) (unread : list string) :
  Main.select_archiver int di stdin = (o, Main.Done a unread) ->
  (1 <= a <= Z.of_nat (length (archivers di)))%Z /\
  exists archiver,
    PyVal.seq_index (archivers di) (a - 1) = Some archiver /\
    In (Line ("    " ++ Py.str_int a ++ " : " ++ archiver)) (Main.menu di).
Proof.
  revert o. induction stdin as [|l rest IH]; intros o; cbn [Main.select_archiver].
  - discriminate.
  - cbv zeta. destruct (Main.select_archiver int di rest) as [o' e'] eqn:Hrec.
    assert (Hagain : forall o1, (o1, e') = (o, Main.Done a unread) ->
              (1 <= a <= Z.of_nat (length (archivers di)))%Z /\
              exists archiver,
                PyVal.seq_index (archivers di) (a - 1) = Some archiver /\
                In (Line ("    " ++ Py.str_int a ++ " : " ++ archiver)) (Main.menu di)).
    { intros o1 H. apply (IH o'). congruence. }
    destruct (int l) as [e|z]; [apply Hagain|].
    destruct (z =? 0)%Z eqn:Hz; [discriminate|].
    destruct (Main.in_range z (Z.of_nat (length (archivers di)) + 1)) eqn:Hin;
      cbn [negb]; [|apply Hagain].
    intros H. injection H as _ -> _.
    unfold Main.in_range in Hin. apply andb_prop in Hin as [H0 H1].
    assert (Ha : (1 <= a <= Z.of_nat (length (archivers di)))%Z) by lia.
    split; [exact Ha|].
    rewrite seq_index_nonneg by lia.
    destruct (archivers di !! Z.to_nat (a - 1)) as [archiver|] eqn:Hk.
    + exists archiver. split; [reflexivity|]. right.
      replace a with (1 + Z.of_nat (Z.to_nat (a - 1)))%Z at 1 by lia.
      now apply menu_lines_lookup.
    + apply lookup_ge_None in Hk. lia.
Qed.

Lemma select_archiver_selects_listed_witness :
  PyVal.seq_index (archivers SampleLogs.di) (2 - 1) = Some "a2093" /\
  In (Line "    2 : a2093") (Main.menu SampleLogs.di).
Proof.
  destruct (select_archiver_selects_listed SampleMain.int SampleLogs.di ["x"; "3"; "2"; "1"]
              [Text Main.selection_prompt; Line Main.selection_error;
               Text Main.selection_prompt; Line Main.selection_error;
               Text Main.selection_prompt] 2 ["1"] eq_refl)
    as (_ & archiver & Hidx & Hmenu).
  assert (archiver = "a2093") as -> by (vm_compute in Hidx; congruence).
  split; [exact Hidx | exact Hmenu].
Defined.

Lemma select_archiver_app (int : string -> exn + Z) (di : DeviceInfo)
    (bad stdin : list string) :
  Forall (fun l => rejected int di l = true) bad ->
  Main.select_archiver int di (bad ++ stdin)
  = ((selection_retries bad ++ fst (Main.select_archiver int di stdin))%list,
     snd (Main.select_archiver int di stdin)).
Proof.
  induction 1 as [|l bad Hl _ IH]; cbn [app selection_retries flat_map].
  - now destruct (Main.select_archiver int di stdin).
  - cbn [Main.select_archiver]. cbv zeta. rewrite IH. unfold rejected in Hl.
    destruct (int l) as [e|z]; [reflexivity|].
    apply andb_prop in Hl as [Hz Hr].
    destruct (z =? 0)%Z; [discriminate|]. rewrite Hr. reflexivity.
Qed.

(** X20. The archiver selection asks again for every line it does not
    accept, printing its message once for each, and goes on with the rest
    of the input as if those lines had not been there; when the input ends
    before an accepted line, the [EOFError] of [input] ends the script, since
    that [input] is outside the [try]. *)
Theorem select_archiver_skips_rejected (int : string -> exn + Z) (di : DeviceInfo)
    (bad stdin : list string) :
  Forall (fun l => rejected int di l = true) bad ->
  Main.select_archiver int di (bad ++ stdin)
  = ((selection_retries bad ++ fst (Main.select_archiver int di stdin))%list,
     snd (Main.select_archiver int di stdin)) /\
  Main.select_archiver int di bad
  = ((selection_retries bad ++ [Text Main.selection_prompt])%list, Main.EOFError).
Proof.
  intros Hbad. split; [now apply select_archiver_app|].
  rewrite <- (app_nil_r bad) at 1. now rewrite select_archiver_app.
Qed.

Lemma select_archiver_skips_rejected_witness :
  snd (Main.select_archiver SampleMain.int SampleLogs.di ["x"; "3"; "-1"]) = Main.EOFError.
Proof.
  destruct (select_archiver_skips_rejected SampleMain.int SampleLogs.di ["x"; "3"; "-1"] [])
    as [_ H].
  - repeat constructor.
  - now rewrite H.
Defined.

Lemma read_start_app (strptime : string -> exn + datetime)
    (bad : list (string * string)) (stdin : list string) :
  Forall (fun p => fails (strptime (fst p ++ snd p)) = true) bad ->
  forall fuel,
    Main.read_start strptime (length bad + fuel) (lines_of_pairs bad ++ stdin)
    = ((start_retries bad ++ fst (Main.read_start strptime fuel stdin))%list,
       snd (Main.read_start strptime fuel stdin)).
Proof.
  induction 1 as [|[d t] bad Hp _ IH]; intros fuel;
    cbn [app lines_of_pairs start_retries flat_map length Nat.add fst snd].
  - now destruct (Main.read_start strptime fuel stdin).
  - cbn [Main.read_start]. cbn [fst snd] in Hp.
    destruct (strptime (d ++ t)); [|discriminate].
    fold (lines_of_pairs bad). rewrite IH. reflexivity.
Qed.

(** X21. The start-date loop reads its lines two by two: every pair that
    [strptime] refuses costs one turn and one error message, and the first
    pair it accepts gives the start time, the lines after it being left for
    the next question. *)
Theorem read_start_takes_first_valid_pair (strptime : string -> exn + datetime)
    (bad : list (string * string)) (i_start_date i_start_time : string)
    (start_dt : datetime) (unread : list string) (fuel : nat) :
  Forall (fun p => fails (strptime (fst p ++ snd p)) = true) bad ->
  strptime (i_start_date ++ i_start_time) = inr start_dt ->
  length bad < fuel ->
  Main.read_start strptime fuel
    (lines_of_pairs bad ++ i_start_date :: i_start_time :: unread)
  = ((start_retries bad ++
      [Text Main.start_date_prompt; Text Main.start_time_prompt;
       Line ("    Start time: " ++ Main.str_datetime start_dt)])%list,
     Main.Done start_dt unread).
Proof.
  intros Hbad Hgood Hfuel.
  replace fuel with (length bad + S (fuel - length bad - 1)) by lia.
  rewrite (read_start_app strptime bad _ Hbad).
  cbn [Main.read_start]. rewrite Hgood. reflexivity.
Qed.

Lemma read_start_takes_first_valid_pair_witness :
  Main.read_start SampleMain.strptime 5 ["tomorrow"; "noon"; "20240305"; "1430"; "1"]
  = ([Text Main.start_date_prompt; Text Main.start_time_prompt; Line Main.start_error;
      Text Main.start_date_prompt; Text Main.start_time_prompt;
      Line "    Start time: 2024-03-05 14:30:00"],
     Main.Done (mk_datetime 2024 3 5 14 30 0 0) ["1"]).
Proof.
  apply (read_start_takes_first_valid_pair SampleMain.strptime [("tomorrow", "noon")]
           "20240305" "1430" (mk_datetime 2024 3 5 14 30 0 0) ["1"] 5).
  - repeat constructor.
  - reflexivity.
  - cbn. lia.
Defined.

Lemma read_start_spins (strptime : string -> exn + datetime) (fuel : nat) :
  Main.read_start strptime fuel []
  = (concat (repeat [Text Main.start_date_prompt; Line Main.start_error] fuel),
     Main.Unfinished).
Proof.
  induction fuel as [|fuel IH]; [reflexivity|].
  cbn [Main.read_start]. rewrite IH. reflexivity.
Qed.

(** X22. Once the input has ended, the start-date loop never ends: its
    [input] is inside the [try], so the [EOFError] is caught like a bad
    date, and after any number of turns the loop is still asking, one error
    message printed per turn.  A last line without its time line ends the
    same way. *)
Theorem read_start_never_ends_at_end_of_input (strptime : string -> exn + datetime)
    (fuel : nat) (stdin : list string) :
  length stdin <= 1 ->
  snd (Main.read_start strptime fuel stdin) = Main.Unfinished /\
  Main.read_start strptime fuel []
  = (concat (repeat [Text Main.start_date_prompt; Line Main.start_error] fuel),
     Main.Unfinished).
Proof.
  intros Hlen. split; [|apply read_start_spins].
  destruct stdin as [|d [|t rest]]; [| |cbn in Hlen; lia].
  - now rewrite read_start_spins.
  - destruct fuel as [|fuel]; [reflexivity|].
    cbn [Main.read_start]. now rewrite read_start_spins.
Qed.

Lemma read_start_never_ends_at_end_of_input_witness :
  snd (Main.read_start SampleMain.strptime 1000 ["20240305"]) = Main.Unfinished.
Proof.
  apply (read_start_never_ends_at_end_of_input SampleMain.strptime 1000 ["20240305"]).
  cbn. lia.
Defined.

Lemma lower_char_c (c : ascii) :
  Main.lower_char c = "c"%char -> c = "c"%char \/ c = "C"%char.
Proof.
  destruct c as [[] [] [] [] [] [] [] []]; vm_compute; intros H;
    first [left; reflexivity | right; reflexivity | discriminate H].
Qed.

Lemma lower_is_c (s : string) :
  String.eqb (Main.lower s) "c" = true <-> s = "c" \/ s = "C".
Proof.
  rewrite String.eqb_eq. split.
  - destruct s as [|c [|c' s]]; cbn [Main.lower]; try discriminate.
    intros H. injection H as H.
    destruct (lower_char_c c H) as [-> | ->]; auto.
  - intros [-> | ->]; reflexivity.
Qed.

Lemma read_end_spins (strptime : string -> exn + datetime) (utcnow : datetime)
    (fuel : nat) :
  snd (Main.read_end strptime utcnow fuel []) = Main.Unfinished.
Proof.
  induction fuel as [|fuel IH]; [reflexivity|].
  cbn [Main.read_end]. destruct (Main.read_end strptime utcnow fuel []). exact IH.
Qed.

(** X23. In the end-date loop the answers [c] and [C], and no others, stand
    for the current time: with such a line the loop ends at once with
    [utcnow()], printing it, without asking for a time; any other last line
    of the input leaves the loop asking for ever. *)
Theorem read_end_c_is_now (strptime : string -> exn + datetime) (utcnow : datetime)
    (fuel : nat) (i_end_date : string) :
  (i_end_date = "c" \/ i_end_date = "C" ->
   forall unread,
     Main.read_end strptime utcnow (S fuel) (i_end_date :: unread)
     = ([Text Main.end_date_prompt; Line ("    End time: " ++ Main.str_datetime utcnow)],
        Main.Done utcnow unread)) /\
  (~ (i_end_date = "c" \/ i_end_date = "C") ->
   snd (Main.read_end strptime utcnow (S fuel) [i_end_date]) = Main.Unfinished).
Proof.
  split.
  - intros Hc unread. cbn [Main.read_end].
    now rewrite (proj2 (lower_is_c i_end_date) Hc).
  - intros Hc. cbn [Main.read_end].
    destruct (String.eqb (Main.lower i_end_date) "c") eqn:Hl.
    + now apply lower_is_c in Hl.
    + pose proof (read_end_spins strptime utcnow fuel) as Hs.
      destruct (Main.read_end strptime utcnow fuel []). exact Hs.
Qed.

Lemma read_end_c_is_now_witness :
  Main.read_end SampleMain.strptime SampleMain.utcnow 1 ["C"; "left"]
  = ([Text Main.end_date_prompt; Line "    End time: 2024-03-05 15:00:07.250000"],
     Main.Done SampleMain.utcnow ["left"]) /\
  snd (Main.read_end SampleMain.strptime SampleMain.utcnow 1 ["cc"]) = Main.Unfinished.
Proof.
  split.
  - apply (proj1 (read_end_c_is_now SampleMain.strptime SampleMain.utcnow 0 "C")).
    right. reflexivity.
  - apply (proj2 (read_end_c_is_now SampleMain.strptime SampleMain.utcnow 0 "cc")).
    intros [H | H]; discriminate H.
Defined.

(** ** From the login to the requests *)

(** X24. The cookie of the login is what the resolver is shown: after a
    login that goes well, the one request of [get_device_info] carries the
    [auth_key] cookie of the [/g/aaa/authorize] answer both as [auth_key] and
    as [vbsadmin_sessionid]. *)
Theorem login_cookie_reaches_device_info (o : Login.Outside) (username : string)
    (password : option string) (s : Login.State) (pw : string) (r1 r2 : Login.Reply)
    (j tok ud sub : pyval) (key : string) (env : Env) (bridge_esn : string) (w : World) :
  password_used o username password = inr pw ->
  Login.remote o (authenticate_post (Login.sessions_made s) username pw) = inr r1 ->
  ok (Login.response r1) = true ->
  json (Login.response r1) = inr j ->
  PyVal.subscript j (PStr "token") = inr tok ->
  Login.remote o (authorize_post (Login.sessions_made s) tok) = inr r2 ->
  ok (Login.response r2) = true ->
  Login.cookies_getitem r2 "auth_key" = inr key ->
  json (Login.response r2) = inr ud ->
  PyVal.subscript ud (PStr "active_brand_subdomain") = inr sub ->
  sent (snd (get_device_info env
               (Self_of (Login.self (snd (Login.__init__ o username password s))))
               bridge_esn w))
  = (sent w
     ++ [mk_Request true
           ("https://nexus.aus1hub1.eencloud.com/api/v2/EsnDetails/" ++ bridge_esn) []
           [("auth_key", key); ("vbsadmin_sessionid", key)] false None])%list.
Proof.
  intros Hpw Hr1 Hok1 Hj1 Htok Hr2 Hok2 Hkey Hj2 Hsub.
  rewrite (init_run o username password s pw r1 r2 j tok ud sub key
             Hpw Hr1 Hok1 Hj1 Htok Hr2 Hok2 Hkey Hj2 Hsub).
  cbn [snd Login.self]. rewrite get_device_info_sent. reflexivity.
Qed.

Lemma login_cookie_reaches_device_info_witness :
  map cookies
    (sent (snd (get_device_info Sample.env_resolver
                  (Self_of (Login.self (snd (Login.__init__ SampleLogin.outside
                                               "user@example.com" None Login.blank))))
                  Sample.esn1 Sample.w0)))
  = [[("auth_key", "c000~0123abcd"); ("vbsadmin_sessionid", "c000~0123abcd")]].
Proof.
  rewrite (login_cookie_reaches_device_info SampleLogin.outside "user@example.com" None
             Login.blank "hunter2"
             (SampleLogin.reply 200 (inr (PDict [(PStr "token", PStr "tok123")])) [])
             (SampleLogin.reply 200
                (inr (PDict [(PStr "active_brand_subdomain", PStr "c001")]))
                [("auth_key", "c000~0123abcd")])
             (PDict [(PStr "token", PStr "tok123")]) (PStr "tok123")
             (PDict [(PStr "active_brand_subdomain", PStr "c001")]) (PStr "c001")
             "c000~0123abcd" Sample.env_resolver Sample.esn1 Sample.w0);
    reflexivity.
Defined.
